(** * The Merkle-tree layer of LMS (RFC 8554) in Mbed TLS: library/lms.c

    A shallow embedding of library/lms.c.  C integers are [Z], with the
    32-bit wrap-around written where the code can reach it; buffers are
    lists of bytes addressed by offset; a C function that writes through
    its pointer arguments returns the new contents beside its [int]
    result.  The collaborators that sit outside lms.c (the header's length
    macros, the PSA hash, the LMOTS primitive, the allocator) are
    interfaces: type classes whose fields carry the C names. *)

From Stdlib Require Import ZArith List Lia Bool Sorted.
From stdpp Require Import base list.
Import ListNotations.
Local Open Scope Z_scope.

(** ** Bytes and buffers *)

(** [unsigned char]: a value in 0..255. *)
Definition byte := Z.

(** [len] bytes of [buf] starting at [buf + off]. *)
Definition read (buf : list byte) (off len : Z) : list byte :=
  take (Z.to_nat len) (drop (Z.to_nat off) buf).

(** [buf] after [data] was stored at [buf + off]. *)
Definition write (buf : list byte) (off : Z) (data : list byte) : list byte :=
  take (Z.to_nat off) buf ++ data ++ drop (Z.to_nat off + length data) buf.

(** [memcpy( dst + doff, src + soff, n )]. *)
Definition memcpy (dst : list byte) (doff : Z) (src : list byte) (soff n : Z)
  : list byte :=
  write dst doff (read src soff n).

(** A read from a caller-supplied input buffer of [length buf] bytes:
    [None] when it would run past the end of the buffer, which C leaves
    undefined. *)
Definition read_in (buf : list byte) (off len : Z) : option (list byte) :=
  if (0 <=? off) && (0 <=? len) && (off + len <=? Z.of_nat (length buf))
  then Some (read buf off len) else None.

(** [memcmp( a, b, n ) == 0]. *)
Definition memcmp_eq (a b : list byte) (n : Z) : bool :=
  bool_decide (read a 0 n = read b 0 n).

(** [unsigned int] arithmetic is modulo 2^32. *)
Definition u32 (x : Z) : Z := x mod 2 ^ 32.

(** ** Constants of the headers *)

(** Modelled from the spec: include/mbedtls/lms.h and library/lmots.h are not
    among the sources; these are the algorithm identifiers of section 6.3
    and the fixed field lengths of section 3. *)
Definition MBEDTLS_LMS_SHA256_M32_H10 : Z := 6.
Definition MBEDTLS_LMOTS_SHA256_N32_W8 : Z := 4.
Definition MBEDTLS_LMS_TYPE_LEN : Z := 4.
Definition MBEDTLS_LMOTS_TYPE_LEN : Z := 4.
Definition MBEDTLS_LMOTS_I_KEY_ID_LEN : Z := 16.
Definition MBEDTLS_LMOTS_Q_LEAF_ID_LEN : Z := 4.
Definition MBEDTLS_LMS_M_NODE_BYTES_MAX : Z := 32.
Definition MBEDTLS_LMOTS_N_HASH_LEN_MAX : Z := 32.

(** Modelled from the spec: the error kinds of section 7.  The header that
    gives them their numbers is not among the sources; the numbers below
    are those of the Mbed TLS API, and the development uses only that they
    are distinct and not zero. *)
Definition MBEDTLS_ERR_LMS_BAD_INPUT_DATA : Z := -17.
Definition MBEDTLS_ERR_LMS_OUT_OF_PRIVATE_KEYS : Z := -19.
Definition MBEDTLS_ERR_LMS_VERIFY_FAILED : Z := -21.
Definition MBEDTLS_ERR_LMS_ALLOC_FAILED : Z := -23.
Definition MBEDTLS_ERR_LMS_BUFFER_TOO_SMALL : Z := -25.
Definition MBEDTLS_ERR_ERROR_CORRUPTION_DETECTED : Z := -110.

(** The length macros that take an algorithm identifier.  lms.c only
    applies them; their definitions are in the headers, so they are
    parameters of the development. *)
Class LmsHeader := {
  MBEDTLS_LMS_H_TREE_HEIGHT : Z -> Z;
  MBEDTLS_LMS_M_NODE_BYTES : Z -> Z;
  MBEDTLS_LMOTS_N_HASH_LEN : Z -> Z;
  MBEDTLS_LMOTS_SIG_LEN : Z -> Z;
  MBEDTLS_LMOTS_SIG_TYPE_OFFSET : Z
}.

(** ** The wire codec *)

(** Modelled from the spec: [encode_u] of section 4.1 (the function is in
    lmots.c, which is not among the sources): [val] in [len] bytes, most
    significant byte first. *)
Fixpoint mbedtls_lms_unsigned_int_to_network_bytes (val : Z) (len : nat)
  : list byte :=
  match len with
  | O => []
  | S k =>
      Z.land (Z.shiftr val (8 * Z.of_nat k)) 255
        :: mbedtls_lms_unsigned_int_to_network_bytes val k
  end.

(** Modelled from the spec: [decode_u] of section 4.1 (also in lmots.c): the
    unsigned big-endian value of the first [len] bytes. *)
Fixpoint mbedtls_lms_network_bytes_to_unsigned_int (len : nat)
  (bytes : list byte) : Z :=
  match len, bytes with
  | S k, b :: rest =>
      Z.lor (u32 (Z.shiftl b (8 * Z.of_nat k)))
            (mbedtls_lms_network_bytes_to_unsigned_int k rest)
  | _, _ => 0
  end.

(** ** Contexts *)

Record mbedtls_lms_parameters_t := {
  I_key_identifier : list byte;
  otstype : Z;
  type : Z
}.

Record mbedtls_lms_public_t := {
  params : mbedtls_lms_parameters_t;
  T_1_pub_key : list byte;
  have_public_key : bool
}.

Definition set_type (p : mbedtls_lms_parameters_t) (t : Z) :=
  {| I_key_identifier := I_key_identifier p; otstype := otstype p; type := t |}.
Definition set_otstype (p : mbedtls_lms_parameters_t) (t : Z) :=
  {| I_key_identifier := I_key_identifier p; otstype := t; type := type p |}.
Definition set_I_key_identifier (p : mbedtls_lms_parameters_t) (i : list byte) :=
  {| I_key_identifier := i; otstype := otstype p; type := type p |}.

Definition set_params (c : mbedtls_lms_public_t) (p : mbedtls_lms_parameters_t) :=
  {| params := p; T_1_pub_key := T_1_pub_key c;
     have_public_key := have_public_key c |}.
Definition set_T_1_pub_key (c : mbedtls_lms_public_t) (t : list byte) :=
  {| params := params c; T_1_pub_key := t;
     have_public_key := have_public_key c |}.
Definition set_have_public_key (c : mbedtls_lms_public_t) (b : bool) :=
  {| params := params c; T_1_pub_key := T_1_pub_key c; have_public_key := b |}.

(** [mbedtls_platform_zeroize] over a parameter block. *)
Definition zero_parameters : mbedtls_lms_parameters_t :=
  {| I_key_identifier := repeat 0 (Z.to_nat MBEDTLS_LMOTS_I_KEY_ID_LEN);
     otstype := 0; type := 0 |}.

(** [mbedtls_lms_init_public]: the context is all zero bytes. *)
Definition mbedtls_lms_init_public : mbedtls_lms_public_t :=
  {| params := zero_parameters;
     T_1_pub_key := repeat 0 (Z.to_nat MBEDTLS_LMS_M_NODE_BYTES_MAX);
     have_public_key := false |}.

(** [mbedtls_lms_free_public] zeroizes as well. *)
Definition mbedtls_lms_free_public (ctx : mbedtls_lms_public_t)
  : mbedtls_lms_public_t := mbedtls_lms_init_public.

(** ** The PSA hash *)

Definition PSA_SUCCESS : Z := 0.
Definition PSA_ERROR_BUFFER_TOO_SMALL : Z := -138.
Definition PSA_ALG_SHA_256 : Z := 33554441.

(** One call of the multipart hash API, with the input fed to the
    operation before it. *)
Inductive psa_hash_call :=
| PsaHashSetup (alg : Z)
| PsaHashUpdate (fed input : list byte)
| PsaHashFinish (fed : list byte) (hash_size : Z).

(** Modelled from the spec: the hash primitive of sections 1 and 4.2 (the PSA
    implementation and [mbedtls_lms_error_from_psa] of lmots.c are not among
    the sources).  [sha256] is the digest, [psa_hash_status] the status
    the backend reports for a call (a backend may fail any of them), and
    [mbedtls_lms_error_from_psa] the translation of a status into the
    library's error code. *)
Class PsaHash := {
  sha256 : list byte -> list byte;
  psa_hash_status : psa_hash_call -> Z;
  mbedtls_lms_error_from_psa : Z -> Z
}.

(** The operation object holds the input fed so far. *)
Definition psa_hash_operation_t := list byte.
Definition psa_hash_operation_init : psa_hash_operation_t := [].

(** ** The LMOTS primitive *)

Record mbedtls_lmots_parameters_t := {
  lmots_I_key_identifier : list byte;
  lmots_q_leaf_identifier : list byte;
  lmots_type : Z
}.

(** Modelled from the spec: the OTS collaborator of section 6.4 (lmots.c is
    not among the sources).  [P_rng] is the caller's RNG state and
    [f_rng p len] the callback asked for [len] bytes: its return code, the
    bytes it stored and the new state.  A function with an output buffer
    returns the bytes it stored there; an input given as pointer and
    length is the bytes in that range; [I] is the 16 bytes of the
    [I_key_identifier] array. *)
Class Lmots (P_rng : Type) := {
  mbedtls_lmots_private_t : Type;
  mbedtls_lmots_public_t : Type;
  public_key : mbedtls_lmots_public_t -> list byte;
  mbedtls_lmots_init_private : mbedtls_lmots_private_t;
  mbedtls_lmots_init_public : mbedtls_lmots_public_t;
  mbedtls_lmots_generate_private_key :
    mbedtls_lmots_private_t -> Z -> list byte -> Z -> list byte ->
    Z * mbedtls_lmots_private_t;
  mbedtls_lmots_calculate_public_key :
    mbedtls_lmots_public_t -> mbedtls_lmots_private_t ->
    Z * mbedtls_lmots_public_t;
  mbedtls_lmots_sign :
    mbedtls_lmots_private_t ->
    (P_rng -> Z -> Z * list byte * P_rng) -> P_rng ->
    list byte -> Z ->
    Z * mbedtls_lmots_private_t * P_rng * list byte;
  mbedtls_lmots_calculate_public_key_candidate :
    mbedtls_lmots_parameters_t -> list byte -> list byte -> Z ->
    Z * list byte
}.

(** Modelled from the spec: the allocator behind [mbedtls_calloc] (platform
    code, not among the sources), which section 7 lets fail with
    [AllocFailed]: whether the [n]-th request of a call is granted. *)
Class Platform := {
  mbedtls_calloc_ok : nat -> bool
}.

(** ** Offsets (the macros at the head of lms.c) and public-key functions *)

Section Lms.
Context `{LmsHeader} `{PsaHash} `{Platform} {P_rng : Type} `{Lmots P_rng}.

Definition SIG_Q_LEAF_ID_OFFSET : Z := 0.
Definition SIG_OTS_SIG_OFFSET : Z :=
  SIG_Q_LEAF_ID_OFFSET + MBEDTLS_LMOTS_Q_LEAF_ID_LEN.
Definition SIG_TYPE_OFFSET (otstype : Z) : Z :=
  SIG_OTS_SIG_OFFSET + MBEDTLS_LMOTS_SIG_LEN otstype.
Definition SIG_PATH_OFFSET (otstype : Z) : Z :=
  SIG_TYPE_OFFSET otstype + MBEDTLS_LMS_TYPE_LEN.

Definition PUBLIC_KEY_TYPE_OFFSET : Z := 0.
Definition PUBLIC_KEY_OTSTYPE_OFFSET : Z :=
  PUBLIC_KEY_TYPE_OFFSET + MBEDTLS_LMS_TYPE_LEN.
Definition PUBLIC_KEY_I_KEY_ID_OFFSET : Z :=
  PUBLIC_KEY_OTSTYPE_OFFSET + MBEDTLS_LMOTS_TYPE_LEN.
Definition PUBLIC_KEY_ROOT_NODE_OFFSET : Z :=
  PUBLIC_KEY_I_KEY_ID_OFFSET + MBEDTLS_LMOTS_I_KEY_ID_LEN.

(** Modelled from the spec: the two composite length macros of lms.h, as
    sections 3 and 6.2 compute them: [TYPE_LEN + OTS_TYPE_LEN + I_LEN + m]
    and [Q_LEN + OTS_SIG_LEN + TYPE_LEN + H * m]. *)
Definition MBEDTLS_LMS_PUBLIC_KEY_LEN (type : Z) : Z :=
  MBEDTLS_LMS_TYPE_LEN + MBEDTLS_LMOTS_TYPE_LEN + MBEDTLS_LMOTS_I_KEY_ID_LEN
  + MBEDTLS_LMS_M_NODE_BYTES type.
Definition MBEDTLS_LMS_SIG_LEN (type otstype : Z) : Z :=
  MBEDTLS_LMOTS_Q_LEAF_ID_LEN + MBEDTLS_LMOTS_SIG_LEN otstype
  + MBEDTLS_LMS_TYPE_LEN
  + MBEDTLS_LMS_H_TREE_HEIGHT type * MBEDTLS_LMS_M_NODE_BYTES type.

Definition H_TREE_HEIGHT_MAX : Z := 10.
Definition MERKLE_TREE_NODE_AM_MAX : Z := u32 (Z.shiftl 1 (H_TREE_HEIGHT_MAX + 1)).
Definition MERKLE_TREE_NODE_AM (type : Z) : Z :=
  u32 (Z.shiftl 1 (MBEDTLS_LMS_H_TREE_HEIGHT type + 1)).
Definition MERKLE_TREE_LEAF_NODE_AM (type : Z) : Z :=
  u32 (Z.shiftl 1 (MBEDTLS_LMS_H_TREE_HEIGHT type)).
Definition MERKLE_TREE_INTERNAL_NODE_AM (type : Z) : Z :=
  u32 (Z.shiftl 1 (MBEDTLS_LMS_H_TREE_HEIGHT type)).

Definition D_CONST_LEN : Z := 2.
Definition D_LEAF_CONSTANT_BYTES : list byte := [130; 130].
Definition D_INTR_CONSTANT_BYTES : list byte := [131; 131].

(** [mbedtls_lms_import_public_key( ctx, key, key_size )], with
    [key_size = length key].  The result is the return code and the
    context the call leaves behind; [None] is a read past the end of
    [key]. *)
Definition mbedtls_lms_import_public_key (ctx : mbedtls_lms_public_t)
  (key : list byte) : option (Z * mbedtls_lms_public_t) :=
  let key_size := Z.of_nat (length key) in
  if key_size <? MBEDTLS_LMS_PUBLIC_KEY_LEN (type (params ctx))
  then Some (MBEDTLS_ERR_LMS_BUFFER_TOO_SMALL, ctx)
  else
    type_bytes ← read_in key PUBLIC_KEY_TYPE_OFFSET MBEDTLS_LMS_TYPE_LEN;
    let type_ :=
      mbedtls_lms_network_bytes_to_unsigned_int
        (Z.to_nat MBEDTLS_LMS_TYPE_LEN) type_bytes in
    if negb (type_ =? MBEDTLS_LMS_SHA256_M32_H10)
    then Some (MBEDTLS_ERR_LMS_BAD_INPUT_DATA, ctx)
    else
      let ctx := set_params ctx (set_type (params ctx) type_) in
      otstype_bytes ← read_in key PUBLIC_KEY_OTSTYPE_OFFSET MBEDTLS_LMOTS_TYPE_LEN;
      let otstype_ :=
        mbedtls_lms_network_bytes_to_unsigned_int
          (Z.to_nat MBEDTLS_LMOTS_TYPE_LEN) otstype_bytes in
      if negb (otstype_ =? MBEDTLS_LMOTS_SHA256_N32_W8)
      then Some (MBEDTLS_ERR_LMS_BAD_INPUT_DATA, ctx)
      else
        let ctx := set_params ctx (set_otstype (params ctx) otstype_) in
        I_bytes ← read_in key PUBLIC_KEY_I_KEY_ID_OFFSET MBEDTLS_LMOTS_I_KEY_ID_LEN;
        let ctx :=
          set_params ctx
            (set_I_key_identifier (params ctx)
               (write (I_key_identifier (params ctx)) 0 I_bytes)) in
        T_bytes ← read_in key PUBLIC_KEY_ROOT_NODE_OFFSET
                    (MBEDTLS_LMS_M_NODE_BYTES (type (params ctx)));
        let ctx := set_T_1_pub_key ctx (write (T_1_pub_key ctx) 0 T_bytes) in
        let ctx := set_have_public_key ctx true in
        Some (0, ctx).

(** [mbedtls_lms_export_public_key( ctx, key, key_size, key_len )], with
    [key] the output buffer of [key_size = length key] bytes.  The result
    is the return code, the buffer after the call and the value stored in
    [*key_len] (when something is stored). *)
Definition mbedtls_lms_export_public_key (ctx : mbedtls_lms_public_t)
  (key : list byte) : Z * list byte * option Z :=
  let key_size := Z.of_nat (length key) in
  if key_size <? MBEDTLS_LMS_PUBLIC_KEY_LEN (type (params ctx))
  then (MBEDTLS_ERR_LMS_BUFFER_TOO_SMALL, key, None)
  else if negb (have_public_key ctx)
  then (MBEDTLS_ERR_LMS_BAD_INPUT_DATA, key, None)
  else
    let key :=
      write key PUBLIC_KEY_TYPE_OFFSET
        (mbedtls_lms_unsigned_int_to_network_bytes (type (params ctx))
           (Z.to_nat MBEDTLS_LMS_TYPE_LEN)) in
    let key :=
      write key PUBLIC_KEY_OTSTYPE_OFFSET
        (mbedtls_lms_unsigned_int_to_network_bytes (otstype (params ctx))
           (Z.to_nat MBEDTLS_LMOTS_TYPE_LEN)) in
    let key :=
      memcpy key PUBLIC_KEY_I_KEY_ID_OFFSET
        (I_key_identifier (params ctx)) 0 MBEDTLS_LMOTS_I_KEY_ID_LEN in
    let key :=
      memcpy key PUBLIC_KEY_ROOT_NODE_OFFSET
        (T_1_pub_key ctx) 0 (MBEDTLS_LMS_M_NODE_BYTES (type (params ctx))) in
    (0, key, Some (MBEDTLS_LMS_PUBLIC_KEY_LEN (type (params ctx)))).

(** A pointer into a buffer: [buf + off]. *)
Definition ptr_add (buf : list byte) (off : Z) : list byte :=
  drop (Z.to_nat off) buf.

(** [psa_hash_setup], [psa_hash_update] and [psa_hash_finish]: the status
    and the operation (for [finish]: the output buffer) after the call. *)
Definition psa_hash_setup (op : psa_hash_operation_t) (alg : Z)
  : Z * psa_hash_operation_t :=
  (psa_hash_status (PsaHashSetup alg), []).

Definition psa_hash_update (op : psa_hash_operation_t) (input : list byte)
  (input_length : Z) : Z * psa_hash_operation_t :=
  let data := read input 0 input_length in
  let status := psa_hash_status (PsaHashUpdate op data) in
  (status, if status =? PSA_SUCCESS then op ++ data else op).

Definition psa_hash_finish (op : psa_hash_operation_t) (hash : list byte)
  (hash_size : Z) : Z * list byte :=
  let status := psa_hash_status (PsaHashFinish op hash_size) in
  if negb (status =? PSA_SUCCESS) then (status, hash)
  else if hash_size <? Z.of_nat (length (sha256 op))
  then (PSA_ERROR_BUFFER_TOO_SMALL, hash)
  else (PSA_SUCCESS, write hash 0 (sha256 op)).

(** [create_merkle_leaf_value( params, pub_key, r_node_idx, out )]: the
    return code and the bytes at [out] after the call. *)
Definition create_merkle_leaf_value (params : mbedtls_lms_parameters_t)
  (pub_key : list byte) (r_node_idx : Z) (out : list byte) : Z * list byte :=
  let op := psa_hash_operation_init in
  let '(status, op) := psa_hash_setup op PSA_ALG_SHA_256 in
  if negb (status =? PSA_SUCCESS) then (mbedtls_lms_error_from_psa status, out)
  else
  let '(status, op) :=
    psa_hash_update op (I_key_identifier params) MBEDTLS_LMOTS_I_KEY_ID_LEN in
  if negb (status =? PSA_SUCCESS) then (mbedtls_lms_error_from_psa status, out)
  else
  let r_node_idx_bytes :=
    mbedtls_lms_unsigned_int_to_network_bytes r_node_idx 4 in
  let '(status, op) := psa_hash_update op r_node_idx_bytes 4 in
  if negb (status =? PSA_SUCCESS) then (mbedtls_lms_error_from_psa status, out)
  else
  let '(status, op) := psa_hash_update op D_LEAF_CONSTANT_BYTES D_CONST_LEN in
  if negb (status =? PSA_SUCCESS) then (mbedtls_lms_error_from_psa status, out)
  else
  let '(status, op) :=
    psa_hash_update op pub_key (MBEDTLS_LMOTS_N_HASH_LEN (otstype params)) in
  if negb (status =? PSA_SUCCESS) then (mbedtls_lms_error_from_psa status, out)
  else
  let '(status, out) :=
    psa_hash_finish op out (MBEDTLS_LMS_M_NODE_BYTES (type params)) in
  (mbedtls_lms_error_from_psa status, out).

(** [create_merkle_internal_value( params, left_node, right_node,
    r_node_idx, out )].  The two children are read before [out] is
    written, so [out] may be one of them. *)
Definition create_merkle_internal_value (params : mbedtls_lms_parameters_t)
  (left_node right_node : list byte) (r_node_idx : Z) (out : list byte)
  : Z * list byte :=
  let op := psa_hash_operation_init in
  let '(status, op) := psa_hash_setup op PSA_ALG_SHA_256 in
  if negb (status =? PSA_SUCCESS) then (mbedtls_lms_error_from_psa status, out)
  else
  let '(status, op) :=
    psa_hash_update op (I_key_identifier params) MBEDTLS_LMOTS_I_KEY_ID_LEN in
  if negb (status =? PSA_SUCCESS) then (mbedtls_lms_error_from_psa status, out)
  else
  let r_node_idx_bytes :=
    mbedtls_lms_unsigned_int_to_network_bytes r_node_idx 4 in
  let '(status, op) := psa_hash_update op r_node_idx_bytes 4 in
  if negb (status =? PSA_SUCCESS) then (mbedtls_lms_error_from_psa status, out)
  else
  let '(status, op) := psa_hash_update op D_INTR_CONSTANT_BYTES D_CONST_LEN in
  if negb (status =? PSA_SUCCESS) then (mbedtls_lms_error_from_psa status, out)
  else
  let '(status, op) :=
    psa_hash_update op left_node (MBEDTLS_LMS_M_NODE_BYTES (type params)) in
  if negb (status =? PSA_SUCCESS) then (mbedtls_lms_error_from_psa status, out)
  else
  let '(status, op) :=
    psa_hash_update op right_node (MBEDTLS_LMS_M_NODE_BYTES (type params)) in
  if negb (status =? PSA_SUCCESS) then (mbedtls_lms_error_from_psa status, out)
  else
  let '(status, out) :=
    psa_hash_finish op out (MBEDTLS_LMS_M_NODE_BYTES (type params)) in
  (mbedtls_lms_error_from_psa status, out).

(** The loop of [mbedtls_lms_verify] that climbs from the leaf to the
    root: [n] iterations are left, [height] is the loop counter.  The
    return codes of [create_merkle_internal_value] are dropped, as in the
    source. *)
Fixpoint verify_climb (n : nat) (ctx : mbedtls_lms_public_t) (sig : list byte)
  (height curr_node_id : Z) (Tc_candidate_root_node : list byte) : list byte :=
  match n with
  | O => Tc_candidate_root_node
  | S n' =>
      let parent_node_id := curr_node_id / 2 in
      let path_node :=
        ptr_add sig
          (SIG_PATH_OFFSET (otstype (params ctx))
           + height * MBEDTLS_LMS_M_NODE_BYTES (type (params ctx))) in
      let '(left_node, right_node) :=
        if negb (Z.land curr_node_id 1 =? 0)
        then (path_node, Tc_candidate_root_node)
        else (Tc_candidate_root_node, path_node) in
      let '(_, Tc_candidate_root_node) :=
        create_merkle_internal_value (params ctx) left_node right_node
          parent_node_id Tc_candidate_root_node in
      verify_climb n' ctx sig (height + 1) (curr_node_id / 2)
        Tc_candidate_root_node
  end.

(** [mbedtls_lms_verify( ctx, msg, msg_size, sig, sig_size )], with
    [sig_size = length sig].  The last two arguments are the contents of
    the local arrays of the same names when the function is entered (C
    leaves them indeterminate). *)
Definition mbedtls_lms_verify (ctx : mbedtls_lms_public_t)
  (msg sig : list byte)
  (Kc_candidate_ots_pub_key Tc_candidate_root_node : list byte) : Z :=
  let sig_size := Z.of_nat (length sig) in
  if negb (have_public_key ctx) then MBEDTLS_ERR_LMS_BAD_INPUT_DATA
  else if negb (sig_size =?
                MBEDTLS_LMS_SIG_LEN (type (params ctx)) (otstype (params ctx)))
  then MBEDTLS_ERR_LMS_BAD_INPUT_DATA
  else if negb (type (params ctx) =? MBEDTLS_LMS_SHA256_M32_H10)
  then MBEDTLS_ERR_LMS_BAD_INPUT_DATA
  else if negb (otstype (params ctx) =? MBEDTLS_LMOTS_SHA256_N32_W8)
  then MBEDTLS_ERR_LMS_BAD_INPUT_DATA
  else if negb (mbedtls_lms_network_bytes_to_unsigned_int
                  (Z.to_nat MBEDTLS_LMOTS_TYPE_LEN)
                  (ptr_add sig (SIG_OTS_SIG_OFFSET + MBEDTLS_LMOTS_SIG_TYPE_OFFSET))
                =? MBEDTLS_LMOTS_SHA256_N32_W8)
  then MBEDTLS_ERR_LMS_VERIFY_FAILED
  else if negb (mbedtls_lms_network_bytes_to_unsigned_int
                  (Z.to_nat MBEDTLS_LMS_TYPE_LEN)
                  (ptr_add sig (SIG_TYPE_OFFSET (otstype (params ctx))))
                =? MBEDTLS_LMS_SHA256_M32_H10)
  then MBEDTLS_ERR_LMS_VERIFY_FAILED
  else
  let q_leaf_identifier :=
    mbedtls_lms_network_bytes_to_unsigned_int
      (Z.to_nat MBEDTLS_LMOTS_Q_LEAF_ID_LEN) (ptr_add sig SIG_Q_LEAF_ID_OFFSET) in
  if q_leaf_identifier >=? MERKLE_TREE_LEAF_NODE_AM (type (params ctx))
  then MBEDTLS_ERR_LMS_VERIFY_FAILED
  else
  let ots_params :=
    {| lmots_I_key_identifier :=
         read (I_key_identifier (params ctx)) 0 MBEDTLS_LMOTS_I_KEY_ID_LEN;
       lmots_q_leaf_identifier :=
         mbedtls_lms_unsigned_int_to_network_bytes q_leaf_identifier
           (Z.to_nat MBEDTLS_LMOTS_Q_LEAF_ID_LEN);
       lmots_type := otstype (params ctx) |} in
  let '(ret, Kc) :=
    mbedtls_lmots_calculate_public_key_candidate ots_params msg
      (read sig SIG_OTS_SIG_OFFSET (MBEDTLS_LMOTS_SIG_LEN (otstype (params ctx))))
      MBEDTLS_LMOTS_N_HASH_LEN_MAX in
  let Kc_candidate_ots_pub_key := write Kc_candidate_ots_pub_key 0 Kc in
  if negb (ret =? 0) then ret
  else
  let '(_, Tc_candidate_root_node) :=
    create_merkle_leaf_value (params ctx) Kc_candidate_ots_pub_key
      (u32 (MERKLE_TREE_INTERNAL_NODE_AM (type (params ctx)) + q_leaf_identifier))
      Tc_candidate_root_node in
  let curr_node_id :=
    u32 (MERKLE_TREE_INTERNAL_NODE_AM (type (params ctx)) + q_leaf_identifier) in
  let Tc_candidate_root_node :=
    verify_climb (Z.to_nat (MBEDTLS_LMS_H_TREE_HEIGHT (type (params ctx))))
      ctx sig 0 curr_node_id Tc_candidate_root_node in
  if negb (memcmp_eq Tc_candidate_root_node (T_1_pub_key ctx)
             (MBEDTLS_LMS_M_NODE_BYTES (type (params ctx))))
  then MBEDTLS_ERR_LMS_VERIFY_FAILED
  else 0.

(** ** The private key *)

(** What the allocator knows of the block a pointer field holds: the
    pointer is NULL, the block is live, the block was freed (the pointer
    dangles), or the block was handed to [mbedtls_free] a second time,
    which C leaves undefined. *)
Inductive block_state :=
| block_null
| block_live
| block_freed
| block_freed_twice.

(** [mbedtls_free( p )] on the block behind [p]: nothing for NULL; a live
    block is freed; a freed block is freed again. *)
Definition mbedtls_free (b : block_state) : block_state :=
  match b with
  | block_null => block_null
  | block_live => block_freed
  | block_freed => block_freed_twice
  | block_freed_twice => block_freed_twice
  end.

(** The two pointer fields are the cells of the array the pointer
    designates ([[]] when it designates none) and, beside them, the state
    of the block the pointer holds. *)
Record mbedtls_lms_private_t := {
  priv_params : mbedtls_lms_parameters_t;
  q_next_usable_key : Z;
  ots_private_keys : list mbedtls_lmots_private_t;
  ots_public_keys : list mbedtls_lmots_public_t;
  have_private_key : bool;
  ots_private_keys_block : block_state;
  ots_public_keys_block : block_state
}.

Definition set_priv_params (c : mbedtls_lms_private_t)
  (p : mbedtls_lms_parameters_t) :=
  {| priv_params := p; q_next_usable_key := q_next_usable_key c;
     ots_private_keys := ots_private_keys c;
     ots_public_keys := ots_public_keys c;
     have_private_key := have_private_key c;
     ots_private_keys_block := ots_private_keys_block c;
     ots_public_keys_block := ots_public_keys_block c |}.
Definition set_q_next_usable_key (c : mbedtls_lms_private_t) (q : Z) :=
  {| priv_params := priv_params c; q_next_usable_key := q;
     ots_private_keys := ots_private_keys c;
     ots_public_keys := ots_public_keys c;
     have_private_key := have_private_key c;
     ots_private_keys_block := ots_private_keys_block c;
     ots_public_keys_block := ots_public_keys_block c |}.
Definition set_ots_private_keys (c : mbedtls_lms_private_t)
  (l : list mbedtls_lmots_private_t) :=
  {| priv_params := priv_params c; q_next_usable_key := q_next_usable_key c;
     ots_private_keys := l; ots_public_keys := ots_public_keys c;
     have_private_key := have_private_key c;
     ots_private_keys_block := ots_private_keys_block c;
     ots_public_keys_block := ots_public_keys_block c |}.
Definition set_ots_public_keys (c : mbedtls_lms_private_t)
  (l : list mbedtls_lmots_public_t) :=
  {| priv_params := priv_params c; q_next_usable_key := q_next_usable_key c;
     ots_private_keys := ots_private_keys c; ots_public_keys := l;
     have_private_key := have_private_key c;
     ots_private_keys_block := ots_private_keys_block c;
     ots_public_keys_block := ots_public_keys_block c |}.
Definition set_have_private_key (c : mbedtls_lms_private_t) (b : bool) :=
  {| priv_params := priv_params c; q_next_usable_key := q_next_usable_key c;
     ots_private_keys := ots_private_keys c;
     ots_public_keys := ots_public_keys c; have_private_key := b;
     ots_private_keys_block := ots_private_keys_block c;
     ots_public_keys_block := ots_public_keys_block c |}.
Definition set_ots_private_keys_block (c : mbedtls_lms_private_t)
  (b : block_state) :=
  {| priv_params := priv_params c; q_next_usable_key := q_next_usable_key c;
     ots_private_keys := ots_private_keys c;
     ots_public_keys := ots_public_keys c;
     have_private_key := have_private_key c;
     ots_private_keys_block := b;
     ots_public_keys_block := ots_public_keys_block c |}.
Definition set_ots_public_keys_block (c : mbedtls_lms_private_t)
  (b : block_state) :=
  {| priv_params := priv_params c; q_next_usable_key := q_next_usable_key c;
     ots_private_keys := ots_private_keys c;
     ots_public_keys := ots_public_keys c;
     have_private_key := have_private_key c;
     ots_private_keys_block := ots_private_keys_block c;
     ots_public_keys_block := b |}.

(** [mbedtls_lms_init_private]: all zero bytes, so both pointers are
    [NULL]. *)
Definition mbedtls_lms_init_private : mbedtls_lms_private_t :=
  {| priv_params := zero_parameters; q_next_usable_key := 0;
     ots_private_keys := []; ots_public_keys := [];
     have_private_key := false;
     ots_private_keys_block := block_null;
     ots_public_keys_block := block_null |}.

(** [mbedtls_lms_free_private]: with [have_private_key] set the slots
    and both arrays are released; the context is zeroized, so both
    pointers are NULL afterwards. *)
Definition mbedtls_lms_free_private (ctx : mbedtls_lms_private_t)
  : mbedtls_lms_private_t := mbedtls_lms_init_private.

(** *** The Merkle tree *)

(** The tree is the caller's
    [unsigned char tree[MERKLE_TREE_NODE_AM_MAX][MBEDTLS_LMS_M_NODE_BYTES_MAX]]:
    a list of rows.  [calculate_merkle_tree] addresses it as a flat byte
    array; [tree_load tree off] is the pointer [&tree[off]] of that flat
    view, read up to the end of its row, and [tree_store tree off out] the
    tree after the bytes at that pointer became [out]. *)
Definition tree_load (tree : list (list byte)) (off : Z) : list byte :=
  ptr_add (nth (Z.to_nat (off / MBEDTLS_LMS_M_NODE_BYTES_MAX)) tree [])
    (off mod MBEDTLS_LMS_M_NODE_BYTES_MAX).

Definition tree_store (tree : list (list byte)) (off : Z) (out : list byte)
  : list (list byte) :=
  let r := Z.to_nat (off / MBEDTLS_LMS_M_NODE_BYTES_MAX) in
  <[r := take (Z.to_nat (off mod MBEDTLS_LMS_M_NODE_BYTES_MAX)) (nth r tree [])
         ++ out]> tree.

(** First loop of [calculate_merkle_tree]: the leaves, ascending; [n]
    iterations are left.  A non-zero result is the early [return( ret )]. *)
Fixpoint merkle_leaf_loop (n : nat) (ctx : mbedtls_lms_private_t)
  (priv_key_idx : Z) (tree : list (list byte)) : Z * list (list byte) :=
  match n with
  | O => (0, tree)
  | S n' =>
      let r_node_idx :=
        u32 (MERKLE_TREE_INTERNAL_NODE_AM (type (priv_params ctx)) + priv_key_idx) in
      let off := r_node_idx * MBEDTLS_LMS_M_NODE_BYTES (type (priv_params ctx)) in
      let '(ret, out) :=
        create_merkle_leaf_value (priv_params ctx)
          (public_key (nth (Z.to_nat priv_key_idx) (ots_public_keys ctx)
                         mbedtls_lmots_init_public))
          r_node_idx (tree_load tree off) in
      let tree := tree_store tree off out in
      if negb (ret =? 0) then (ret, tree)
      else merkle_leaf_loop n' ctx (priv_key_idx + 1) tree
  end.

(** Second loop: the internal nodes, descending. *)
Fixpoint merkle_internal_loop (n : nat) (ctx : mbedtls_lms_private_t)
  (r_node_idx : Z) (tree : list (list byte)) : Z * list (list byte) :=
  match n with
  | O => (0, tree)
  | S n' =>
      let m := MBEDTLS_LMS_M_NODE_BYTES (type (priv_params ctx)) in
      let '(ret, out) :=
        create_merkle_internal_value (priv_params ctx)
          (tree_load tree ((r_node_idx * 2) * m))
          (tree_load tree ((r_node_idx * 2 + 1) * m))
          r_node_idx (tree_load tree (r_node_idx * m)) in
      let tree := tree_store tree (r_node_idx * m) out in
      if negb (ret =? 0) then (ret, tree)
      else merkle_internal_loop n' ctx (r_node_idx - 1) tree
  end.

(** [calculate_merkle_tree( ctx, tree )]: the return code and the tree
    buffer after the call. *)
Definition calculate_merkle_tree (ctx : mbedtls_lms_private_t)
  (tree : list (list byte)) : Z * list (list byte) :=
  let am := MERKLE_TREE_INTERNAL_NODE_AM (type (priv_params ctx)) in
  let '(ret, tree) := merkle_leaf_loop (Z.to_nat am) ctx 0 tree in
  if negb (ret =? 0) then (ret, tree)
  else merkle_internal_loop (Z.to_nat (u32 (am - 1))) ctx (u32 (am - 1)) tree.

(** The loop of [get_merkle_path]. *)
Fixpoint merkle_path_loop (n : nat) (ctx : mbedtls_lms_private_t)
  (tree : list (list byte)) (height curr_node_id : Z) (path : list byte)
  : list byte :=
  match n with
  | O => path
  | S n' =>
      let adjacent_node_id := Z.lxor curr_node_id 1 in
      let m := MBEDTLS_LMS_M_NODE_BYTES (type (priv_params ctx)) in
      let path :=
        memcpy path (height * m) (nth (Z.to_nat adjacent_node_id) tree []) 0 m in
      merkle_path_loop n' ctx tree (height + 1) (Z.shiftr curr_node_id 1) path
  end.

(** [get_merkle_path( ctx, leaf_node_id, path )]; [tree] is the local
    array of that name as it is on entry (indeterminate in C). *)
Definition get_merkle_path (ctx : mbedtls_lms_private_t) (leaf_node_id : Z)
  (path : list byte) (tree : list (list byte)) : Z * list byte :=
  let '(ret, tree) := calculate_merkle_tree ctx tree in
  if negb (ret =? 0) then (ret, path)
  else
    (0, merkle_path_loop
          (Z.to_nat (MBEDTLS_LMS_H_TREE_HEIGHT (type (priv_params ctx))))
          ctx tree 0 leaf_node_id path).

(** *** Key generation *)

(** The key-generation loop of [mbedtls_lms_generate_private_key]; the
    result tells whether the loop was left by [goto exit], and gives
    [ret], [idx] and the two arrays at that point. *)
Fixpoint generate_ots_keys (n : nat) (ret idx : Z) (otstype_ : Z)
  (key_id : list byte) (seed : list byte)
  (privs : list mbedtls_lmots_private_t) (pubs : list mbedtls_lmots_public_t)
  : bool * Z * Z * list mbedtls_lmots_private_t * list mbedtls_lmots_public_t :=
  match n with
  | O => (false, ret, idx, privs, pubs)
  | S n' =>
      let i := Z.to_nat idx in
      let '(ret, sk) :=
        mbedtls_lmots_generate_private_key
          (nth i privs mbedtls_lmots_init_private) otstype_ key_id idx seed in
      let privs := <[i := sk]> privs in
      if negb (ret =? 0) then (true, ret, idx, privs, pubs)
      else
      let '(ret, pk) :=
        mbedtls_lmots_calculate_public_key
          (nth i pubs mbedtls_lmots_init_public) sk in
      let pubs := <[i := pk]> pubs in
      if negb (ret =? 0) then (true, ret, idx, privs, pubs)
      else generate_ots_keys n' ret (idx + 1) otstype_ key_id seed privs pubs
  end.

(** The [exit] label of [mbedtls_lms_generate_private_key] when
    [ret != 0]: the slots below [idx] are freed, then [mbedtls_free] is
    given both pointers as the context holds them, and neither pointer is
    reset.  The arrays they designated are gone; a pointer that held a
    live block dangles from here on, and a pointer that dangled on entry
    and was not assigned since has its block freed a second time. *)
Definition generate_exit_error (ctx : mbedtls_lms_private_t)
  : mbedtls_lms_private_t :=
  let ctx := set_ots_private_keys ctx [] in
  let ctx :=
    set_ots_private_keys_block ctx (mbedtls_free (ots_private_keys_block ctx)) in
  let ctx := set_ots_public_keys ctx [] in
  set_ots_public_keys_block ctx (mbedtls_free (ots_public_keys_block ctx)).

(** [mbedtls_lms_generate_private_key( ctx, type, otstype, f_rng, p_rng,
    seed, seed_size )]: the return code, the context and the RNG state
    after the call.  Each [mbedtls_calloc] assigns its result to the
    pointer field, NULL when the request is refused.  A call whose [exit]
    path frees a block a second time is undefined in C; the model tells
    it apart by the state [block_freed_twice] of that block, and its
    return code and context describe the source only when no block is in
    that state. *)
Definition mbedtls_lms_generate_private_key (ctx : mbedtls_lms_private_t)
  (type_ otstype_ : Z)
  (f_rng : P_rng -> Z -> Z * list byte * P_rng) (p_rng : P_rng)
  (seed : list byte) : Z * mbedtls_lms_private_t * P_rng :=
  let ret := MBEDTLS_ERR_ERROR_CORRUPTION_DETECTED in
  if negb (type_ =? MBEDTLS_LMS_SHA256_M32_H10)
  then (MBEDTLS_ERR_LMS_BAD_INPUT_DATA, ctx, p_rng)
  else if negb (otstype_ =? MBEDTLS_LMOTS_SHA256_N32_W8)
  then (MBEDTLS_ERR_LMS_BAD_INPUT_DATA, ctx, p_rng)
  else if have_private_key ctx
  then (MBEDTLS_ERR_LMS_BAD_INPUT_DATA, ctx, p_rng)
  else
  let ctx := set_priv_params ctx (set_type (priv_params ctx) type_) in
  let ctx := set_priv_params ctx (set_otstype (priv_params ctx) otstype_) in
  let '(_, random, p_rng) := f_rng p_rng MBEDTLS_LMOTS_I_KEY_ID_LEN in
  let ctx :=
    set_priv_params ctx
      (set_I_key_identifier (priv_params ctx)
         (write (I_key_identifier (priv_params ctx)) 0
            (read random 0 MBEDTLS_LMOTS_I_KEY_ID_LEN))) in
  let count := Z.to_nat (MERKLE_TREE_LEAF_NODE_AM (type (priv_params ctx))) in
  if negb (mbedtls_calloc_ok 0)
  then
    let ctx := set_ots_private_keys_block (set_ots_private_keys ctx []) block_null in
    (MBEDTLS_ERR_LMS_ALLOC_FAILED, generate_exit_error ctx, p_rng)
  else
  let ctx :=
    set_ots_private_keys_block
      (set_ots_private_keys ctx (replicate count mbedtls_lmots_init_private))
      block_live in
  if negb (mbedtls_calloc_ok 1)
  then
    let ctx := set_ots_public_keys_block (set_ots_public_keys ctx []) block_null in
    (MBEDTLS_ERR_LMS_ALLOC_FAILED, generate_exit_error ctx, p_rng)
  else
  let ctx :=
    set_ots_public_keys_block
      (set_ots_public_keys ctx (replicate count mbedtls_lmots_init_public))
      block_live in
  let '(jumped, ret, idx, privs, pubs) :=
    generate_ots_keys count ret 0 otstype_
      (read (I_key_identifier (priv_params ctx)) 0 MBEDTLS_LMOTS_I_KEY_ID_LEN)
      seed (ots_private_keys ctx) (ots_public_keys ctx) in
  let ctx := set_ots_public_keys (set_ots_private_keys ctx privs) pubs in
  let ctx :=
    if jumped then ctx
    else set_have_private_key (set_q_next_usable_key ctx 0) true in
  if negb (ret =? 0) then (ret, generate_exit_error ctx, p_rng)
  else (0, ctx, p_rng).

(** [mbedtls_lms_calculate_public_key( ctx, priv_ctx )]; [tree] is the
    local array on entry.  The [memcpy] of the parameter block is given
    the size of [mbedtls_lmots_parameters_t]; both parameter structs hold
    a 16-byte identifier and two 4-byte fields, so the whole block is
    copied. *)
Definition mbedtls_lms_calculate_public_key (ctx : mbedtls_lms_public_t)
  (priv_ctx : mbedtls_lms_private_t) (tree : list (list byte))
  : Z * mbedtls_lms_public_t :=
  if negb (have_private_key priv_ctx) then (MBEDTLS_ERR_LMS_BAD_INPUT_DATA, ctx)
  else if negb (type (priv_params priv_ctx) =? MBEDTLS_LMS_SHA256_M32_H10)
  then (MBEDTLS_ERR_LMS_BAD_INPUT_DATA, ctx)
  else if negb (otstype (priv_params priv_ctx) =? MBEDTLS_LMOTS_SHA256_N32_W8)
  then (MBEDTLS_ERR_LMS_BAD_INPUT_DATA, ctx)
  else
  let ctx := set_params ctx (priv_params priv_ctx) in
  let '(ret, tree) := calculate_merkle_tree priv_ctx tree in
  if negb (ret =? 0) then (ret, ctx)
  else
  let ctx :=
    set_T_1_pub_key ctx
      (memcpy (T_1_pub_key ctx) 0 (nth 1%nat tree []) 0
         (MBEDTLS_LMS_M_NODE_BYTES (type (params ctx)))) in
  let ctx := set_have_public_key ctx true in
  (0, ctx).

(** *** Signing *)

(** The buffer after the bytes from [buf + off] on became [region]. *)
Definition ptr_store (buf : list byte) (off : Z) (region : list byte)
  : list byte :=
  take (Z.to_nat off) buf ++ region.

(** What a call of [mbedtls_lms_sign] leaves behind. *)
Record sign_result := {
  sign_ret : Z;
  sign_ctx : mbedtls_lms_private_t;
  sign_rng : P_rng;
  sign_sig : list byte;
  sign_sig_len : option Z
}.

(** [mbedtls_lms_sign( ctx, f_rng, p_rng, msg, msg_size, sig, sig_size,
    sig_len )], with [sig] the output buffer of [sig_size = length sig]
    bytes and [tree] the local array of [get_merkle_path] on entry.
    [sign_sig_len] is the value stored in [*sig_len], when one is. *)
Definition mbedtls_lms_sign (ctx : mbedtls_lms_private_t)
  (f_rng : P_rng -> Z -> Z * list byte * P_rng) (p_rng : P_rng)
  (msg : list byte) (sig : list byte) (tree : list (list byte)) : sign_result :=
  let sig_size := Z.of_nat (length sig) in
  let fail ret :=
    {| sign_ret := ret; sign_ctx := ctx; sign_rng := p_rng; sign_sig := sig;
       sign_sig_len := None |} in
  if negb (have_private_key ctx) then fail MBEDTLS_ERR_LMS_BAD_INPUT_DATA
  else if sig_size <? MBEDTLS_LMS_SIG_LEN (type (priv_params ctx))
                        (otstype (priv_params ctx))
  then fail MBEDTLS_ERR_LMS_BUFFER_TOO_SMALL
  else if negb (type (priv_params ctx) =? MBEDTLS_LMS_SHA256_M32_H10)
  then fail MBEDTLS_ERR_LMS_BAD_INPUT_DATA
  else if negb (otstype (priv_params ctx) =? MBEDTLS_LMOTS_SHA256_N32_W8)
  then fail MBEDTLS_ERR_LMS_BAD_INPUT_DATA
  else if q_next_usable_key ctx >=?
          MERKLE_TREE_LEAF_NODE_AM (type (priv_params ctx))
  then fail MBEDTLS_ERR_LMS_OUT_OF_PRIVATE_KEYS
  else
  let q_leaf_identifier := q_next_usable_key ctx in
  let ctx := set_q_next_usable_key ctx (u32 (q_next_usable_key ctx + 1)) in
  let i := Z.to_nat q_leaf_identifier in
  let '(ret, sk, p_rng, ots_sig) :=
    mbedtls_lmots_sign
      (nth i (ots_private_keys ctx) mbedtls_lmots_init_private)
      f_rng p_rng msg
      (MBEDTLS_LMS_SIG_LEN (type (priv_params ctx)) (otstype (priv_params ctx))) in
  let ctx := set_ots_private_keys ctx (<[i := sk]> (ots_private_keys ctx)) in
  let sig := write sig SIG_OTS_SIG_OFFSET ots_sig in
  if negb (ret =? 0)
  then {| sign_ret := ret; sign_ctx := ctx; sign_rng := p_rng;
          sign_sig := sig; sign_sig_len := None |}
  else
  let sig :=
    write sig (SIG_TYPE_OFFSET (otstype (priv_params ctx)))
      (mbedtls_lms_unsigned_int_to_network_bytes (type (priv_params ctx))
         (Z.to_nat MBEDTLS_LMS_TYPE_LEN)) in
  let sig :=
    write sig SIG_Q_LEAF_ID_OFFSET
      (mbedtls_lms_unsigned_int_to_network_bytes q_leaf_identifier
         (Z.to_nat MBEDTLS_LMOTS_Q_LEAF_ID_LEN)) in
  let '(ret, path) :=
    get_merkle_path ctx
      (u32 (MERKLE_TREE_INTERNAL_NODE_AM (type (priv_params ctx))
            + q_leaf_identifier))
      (ptr_add sig (SIG_PATH_OFFSET (otstype (priv_params ctx)))) tree in
  let sig := ptr_store sig (SIG_PATH_OFFSET (otstype (priv_params ctx))) path in
  if negb (ret =? 0)
  then {| sign_ret := ret; sign_ctx := ctx; sign_rng := p_rng;
          sign_sig := sig; sign_sig_len := None |}
  else
  {| sign_ret := 0; sign_ctx := ctx; sign_rng := p_rng; sign_sig := sig;
     sign_sig_len :=
       Some (MBEDTLS_LMS_SIG_LEN (type (priv_params ctx))
               (otstype (priv_params ctx))) |}.

(** *** The operations on a live private context *)

(** A call on a private context between [mbedtls_lms_init_private] and
    [mbedtls_lms_free_private], with its other arguments. *)
Inductive private_op :=
| op_generate_private_key (type_ otstype_ : Z)
    (f_rng : P_rng -> Z -> Z * list byte * P_rng) (seed : list byte)
| op_sign (f_rng : P_rng -> Z -> Z * list byte * P_rng)
    (msg sig : list byte) (tree : list (list byte))
| op_calculate_public_key (pub : mbedtls_lms_public_t)
    (tree : list (list byte)).

(** The context and the RNG state after a call. *)
Definition run_op (st : mbedtls_lms_private_t * P_rng) (op : private_op)
  : mbedtls_lms_private_t * P_rng :=
  match op with
  | op_generate_private_key type_ otstype_ f_rng seed =>
      let '(_, ctx, p_rng) :=
        mbedtls_lms_generate_private_key (fst st) type_ otstype_ f_rng
          (snd st) seed in
      (ctx, p_rng)
  | op_sign f_rng msg sig tree =>
      let r := mbedtls_lms_sign (fst st) f_rng (snd st) msg sig tree in
      (sign_ctx r, sign_rng r)
  | op_calculate_public_key pub tree => st
  end.

Definition run_ops (ops : list private_op) (p_rng : P_rng)
  : mbedtls_lms_private_t * P_rng :=
  fold_left run_op ops (mbedtls_lms_init_private, p_rng).

(** *** The node hashes in the spec's words *)

(** [H(I || r || D_LEAF || K)] and [H(I || r || D_INTR || T[left] ||
    T[right])] of section 4.2, to compare with what the two [create_]
    functions store. *)
Definition leaf_hash (key_id : list byte) (r : Z) (K : list byte)
  : list byte :=
  sha256 (key_id ++ mbedtls_lms_unsigned_int_to_network_bytes r 4
          ++ [130; 130] ++ K).

Definition internal_hash (key_id : list byte) (r : Z) (left right : list byte)
  : list byte :=
  sha256 (key_id ++ mbedtls_lms_unsigned_int_to_network_bytes r 4
          ++ [131; 131] ++ left ++ right).

(** The key identifier and the OTS public key of leaf [i], as the two
    [create_] functions read them from a private context. *)
Definition key_id (ctx : mbedtls_lms_private_t) : list byte :=
  read (I_key_identifier (priv_params ctx)) 0 MBEDTLS_LMOTS_I_KEY_ID_LEN.

Definition leaf_key (ctx : mbedtls_lms_private_t) (i : Z) : list byte :=
  read (public_key (nth (Z.to_nat i) (ots_public_keys ctx)
                      mbedtls_lmots_init_public)) 0 32.

(** What the development asks of the hash backend: the digest has 32
    bytes, and the translation of a status is 0 exactly for success. *)
Definition psa_contract : Prop :=
  (forall m, length (sha256 m) = 32%nat)
  /\ mbedtls_lms_error_from_psa PSA_SUCCESS = 0
  /\ forall status, mbedtls_lms_error_from_psa status = 0 ->
                    status = PSA_SUCCESS.

(** A backend none of whose calls fails. *)
Definition psa_never_fails : Prop :=
  forall call, psa_hash_status call = PSA_SUCCESS.

(** What the development asks of the OTS signer: a signature it reports
    as produced has the length the header gives for the supported type. *)
Definition lmots_sign_length : Prop :=
  forall sk f_rng p_rng msg size,
    fst (fst (fst (mbedtls_lmots_sign sk f_rng p_rng msg size))) = 0 ->
    Z.of_nat (length (snd (mbedtls_lmots_sign sk f_rng p_rng msg size)))
    = MBEDTLS_LMOTS_SIG_LEN MBEDTLS_LMOTS_SHA256_N32_W8.

(** What holds of the counter of a private context between [init] and
    [free]. *)
Definition counter_inv (ctx : mbedtls_lms_private_t) : Prop :=
  0 <= q_next_usable_key ctx <= 1024
  /\ (have_private_key ctx = false -> q_next_usable_key ctx = 0)
  /\ (have_private_key ctx = true ->
      type (priv_params ctx) = MBEDTLS_LMS_SHA256_M32_H10
      /\ otstype (priv_params ctx) = MBEDTLS_LMOTS_SHA256_N32_W8).

(** What holds of the two blocks of a private context between [init]
    and [free], when the allocator answers every call alike: with a key
    both blocks are live; without one each pointer is NULL or dangles,
    and the public one dangles only if the allocator grants the first
    request of a call. *)
Definition block_inv (ctx : mbedtls_lms_private_t) : Prop :=
  (have_private_key ctx = true ->
   ots_private_keys_block ctx = block_live
   /\ ots_public_keys_block ctx = block_live)
  /\ (have_private_key ctx = false ->
      (ots_private_keys_block ctx = block_null
       \/ ots_private_keys_block ctx = block_freed)
      /\ (ots_public_keys_block ctx = block_null
          \/ (ots_public_keys_block ctx = block_freed
              /\ mbedtls_calloc_ok 0 = true))).

(** What the round trip asks of the OTS primitive, its correctness as a
    one-time signature: for a key pair generated for leaf [q] under the
    identifier [id], a signature the signer reports as produced carries
    the supported type in its type field, and the candidate public key
    recovered from it under the same identifier and leaf index is the
    32-byte public key of the pair. *)
Definition lmots_correct : Prop :=
  forall id q seed sk pk f_rng p_rng msg size,
    0 <= q < 1024 ->
    mbedtls_lmots_generate_private_key mbedtls_lmots_init_private
      MBEDTLS_LMOTS_SHA256_N32_W8 id q seed = (0, sk) ->
    mbedtls_lmots_calculate_public_key mbedtls_lmots_init_public sk = (0, pk) ->
    fst (fst (fst (mbedtls_lmots_sign sk f_rng p_rng msg size))) = 0 ->
    length (public_key pk) = 32%nat
    /\ mbedtls_lms_network_bytes_to_unsigned_int 4
         (read (snd (mbedtls_lmots_sign sk f_rng p_rng msg size))
            MBEDTLS_LMOTS_SIG_TYPE_OFFSET 4)
       = MBEDTLS_LMOTS_SHA256_N32_W8
    /\ mbedtls_lmots_calculate_public_key_candidate
         {| lmots_I_key_identifier := id;
            lmots_q_leaf_identifier :=
              mbedtls_lms_unsigned_int_to_network_bytes q 4;
            lmots_type := MBEDTLS_LMOTS_SHA256_N32_W8 |}
         msg (snd (mbedtls_lmots_sign sk f_rng p_rng msg size))
         MBEDTLS_LMOTS_N_HASH_LEN_MAX
       = (0, public_key pk).

(** What holds of a private context between [init] and [free] beyond the
    counter: the identifier has its 16 bytes, and once a key is present
    the pair is the supported one, both arrays have 1024 slots, every OTS
    public key is the one of the key generated for its leaf, and the
    private keys from [q_next_usable_key] on are still the generated
    ones. *)
Definition key_inv (ctx : mbedtls_lms_private_t) : Prop :=
  length (I_key_identifier (priv_params ctx)) = 16%nat
  /\ (have_private_key ctx = true ->
      type (priv_params ctx) = MBEDTLS_LMS_SHA256_M32_H10
      /\ otstype (priv_params ctx) = MBEDTLS_LMOTS_SHA256_N32_W8
      /\ 0 <= q_next_usable_key ctx <= 1024
      /\ length (ots_private_keys ctx) = 1024%nat
      /\ length (ots_public_keys ctx) = 1024%nat
      /\ exists seed, forall i, 0 <= i < 1024 ->
           exists sk,
             mbedtls_lmots_generate_private_key mbedtls_lmots_init_private
               MBEDTLS_LMOTS_SHA256_N32_W8 (key_id ctx) i seed = (0, sk)
             /\ mbedtls_lmots_calculate_public_key mbedtls_lmots_init_public sk
                = (0, nth (Z.to_nat i) (ots_public_keys ctx)
                        mbedtls_lmots_init_public)
             /\ (q_next_usable_key ctx <= i ->
                 nth (Z.to_nat i) (ots_private_keys ctx)
                   mbedtls_lmots_init_private = sk)).

(** The leaf indices a run of calls hands out: the value of
    [q_next_usable_key] on entry to each call of [mbedtls_lms_sign] that
    returns 0, in the order of the calls. *)
Fixpoint signed_leaves (ops : list private_op)
  (st : mbedtls_lms_private_t * P_rng) : list Z :=
  match ops with
  | [] => []
  | op :: ops' =>
      let rest := signed_leaves ops' (run_op st op) in
      match op with
      | op_sign f_rng msg sig tree =>
          if sign_ret (mbedtls_lms_sign (fst st) f_rng (snd st) msg sig tree)
             =? 0
          then q_next_usable_key (fst st) :: rest
          else rest
      | _ => rest
      end
  end.

(** What the development asks of the OTS candidate function: when it
    returns 0 it has stored the 32 bytes of a candidate key. *)
Definition lmots_candidate_length : Prop :=
  forall params msg sig size,
    fst (mbedtls_lmots_calculate_public_key_candidate params msg sig size) = 0 ->
    length (snd (mbedtls_lmots_calculate_public_key_candidate params msg sig
                   size)) = 32%nat.

End Lms.

(** The two arrays of a public context have their declared sizes. *)
Definition wf_public (pub : mbedtls_lms_public_t) : Prop :=
  length (I_key_identifier (params pub)) = 16%nat
  /\ length (T_1_pub_key pub) = 32%nat.

(** Row [r] of a tree buffer, and the shape of the C array. *)
Definition row (tree : list (list byte)) (r : Z) : list byte :=
  nth (Z.to_nat r) tree [].

Definition tree_shape (tree : list (list byte)) : Prop :=
  length tree = 2048%nat /\ Forall (fun node => length node = 32%nat) tree.

(** ** Instances of the interfaces *)

(** Modelled from the spec: the length macros of lms.h and lmots.h.  For the
    one supported pair they have the values of sections 3 and 6.2 (H = 10,
    m = n = 32, an OTS signature of 1136 bytes); an identifier with no
    parameter set selects nothing and gets 0.  The type field leads the
    OTS signature. *)
Definition lms_h : LmsHeader :=
  {| MBEDTLS_LMS_H_TREE_HEIGHT :=
       fun type => if type =? MBEDTLS_LMS_SHA256_M32_H10 then 10 else 0;
     MBEDTLS_LMS_M_NODE_BYTES :=
       fun type => if type =? MBEDTLS_LMS_SHA256_M32_H10 then 32 else 0;
     MBEDTLS_LMOTS_N_HASH_LEN :=
       fun type => if type =? MBEDTLS_LMOTS_SHA256_N32_W8 then 32 else 0;
     MBEDTLS_LMOTS_SIG_LEN :=
       fun type => if type =? MBEDTLS_LMOTS_SHA256_N32_W8 then 1136 else 0;
     MBEDTLS_LMOTS_SIG_TYPE_OFFSET := 0 |}.

(** What the development asks of a header: the values the spec gives for
    the supported pair, a node length that fits the node arrays of the
    contexts, and a type field inside the OTS signature. *)
Definition rfc8554_header `{LmsHeader} : Prop :=
  MBEDTLS_LMS_H_TREE_HEIGHT MBEDTLS_LMS_SHA256_M32_H10 = 10
  /\ MBEDTLS_LMS_M_NODE_BYTES MBEDTLS_LMS_SHA256_M32_H10 = 32
  /\ MBEDTLS_LMOTS_N_HASH_LEN MBEDTLS_LMOTS_SHA256_N32_W8 = 32
  /\ MBEDTLS_LMOTS_SIG_LEN MBEDTLS_LMOTS_SHA256_N32_W8 = 1136
  /\ 0 <= MBEDTLS_LMOTS_SIG_TYPE_OFFSET
  /\ MBEDTLS_LMOTS_SIG_TYPE_OFFSET + MBEDTLS_LMOTS_TYPE_LEN <= 1136
  /\ forall type, MBEDTLS_LMS_M_NODE_BYTES type <= MBEDTLS_LMS_M_NODE_BYTES_MAX.

(** A hash backend that never fails, with a digest of 32 bytes that is
    cheap to run: 32 copies of the sum of the input bytes. *)
Definition test_digest (m : list byte) : list byte :=
  replicate 32 (fold_right Z.add 0 m mod 256).

Definition test_error_from_psa (status : Z) : Z :=
  if status =? PSA_SUCCESS then 0 else -1.

Definition test_psa : PsaHash :=
  {| sha256 := test_digest;
     psa_hash_status := fun _ => PSA_SUCCESS;
     mbedtls_lms_error_from_psa := test_error_from_psa |}.

(** The same backend with a fault: [psa_hash_finish] reports a hardware
    failure when the input fed to the operation carries node index 1 (the
    root of the tree). *)
Definition PSA_ERROR_HARDWARE_FAILURE : Z := -147.

Definition root_fault_psa : PsaHash :=
  {| sha256 := test_digest;
     psa_hash_status := fun call =>
       match call with
       | PsaHashFinish fed _ =>
           if bool_decide (read fed 16 4 = [0; 0; 0; 1])
           then PSA_ERROR_HARDWARE_FAILURE else PSA_SUCCESS
       | _ => PSA_SUCCESS
       end;
     mbedtls_lms_error_from_psa := test_error_from_psa |}.

(** An allocator that grants every request. *)
Definition test_platform : Platform := {| mbedtls_calloc_ok := fun _ => true |}.

(** An allocator that grants the first request of a call and refuses the
    second. *)
Definition second_alloc_fails : Platform :=
  {| mbedtls_calloc_ok := fun n => Nat.eqb n 0 |}.

(** An allocator that refuses every request. *)
Definition no_alloc : Platform := {| mbedtls_calloc_ok := fun _ => false |}.

(** Two RNG callbacks over a trivial state: one fills the buffer with the
    byte 7, the other reports a failure and stores nothing. *)
Definition test_rng (p : unit) (len : Z) : Z * list byte * unit :=
  (0, replicate (Z.to_nat len) 7, p).

Definition failing_rng (p : unit) (len : Z) : Z * list byte * unit :=
  (-52, [], p).

(** A stand-in for LMOTS.  A private key is the leaf index it was
    generated for ([-1]: blank or used), its public key 32 copies of that
    index's low byte.  Signing draws 32 bytes from the RNG and fails when
    the RNG does or when the key is blank; the signature is the type
    field followed by 1132 zero bytes.  The candidate public key is
    recomputed from the leaf index in the parameters. *)
Definition test_lmots : Lmots unit :=
  {| mbedtls_lmots_private_t := Z;
     mbedtls_lmots_public_t := list byte;
     public_key := fun pk => pk;
     mbedtls_lmots_init_private := -1;
     mbedtls_lmots_init_public := replicate 32 0;
     mbedtls_lmots_generate_private_key :=
       fun _ _ _ q _ => (0, q);
     mbedtls_lmots_calculate_public_key :=
       fun _ sk => (0, replicate 32 (sk mod 256));
     mbedtls_lmots_sign :=
       fun sk f_rng p_rng _ _ =>
         let '(ret, _, p_rng) := f_rng p_rng 32 in
         if negb (ret =? 0) then (ret, sk, p_rng, [])
         else if sk <? 0 then (MBEDTLS_ERR_LMS_BAD_INPUT_DATA, sk, p_rng, [])
         else (0, -1, p_rng,
               mbedtls_lms_unsigned_int_to_network_bytes
                 MBEDTLS_LMOTS_SHA256_N32_W8 4 ++ replicate 1132 0);
     mbedtls_lmots_calculate_public_key_candidate :=
       fun params _ _ _ =>
         (0, replicate 32
               (mbedtls_lms_network_bytes_to_unsigned_int 4
                  (lmots_q_leaf_identifier params) mod 256)) |}.

(** The same stand-in with a fault: the private key of leaf 1 cannot be
    generated. *)
Definition keygen_fault_lmots : Lmots unit :=
  {| mbedtls_lmots_private_t := Z;
     mbedtls_lmots_public_t := list byte;
     public_key := fun pk => pk;
     mbedtls_lmots_init_private := -1;
     mbedtls_lmots_init_public := replicate 32 0;
     mbedtls_lmots_generate_private_key :=
       fun sk _ _ q _ =>
         if q =? 1 then (MBEDTLS_ERR_LMS_BAD_INPUT_DATA, sk) else (0, q);
     mbedtls_lmots_calculate_public_key :=
       @mbedtls_lmots_calculate_public_key unit test_lmots;
     mbedtls_lmots_sign := @mbedtls_lmots_sign unit test_lmots;
     mbedtls_lmots_calculate_public_key_candidate :=
       @mbedtls_lmots_calculate_public_key_candidate unit test_lmots |}.

(** A public context for the supported pair and a signature-sized buffer
    with all three checked fields right: leaf index [q], the OTS type
    field [ots_type], the LMS type field and a path of zero bytes. *)
Definition test_public (T_1 : list byte) : mbedtls_lms_public_t :=
  {| params :=
       {| I_key_identifier := replicate 16 0;
          otstype := MBEDTLS_LMOTS_SHA256_N32_W8;
          type := MBEDTLS_LMS_SHA256_M32_H10 |};
     T_1_pub_key := T_1;
     have_public_key := true |}.

Definition test_sig (q ots_type : Z) : list byte :=
  mbedtls_lms_unsigned_int_to_network_bytes q 4
  ++ mbedtls_lms_unsigned_int_to_network_bytes ots_type 4
  ++ replicate 1132 0
  ++ mbedtls_lms_unsigned_int_to_network_bytes MBEDTLS_LMS_SHA256_M32_H10 4
  ++ replicate 320 0.

(** A private key generated with the stand-ins, and the calls used to
    exercise it: a signature request whose RNG fails. *)
Definition test_generate : private_op :=
  op_generate_private_key MBEDTLS_LMS_SHA256_M32_H10
    MBEDTLS_LMOTS_SHA256_N32_W8 test_rng [].

Definition test_sign_failing_rng : private_op :=
  op_sign failing_rng [] (replicate 1464 0) [].

Definition test_run : @mbedtls_lms_private_t unit test_lmots * unit :=
  @run_ops lms_h test_psa test_platform unit test_lmots [test_generate] tt.

Definition test_private : @mbedtls_lms_private_t unit test_lmots :=
  fst test_run.

(** Tree buffers for the tests: 2048 rows of 32 bytes [b]. *)
Definition test_tree (b : byte) : list (list byte) :=
  replicate 2048 (replicate 32 b).

(** * Properties *)

(** ** Buffers *)

Lemma lookup_read (buf : list byte) (off len : Z) (i : nat) :
  read buf off len !! i =
    if decide (i < Z.to_nat len)%nat then buf !! (Z.to_nat off + i)%nat
    else None.
Proof.
  unfold read. case_decide.
  - by rewrite lookup_take_lt, lookup_drop.
  - apply lookup_take_ge. lia.
Qed.

Lemma lookup_write (buf : list byte) (off : Z) (d : list byte) (i : nat) :
  (Z.to_nat off + length d <= length buf)%nat ->
  write buf off d !! i =
    if decide (i < Z.to_nat off)%nat then buf !! i
    else if decide (i < Z.to_nat off + length d)%nat
         then d !! (i - Z.to_nat off)%nat
         else buf !! i.
Proof.
  intros Hin. unfold write.
  assert (Ht : length (take (Z.to_nat off) buf) = Z.to_nat off)
    by (rewrite length_take; lia).
  repeat case_decide.
  - rewrite lookup_app_l by lia. by apply lookup_take_lt.
  - rewrite lookup_app_r by lia. rewrite Ht. apply lookup_app_l. lia.
  - rewrite lookup_app_r by lia. rewrite lookup_app_r by lia.
    rewrite lookup_drop, Ht. f_equal. lia.
Qed.

Lemma length_read (buf : list byte) (off len : Z) :
  (Z.to_nat off + Z.to_nat len <= length buf)%nat ->
  length (read buf off len) = Z.to_nat len.
Proof. intros. unfold read. rewrite length_take, length_drop. lia. Qed.

Lemma length_write (buf : list byte) (off : Z) (d : list byte) :
  (Z.to_nat off + length d <= length buf)%nat ->
  length (write buf off d) = length buf.
Proof.
  intros. unfold write. rewrite !length_app, length_take, length_drop. lia.
Qed.

Lemma read_write_eq (buf : list byte) (off : Z) (d : list byte) (n : Z) :
  (Z.to_nat off + length d <= length buf)%nat ->
  Z.to_nat n = length d ->
  read (write buf off d) off n = d.
Proof.
  intros Hin Hn. apply list_eq. intros i.
  rewrite lookup_read. case_decide.
  - rewrite lookup_write by lia. repeat case_decide; try lia.
    f_equal. lia.
  - symmetry. apply lookup_ge_None_2. lia.
Qed.

Lemma read_write_ne (buf : list byte) (off : Z) (d : list byte) (off' n : Z) :
  (Z.to_nat off + length d <= length buf)%nat ->
  (Z.to_nat off' + Z.to_nat n <= Z.to_nat off
   \/ Z.to_nat off + length d <= Z.to_nat off')%nat ->
  read (write buf off d) off' n = read buf off' n.
Proof.
  intros Hin Hd. apply list_eq. intros i.
  rewrite !lookup_read. case_decide; [|done].
  rewrite lookup_write by lia. repeat case_decide; try lia; done.
Qed.

Lemma read_all (buf : list byte) (n : Z) :
  Z.to_nat n = length buf -> read buf 0 n = buf.
Proof. intros Hn. unfold read. rewrite drop_0. apply take_ge. lia. Qed.

Lemma write_all (buf d : list byte) :
  length d = length buf -> write buf 0 d = d.
Proof.
  intros Hl. unfold write. simpl. rewrite drop_ge by lia. apply app_nil_r.
Qed.

Lemma read_ptr_add (buf : list byte) (off off' n : Z) :
  0 <= off -> 0 <= off' ->
  read (ptr_add buf off) off' n = read buf (off + off') n.
Proof.
  intros. unfold read, ptr_add. rewrite drop_drop. do 2 f_equal. lia.
Qed.

Lemma read_in_Some (buf : list byte) (off len : Z) :
  0 <= off -> 0 <= len -> off + len <= Z.of_nat (length buf) ->
  read_in buf off len = Some (read buf off len).
Proof.
  intros. unfold read_in.
  destruct (Z.leb_spec 0 off), (Z.leb_spec 0 len),
    (Z.leb_spec (off + len) (Z.of_nat (length buf))); try lia; reflexivity.
Qed.

(** ** The codec *)

Lemma testbit_255 n : 0 <= n -> Z.testbit 255 n = (n <? 8).
Proof.
  intros. change 255 with (Z.ones 8). apply Z.testbit_ones_nonneg; lia.
Qed.

Lemma testbit_byte_of v k m :
  0 <= k -> Z.testbit (Z.shiftl (Z.land (Z.shiftr v k) 255) k) m
            = (k <=? m) && (m <? k + 8) && Z.testbit v m.
Proof.
  intros Hk. destruct (Z.leb_spec k m) as [Hkm|Hkm]; simpl.
  - rewrite Z.shiftl_spec by lia. rewrite Z.land_spec, Z.shiftr_spec by lia.
    rewrite testbit_255 by lia. replace (m - k + k) with m by lia.
    destruct (Z.ltb_spec (m - k) 8), (Z.ltb_spec m (k + 8)); try lia;
      simpl; auto using andb_true_r, andb_false_r.
  - destruct (Z.neg_nonneg_cases m) as [Hm|Hm].
    + apply Z.testbit_neg_r; lia.
    + rewrite Z.shiftl_spec by lia. apply Z.testbit_neg_r; lia.
Qed.

Lemma u32_small x : 0 <= x < 2 ^ 32 -> u32 x = x.
Proof. intros. unfold u32. apply Z.mod_small; lia. Qed.

Lemma byte_of_range v k : 0 <= Z.land (Z.shiftr v k) 255 < 256.
Proof.
  change 255 with (Z.ones 8). rewrite Z.land_ones by lia.
  apply Z.mod_pos_bound; lia.
Qed.

(** Decoding four bytes undoes encoding into four bytes. *)
Lemma decode_encode_4 v rest :
  0 <= v < 2 ^ 32 ->
  mbedtls_lms_network_bytes_to_unsigned_int 4
    (mbedtls_lms_unsigned_int_to_network_bytes v 4 ++ rest) = v.
Proof.
  intros Hv. cbn [mbedtls_lms_unsigned_int_to_network_bytes
                  mbedtls_lms_network_bytes_to_unsigned_int app].
  assert (Hu : forall k, 0 <= k <= 24 ->
     u32 (Z.shiftl (Z.land (Z.shiftr v k) 255) k)
     = Z.shiftl (Z.land (Z.shiftr v k) 255) k).
  { intros k Hk. apply u32_small. rewrite Z.shiftl_mul_pow2 by lia.
    pose proof (byte_of_range v k).
    assert (2 ^ k * 256 <= 2 ^ 32).
    { change 256 with (2 ^ 8). rewrite <- Z.pow_add_r by lia.
      apply Z.pow_le_mono_r; lia. }
    assert (0 < 2 ^ k) by (apply Z.pow_pos_nonneg; lia). nia. }
  change (8 * Z.of_nat 3) with 24. change (8 * Z.of_nat 2) with 16.
  change (8 * Z.of_nat 1) with 8. change (8 * Z.of_nat 0) with 0.
  rewrite !Hu by lia.
  apply Z.bits_inj'. intros n Hn.
  rewrite !Z.lor_spec, !testbit_byte_of by lia. rewrite Z.bits_0.
  destruct (Z.ltb_spec n 32) as [Hlt|Hge].
  - destruct (Z.testbit v n); [|rewrite ?andb_false_r; reflexivity].
    rewrite !andb_true_r.
    destruct (Z.leb_spec 24 n), (Z.leb_spec 16 n), (Z.leb_spec 8 n),
      (Z.leb_spec 0 n), (Z.ltb_spec n (24 + 8)), (Z.ltb_spec n (16 + 8)),
      (Z.ltb_spec n (8 + 8)), (Z.ltb_spec n (0 + 8)); try lia; reflexivity.
  - assert (Z.testbit v n = false) as ->.
    { destruct (Z.eq_dec v 0) as [->|]; [apply Z.bits_0|].
      apply Z.bits_above_log2; [lia|].
      apply Z.log2_lt_pow2; [lia|].
      apply Z.lt_le_trans with (2 ^ 32); [lia|apply Z.pow_le_mono_r; lia]. }
    rewrite !andb_false_r. reflexivity.
Qed.

Lemma length_encode v n :
  length (mbedtls_lms_unsigned_int_to_network_bytes v n) = n.
Proof. induction n; simpl; congruence. Qed.

(** Decoding looks at the first [n] bytes only. *)
Lemma decode_take n (l : list byte) :
  mbedtls_lms_network_bytes_to_unsigned_int n (take n l)
  = mbedtls_lms_network_bytes_to_unsigned_int n l.
Proof.
  revert l. induction n as [|n IH]; intros [|b l]; simpl; try reflexivity.
  by rewrite IH.
Qed.

Lemma decode_ptr_add (sig : list byte) (off : Z) :
  mbedtls_lms_network_bytes_to_unsigned_int 4 (ptr_add sig off)
  = mbedtls_lms_network_bytes_to_unsigned_int 4 (read sig off 4).
Proof. unfold read, ptr_add. symmetry. apply decode_take. Qed.

(** ** Importing a public key *)

Section ImportExport.
Context `{LmsHeader}.

(** The length check of [mbedtls_lms_import_public_key] compares with the
    length for the type the context holds on entry. *)
Lemma import_public_key_buffer_too_small ctx key :
  Z.of_nat (length key) < MBEDTLS_LMS_PUBLIC_KEY_LEN (type (params ctx)) ->
  mbedtls_lms_import_public_key ctx key
  = Some (MBEDTLS_ERR_LMS_BUFFER_TOO_SMALL, ctx).
Proof.
  intros Hlt. unfold mbedtls_lms_import_public_key.
  destruct (Z.ltb_spec (Z.of_nat (length key))
              (MBEDTLS_LMS_PUBLIC_KEY_LEN (type (params ctx)))); [done|lia].
Qed.

(** An error return of [mbedtls_lms_import_public_key] leaves
    [have_public_key] as it was. *)
Lemma import_public_key_error_keeps_flag ctx key ret ctx' :
  mbedtls_lms_import_public_key ctx key = Some (ret, ctx') ->
  ret <> 0 -> have_public_key ctx' = have_public_key ctx.
Proof.
  unfold mbedtls_lms_import_public_key. intros Himp Hret.
  repeat match type of Himp with
  | (if ?b then _ else _) = _ => destruct b
  | (mbind _ ?o) = _ => destruct o; simpl in Himp
  | Some _ = Some _ => injection Himp as <- <-
  | None = Some _ => discriminate
  end; try reflexivity; try congruence.
Qed.

(** C10: [mbedtls_lms_import_public_key] stores the decoded [lms_type] in
    the context before it looks at the [ots_type] field: when the key
    passes the length check, carries the supported [lms_type] and another
    [ots_type], the call returns [BadInput] and leaves a context whose
    [params.type] is the decoded value, 6, whatever it was before, every
    other field as before; and no error return changes [have_public_key],
    so an unset flag stays unset. *)
Theorem import_public_key_partial_update ctx key :
  MBEDTLS_LMS_PUBLIC_KEY_LEN (type (params ctx)) <= Z.of_nat (length key) ->
  8 <= Z.of_nat (length key) ->
  mbedtls_lms_network_bytes_to_unsigned_int 4 (read key 0 4)
    = MBEDTLS_LMS_SHA256_M32_H10 ->
  mbedtls_lms_network_bytes_to_unsigned_int 4 (read key 4 4)
    <> MBEDTLS_LMOTS_SHA256_N32_W8 ->
  (exists ctx',
     mbedtls_lms_import_public_key ctx key
       = Some (MBEDTLS_ERR_LMS_BAD_INPUT_DATA, ctx')
     /\ type (params ctx') = MBEDTLS_LMS_SHA256_M32_H10
     /\ type (params ctx')
        = mbedtls_lms_network_bytes_to_unsigned_int 4 (read key 0 4)
     /\ otstype (params ctx') = otstype (params ctx)
     /\ I_key_identifier (params ctx') = I_key_identifier (params ctx)
     /\ T_1_pub_key ctx' = T_1_pub_key ctx
     /\ have_public_key ctx' = have_public_key ctx)
  /\ forall key' ret ctx',
       mbedtls_lms_import_public_key ctx key' = Some (ret, ctx') ->
       ret <> 0 -> have_public_key ctx = false ->
       have_public_key ctx' = false.
Proof.
  intros Hlen H8 Hty Hots. split.
  - unfold mbedtls_lms_import_public_key.
    destruct (Z.ltb_spec (Z.of_nat (length key))
                (MBEDTLS_LMS_PUBLIC_KEY_LEN (type (params ctx)))); [lia|].
    change PUBLIC_KEY_TYPE_OFFSET with 0.
    change PUBLIC_KEY_OTSTYPE_OFFSET with 4.
    change MBEDTLS_LMS_TYPE_LEN with 4. change MBEDTLS_LMOTS_TYPE_LEN with 4.
    change (Z.to_nat 4) with 4%nat.
    rewrite (read_in_Some key 0 4) by lia. cbn [mbind option_bind].
    destruct (Z.eqb_spec
                (mbedtls_lms_network_bytes_to_unsigned_int 4 (read key 0 4))
                MBEDTLS_LMS_SHA256_M32_H10); [|contradiction].
    cbn [negb].
    rewrite (read_in_Some key 4 4) by lia. cbn [mbind option_bind].
    destruct (Z.eqb_spec
                (mbedtls_lms_network_bytes_to_unsigned_int 4 (read key 4 4))
                MBEDTLS_LMOTS_SHA256_N32_W8); [contradiction|].
    cbn [negb]. eexists. split; [reflexivity|].
    cbn [params set_params set_type type otstype I_key_identifier
         T_1_pub_key have_public_key].
    repeat split. exact Hty.
  - intros key' ret ctx' Himp Hret Hflag.
    rewrite (import_public_key_error_keeps_flag _ _ _ _ Himp Hret). exact Hflag.
Qed.

End ImportExport.

(** The call of C10 on a freshly initialised context: [params.type] is 0
    before the call and 6 after it, and the flag stays unset. *)
Lemma import_public_key_partial_update_fresh :
  type (params mbedtls_lms_init_public) = 0
  /\ exists ctx',
       @mbedtls_lms_import_public_key lms_h mbedtls_lms_init_public
         ([0; 0; 0; 6; 0; 0; 0; 3] ++ replicate 48 0)
       = Some (MBEDTLS_ERR_LMS_BAD_INPUT_DATA, ctx')
       /\ type (params ctx') = 6
       /\ have_public_key ctx' = false.
Proof.
  split; [reflexivity|].
  destruct (@import_public_key_partial_update lms_h mbedtls_lms_init_public
              ([0; 0; 0; 6; 0; 0; 0; 3] ++ replicate 48 0))
    as ((ctx' & Himp & Hty & _ & _ & _ & _ & Hhave) & _);
    [vm_compute; discriminate|vm_compute; discriminate
    |vm_compute; reflexivity|vm_compute; discriminate|].
  exists ctx'. split; [exact Himp|split; [exact Hty|exact Hhave]].
Defined.

(** C6, on the code: a freshly initialised context holds type 0, for which
    the header's public-key length is 24, so a key of 24 bytes passes the
    length check.  24 zero bytes are then rejected for their type field,
    with [BadInput]; 24 bytes with both type fields right are read up to
    byte 56, past the end of the key. *)
Theorem import_public_key_short_key_fresh_context :
  @mbedtls_lms_import_public_key lms_h mbedtls_lms_init_public (replicate 24 0)
    = Some (MBEDTLS_ERR_LMS_BAD_INPUT_DATA, mbedtls_lms_init_public)
  /\ @mbedtls_lms_import_public_key lms_h mbedtls_lms_init_public
       ([0; 0; 0; 6; 0; 0; 0; 4] ++ replicate 16 0)
     = None.
Proof. split; vm_compute; reflexivity. Qed.

(** ** The header's values for the supported pair *)

Lemma lms_h_rfc8554 : @rfc8554_header lms_h.
Proof.
  unfold rfc8554_header. simpl. repeat split; try reflexivity; try discriminate.
  intros type. destruct (type =? MBEDTLS_LMS_SHA256_M32_H10); discriminate.
Qed.

Section HeaderFacts.
Context `{LmsHeader}.
Hypothesis Hhdr : rfc8554_header.

Lemma sig_len_supported :
  MBEDTLS_LMS_SIG_LEN MBEDTLS_LMS_SHA256_M32_H10 MBEDTLS_LMOTS_SHA256_N32_W8
  = 1464.
Proof using Hhdr.
  destruct Hhdr as (Hh & Hm & _ & Hs & _). unfold MBEDTLS_LMS_SIG_LEN.
  rewrite Hh, Hm, Hs. reflexivity.
Qed.

Lemma public_key_len_supported :
  MBEDTLS_LMS_PUBLIC_KEY_LEN MBEDTLS_LMS_SHA256_M32_H10 = 56.
Proof using Hhdr.
  destruct Hhdr as (_ & Hm & _). unfold MBEDTLS_LMS_PUBLIC_KEY_LEN.
  rewrite Hm. reflexivity.
Qed.

Lemma leaf_node_am_supported :
  MERKLE_TREE_LEAF_NODE_AM MBEDTLS_LMS_SHA256_M32_H10 = 1024.
Proof using Hhdr.
  destruct Hhdr as (Hh & _). unfold MERKLE_TREE_LEAF_NODE_AM.
  rewrite Hh. reflexivity.
Qed.

Lemma internal_node_am_supported :
  MERKLE_TREE_INTERNAL_NODE_AM MBEDTLS_LMS_SHA256_M32_H10 = 1024.
Proof using Hhdr. exact leaf_node_am_supported. Qed.

Lemma sig_type_offset_supported :
  SIG_TYPE_OFFSET MBEDTLS_LMOTS_SHA256_N32_W8 = 1140.
Proof using Hhdr.
  destruct Hhdr as (_ & _ & _ & Hs & _). unfold SIG_TYPE_OFFSET.
  rewrite Hs. reflexivity.
Qed.

Lemma sig_path_offset_supported :
  SIG_PATH_OFFSET MBEDTLS_LMOTS_SHA256_N32_W8 = 1144.
Proof using Hhdr.
  unfold SIG_PATH_OFFSET. rewrite sig_type_offset_supported. reflexivity.
Qed.

End HeaderFacts.

(** ** Verification: the checks on the inputs *)

Section Verify.
Context `{LmsHeader} `{PsaHash} {P_rng : Type} `{Lmots P_rng}.

(** C4: [mbedtls_lms_verify] returns [BadInput] when the context has no
    public key, when the signature is not exactly 1464 bytes long or when
    the context's pair is not the supported one, whatever the signature
    holds; past these checks it returns [VerifyFailed] when the type field
    of the OTS signature is not 4, when the type field at offset 1140 is
    not 6, or when the leaf index at offset 0 is 1024 or more, whatever
    the OTS collaborator would answer. *)
Theorem verify_input_checks ctx msg sig Kc Tc :
  rfc8554_header ->
  ((have_public_key ctx = false
    \/ Z.of_nat (length sig) <> 1464
    \/ type (params ctx) <> MBEDTLS_LMS_SHA256_M32_H10
    \/ otstype (params ctx) <> MBEDTLS_LMOTS_SHA256_N32_W8) ->
   mbedtls_lms_verify ctx msg sig Kc Tc = MBEDTLS_ERR_LMS_BAD_INPUT_DATA)
  /\ (have_public_key ctx = true ->
      Z.of_nat (length sig) = 1464 ->
      type (params ctx) = MBEDTLS_LMS_SHA256_M32_H10 ->
      otstype (params ctx) = MBEDTLS_LMOTS_SHA256_N32_W8 ->
      (mbedtls_lms_network_bytes_to_unsigned_int 4
         (read sig (4 + MBEDTLS_LMOTS_SIG_TYPE_OFFSET) 4)
         <> MBEDTLS_LMOTS_SHA256_N32_W8
       \/ mbedtls_lms_network_bytes_to_unsigned_int 4 (read sig 1140 4)
            <> MBEDTLS_LMS_SHA256_M32_H10
       \/ 1024 <= mbedtls_lms_network_bytes_to_unsigned_int 4 (read sig 0 4)) ->
      mbedtls_lms_verify ctx msg sig Kc Tc = MBEDTLS_ERR_LMS_VERIFY_FAILED).
Proof.
  intros Hhdr. unfold mbedtls_lms_verify. split.
  - intros Hbad.
    destruct (have_public_key ctx); [|reflexivity]. cbn [negb].
    destruct (Z.eqb_spec (Z.of_nat (length sig))
                (MBEDTLS_LMS_SIG_LEN (type (params ctx)) (otstype (params ctx))))
      as [Hlen|Hlen]; [|reflexivity]. cbn [negb].
    destruct (Z.eqb_spec (type (params ctx)) MBEDTLS_LMS_SHA256_M32_H10)
      as [Hty|Hty]; [|reflexivity]. cbn [negb].
    destruct (Z.eqb_spec (otstype (params ctx)) MBEDTLS_LMOTS_SHA256_N32_W8)
      as [Hots|Hots]; [|reflexivity]. exfalso.
    rewrite Hty, Hots, (sig_len_supported Hhdr) in Hlen.
    destruct Hbad as [Hb|[Hb|[Hb|Hb]]]; congruence.
  - intros -> Hlen Hty Hots Hfield. cbn [negb].
    rewrite Hty, Hots, (sig_len_supported Hhdr), Hlen.
    rewrite (sig_type_offset_supported Hhdr), (leaf_node_am_supported Hhdr).
    change (1464 =? 1464) with true.
    change (MBEDTLS_LMS_SHA256_M32_H10 =? MBEDTLS_LMS_SHA256_M32_H10) with true.
    change (MBEDTLS_LMOTS_SHA256_N32_W8 =? MBEDTLS_LMOTS_SHA256_N32_W8) with true.
    cbn [negb].
    change (Z.to_nat MBEDTLS_LMOTS_TYPE_LEN) with 4%nat.
    change (Z.to_nat MBEDTLS_LMS_TYPE_LEN) with 4%nat.
    change (Z.to_nat MBEDTLS_LMOTS_Q_LEAF_ID_LEN) with 4%nat.
    change SIG_OTS_SIG_OFFSET with 4. change SIG_Q_LEAF_ID_OFFSET with 0.
    rewrite !decode_ptr_add.
    destruct (Z.eqb_spec
      (mbedtls_lms_network_bytes_to_unsigned_int 4
         (read sig (4 + MBEDTLS_LMOTS_SIG_TYPE_OFFSET) 4))
      MBEDTLS_LMOTS_SHA256_N32_W8) as [E1|E1]; [|reflexivity]. cbn [negb].
    destruct (Z.eqb_spec
      (mbedtls_lms_network_bytes_to_unsigned_int 4 (read sig 1140 4))
      MBEDTLS_LMS_SHA256_M32_H10) as [E2|E2]; [|reflexivity]. cbn [negb].
    destruct (Z.geb_spec
      (mbedtls_lms_network_bytes_to_unsigned_int 4 (read sig 0 4)) 1024)
      as [E3|E3]; [reflexivity|].
    destruct Hfield as [Hf|[Hf|Hf]]; [contradiction|contradiction|lia].
Qed.

End Verify.

(** The spec's scenario for C4: a signature whose embedded OTS type was
    changed to 3 is rejected with [VerifyFailed]. *)
Lemma verify_input_checks_tampered_ots_type :
  @mbedtls_lms_verify lms_h test_psa unit test_lmots
    (test_public (replicate 32 0)) [] (test_sig 0 3)
    (replicate 32 0) (replicate 32 0)
  = MBEDTLS_ERR_LMS_VERIFY_FAILED.
Proof.
  apply (proj2 (@verify_input_checks lms_h test_psa unit test_lmots
                  (test_public (replicate 32 0)) [] (test_sig 0 3)
                  (replicate 32 0) (replicate 32 0) lms_h_rfc8554));
    try (vm_compute; reflexivity).
  left. vm_compute. discriminate.
Defined.

(** ** Verification: failures of the node hasher *)

(** C5, on the code: [mbedtls_lms_verify] drops the return codes of
    [create_merkle_leaf_value] and [create_merkle_internal_value].  With a
    backend that fails the hash of the root node (index 1), the candidate
    buffer keeps the node computed one level below, and a context whose
    [T_1_pub_key] holds those bytes gets the answer 0; with the healthy
    backend the same call is rejected. *)
Theorem verify_succeeds_after_failed_root_hash :
  let ctx := test_public (replicate 32 72) in
  (forall left right out,
     fst (@create_merkle_internal_value lms_h root_fault_psa (params ctx)
            left right 1 out) <> 0)
  /\ @mbedtls_lms_verify lms_h root_fault_psa unit test_lmots ctx []
       (test_sig 0 4) (replicate 32 0) (replicate 32 0) = 0
  /\ @mbedtls_lms_verify lms_h test_psa unit test_lmots ctx []
       (test_sig 0 4) (replicate 32 0) (replicate 32 0)
     = MBEDTLS_ERR_LMS_VERIFY_FAILED.
Proof.
  split; [|split; vm_compute; reflexivity].
  intros left right out. cbv. discriminate.
Qed.

(** ** Signing and the leaf counter *)

Section Counter.
Context `{LmsHeader} `{PsaHash} `{Platform} {P_rng : Type} `{Lmots P_rng}.

(** A call that one of the five entry checks rejects changes nothing. *)
Lemma sign_rejected ctx f_rng p_rng msg sig tree :
  have_private_key ctx = false
  \/ Z.of_nat (length sig)
     < MBEDTLS_LMS_SIG_LEN (type (priv_params ctx)) (otstype (priv_params ctx))
  \/ type (priv_params ctx) <> MBEDTLS_LMS_SHA256_M32_H10
  \/ otstype (priv_params ctx) <> MBEDTLS_LMOTS_SHA256_N32_W8
  \/ MERKLE_TREE_LEAF_NODE_AM (type (priv_params ctx)) <= q_next_usable_key ctx ->
  let r := mbedtls_lms_sign ctx f_rng p_rng msg sig tree in
  sign_ctx r = ctx /\ sign_ret r <> 0 /\ sign_sig r = sig /\ sign_rng r = p_rng.
Proof.
  intros Hrej. unfold mbedtls_lms_sign.
  destruct (have_private_key ctx); cbn [negb]; [|by repeat split].
  destruct (Z.ltb_spec (Z.of_nat (length sig))
              (MBEDTLS_LMS_SIG_LEN (type (priv_params ctx))
                 (otstype (priv_params ctx)))); [by repeat split|].
  destruct (Z.eqb_spec (type (priv_params ctx)) MBEDTLS_LMS_SHA256_M32_H10);
    cbn [negb]; [|by repeat split].
  destruct (Z.eqb_spec (otstype (priv_params ctx)) MBEDTLS_LMOTS_SHA256_N32_W8);
    cbn [negb]; [|by repeat split].
  destruct (Z.geb_spec (q_next_usable_key ctx)
              (MERKLE_TREE_LEAF_NODE_AM (type (priv_params ctx))));
    [by repeat split|].
  exfalso. destruct Hrej as [Hr|[Hr|[Hr|[Hr|Hr]]]]; try congruence; lia.
Qed.

(** A call that passes the entry checks advances the counter, whatever
    the OTS signer and the tree builder return afterwards; the parameters,
    the flag and the OTS public keys stay. *)
Lemma sign_accepted ctx f_rng p_rng msg sig tree :
  have_private_key ctx = true ->
  MBEDTLS_LMS_SIG_LEN (type (priv_params ctx)) (otstype (priv_params ctx))
    <= Z.of_nat (length sig) ->
  type (priv_params ctx) = MBEDTLS_LMS_SHA256_M32_H10 ->
  otstype (priv_params ctx) = MBEDTLS_LMOTS_SHA256_N32_W8 ->
  q_next_usable_key ctx < MERKLE_TREE_LEAF_NODE_AM (type (priv_params ctx)) ->
  let r := mbedtls_lms_sign ctx f_rng p_rng msg sig tree in
  q_next_usable_key (sign_ctx r) = u32 (q_next_usable_key ctx + 1)
  /\ priv_params (sign_ctx r) = priv_params ctx
  /\ have_private_key (sign_ctx r) = true
  /\ ots_public_keys (sign_ctx r) = ots_public_keys ctx.
Proof.
  intros Hhave Hlen Hty Hots Hq. unfold mbedtls_lms_sign.
  rewrite Hhave. cbn [negb].
  destruct (Z.ltb_spec (Z.of_nat (length sig))
              (MBEDTLS_LMS_SIG_LEN (type (priv_params ctx))
                 (otstype (priv_params ctx)))); [lia|].
  destruct (Z.eqb_spec (type (priv_params ctx)) MBEDTLS_LMS_SHA256_M32_H10);
    [|contradiction].
  destruct (Z.eqb_spec (otstype (priv_params ctx)) MBEDTLS_LMOTS_SHA256_N32_W8);
    [|contradiction].
  destruct (Z.geb_spec (q_next_usable_key ctx)
              (MERKLE_TREE_LEAF_NODE_AM (type (priv_params ctx)))); [lia|].
  cbn [negb].
  destruct (mbedtls_lmots_sign _ _ _ _ _) as [[[ret sk] p'] ots_sig].
  destruct (negb (ret =? 0)); [by repeat split|].
  destruct (get_merkle_path _ _ _ _) as [ret' path].
  destruct (negb (ret' =? 0)); by repeat split.
Qed.

(** The key-generation loop is left by [goto exit] with a non-zero [ret];
    left at its end after at least one round, [ret] is 0. *)
Lemma generate_ots_keys_ret n ret0 idx otstype_ key_id seed privs pubs :
  let '(jumped, ret, _, _, _) :=
    generate_ots_keys n ret0 idx otstype_ key_id seed privs pubs in
  if jumped then ret <> 0 else (n = O /\ ret = ret0) \/ ret = 0.
Proof.
  revert ret0 idx privs pubs.
  induction n as [|n IH]; intros ret0 idx privs pubs; simpl; [by left|].
  destruct (mbedtls_lmots_generate_private_key _ _ _ _ _) as [ret1 sk].
  destruct (Z.eqb_spec ret1 0) as [->|Hne]; cbn [negb]; [|exact Hne].
  destruct (mbedtls_lmots_calculate_public_key _ _) as [ret2 pk].
  destruct (Z.eqb_spec ret2 0) as [->|Hne]; cbn [negb]; [|exact Hne].
  specialize (IH 0 (idx + 1) (<[Z.to_nat idx:=sk]> privs)
                (<[Z.to_nat idx:=pk]> pubs)).
  destruct (generate_ots_keys _ _ _ _ _ _ _ _) as [[[[j r] i] sks] pks].
  destruct j; [exact IH|]. right. destruct IH as [[_ ->] | ->]; reflexivity.
Qed.

Lemma counter_inv_init : counter_inv mbedtls_lms_init_private.
Proof. repeat split; simpl; (lia || discriminate). Qed.

Lemma generate_private_key_counter ctx type_ otstype_ f_rng p_rng seed :
  rfc8554_header -> counter_inv ctx ->
  counter_inv
    (snd (fst (mbedtls_lms_generate_private_key ctx type_ otstype_ f_rng
                 p_rng seed)))
  /\ q_next_usable_key ctx
     <= q_next_usable_key
          (snd (fst (mbedtls_lms_generate_private_key ctx type_ otstype_ f_rng
                       p_rng seed))).
Proof.
  intros Hhdr Hinv. unfold mbedtls_lms_generate_private_key.
  destruct (Z.eqb_spec type_ MBEDTLS_LMS_SHA256_M32_H10) as [->|];
    cbn [negb]; [|split; [exact Hinv|simpl; lia]].
  destruct (Z.eqb_spec otstype_ MBEDTLS_LMOTS_SHA256_N32_W8) as [->|];
    cbn [negb]; [|split; [exact Hinv|simpl; lia]].
  destruct (have_private_key ctx) eqn:Hhave; [split; [exact Hinv|simpl; lia]|].
  destruct Hinv as (Hq & Hq0 & _). specialize (Hq0 Hhave).
  destruct (f_rng p_rng MBEDTLS_LMOTS_I_KEY_ID_LEN) as [[rc random] p'].
  cbn [priv_params set_priv_params set_type set_otstype set_I_key_identifier
       type otstype].
  rewrite (leaf_node_am_supported Hhdr).
  destruct (mbedtls_calloc_ok 0); cbn [negb];
    [|split; [repeat split; simpl; (lia || congruence)|simpl; lia]].
  destruct (mbedtls_calloc_ok 1); cbn [negb];
    [|split; [repeat split; simpl; (lia || congruence)|simpl; lia]].
  match goal with |- context [generate_ots_keys ?n ?r ?i ?o ?k ?s ?a ?b] =>
    pose proof (generate_ots_keys_ret n r i o k s a b) as Hloop;
    destruct (generate_ots_keys n r i o k s a b) as [[[[j ret] idx] sks] pks]
  end.
  destruct j.
  - destruct (Z.eqb_spec ret 0); [contradiction|]. cbn [negb].
    split; [repeat split; simpl; (lia || congruence)|simpl; lia].
  - destruct Hloop as [[Hn _] | ->]; [discriminate Hn|].
    simpl. split; [repeat split; simpl; (lia || congruence)|lia].
Qed.

Lemma run_op_counter st op :
  rfc8554_header -> counter_inv (fst st) ->
  counter_inv (fst (run_op st op))
  /\ q_next_usable_key (fst st) <= q_next_usable_key (fst (run_op st op)).
Proof.
  intros Hhdr Hinv. destruct op as [t o f seed|f msg sig tree|pub tree]; simpl.
  - pose proof (generate_private_key_counter (fst st) t o f (snd st) seed
                  Hhdr Hinv) as Hg.
    destruct (mbedtls_lms_generate_private_key _ _ _ _ _ _) as [[ret c] p].
    exact Hg.
  - destruct Hinv as (Hq & Hq0 & Hty).
    destruct (have_private_key (fst st)) eqn:Hhave.
    + destruct (Hty eq_refl) as [Ht Ho].
      destruct (Z.le_gt_cases
                  (MBEDTLS_LMS_SIG_LEN (type (priv_params (fst st)))
                     (otstype (priv_params (fst st))))
                  (Z.of_nat (length sig))) as [Hlen|Hlen];
        [destruct (Z.lt_ge_cases (q_next_usable_key (fst st)) 1024) as [Hlt|Hge]|].
      * destruct (sign_accepted (fst st) f (snd st) msg sig tree Hhave Hlen Ht Ho)
          as (Hq' & Hp & Hh & _);
          [rewrite Ht, (leaf_node_am_supported Hhdr); exact Hlt|].
        rewrite u32_small in Hq' by lia.
        repeat split; try lia; try congruence.
      * destruct (sign_rejected (fst st) f (snd st) msg sig tree) as [-> _].
        { do 4 right. rewrite Ht, (leaf_node_am_supported Hhdr). lia. }
        repeat split; try lia; try congruence.
      * destruct (sign_rejected (fst st) f (snd st) msg sig tree) as [-> _].
        { right. left. lia. }
        repeat split; try lia; try congruence.
    + destruct (sign_rejected (fst st) f (snd st) msg sig tree) as [-> _].
      { by left. }
      repeat split; try lia; try congruence.
  - split; [exact Hinv|lia].
Qed.

Lemma fold_run_op_counter ops st :
  rfc8554_header -> counter_inv (fst st) ->
  counter_inv (fst (fold_left run_op ops st))
  /\ q_next_usable_key (fst st)
     <= q_next_usable_key (fst (fold_left run_op ops st)).
Proof.
  intros Hhdr. revert st. induction ops as [|op ops IH]; intros st Hinv; simpl.
  - split; [exact Hinv|lia].
  - destruct (run_op_counter st op Hhdr Hinv) as [Hinv' Hle].
    destruct (IH _ Hinv') as [Hinv'' Hle']. split; [exact Hinv''|lia].
Qed.

(** C2, as the code has it: on a private context between
    [mbedtls_lms_init_private] and [mbedtls_lms_free_private], after any
    sequence [ops1] of calls: [q_next_usable_key] does not decrease over
    any further calls [ops2]; it is at most 1024; a call of
    [mbedtls_lms_sign] that returns 0 adds exactly one; at 1024 the call
    fails and changes nothing, with [OutOfPrivateKeys] when the signature
    buffer has at least 1464 bytes and with [BufferTooSmall] when it has
    fewer, the buffer size being checked first; and a call that passes
    the entry checks leaves the counter advanced by one whatever it
    returns, so a failure of the OTS signer or of the tree build does not
    roll it back. *)
Theorem q_next_usable_key_monotone ops1 ops2 p_rng f_rng msg sig tree :
  rfc8554_header ->
  let ctx := fst (run_ops ops1 p_rng) in
  let r := mbedtls_lms_sign ctx f_rng (snd (run_ops ops1 p_rng)) msg sig tree in
  q_next_usable_key ctx
    <= q_next_usable_key (fst (run_ops (ops1 ++ ops2) p_rng))
  /\ 0 <= q_next_usable_key ctx <= 1024
  /\ (sign_ret r = 0 ->
      q_next_usable_key (sign_ctx r) = q_next_usable_key ctx + 1)
  /\ (q_next_usable_key ctx = 1024 ->
      sign_ret r <> 0 /\ sign_ctx r = ctx
      /\ (1464 <= Z.of_nat (length sig) ->
          sign_ret r = MBEDTLS_ERR_LMS_OUT_OF_PRIVATE_KEYS)
      /\ (Z.of_nat (length sig) < 1464 ->
          sign_ret r = MBEDTLS_ERR_LMS_BUFFER_TOO_SMALL))
  /\ (have_private_key ctx = true -> 1464 <= Z.of_nat (length sig) ->
      q_next_usable_key ctx < 1024 ->
      q_next_usable_key (sign_ctx r) = q_next_usable_key ctx + 1).
Proof.
  intros Hhdr ctx r.
  destruct (fold_run_op_counter ops1 (mbedtls_lms_init_private, p_rng) Hhdr
              counter_inv_init) as [Hinv _].
  fold (run_ops ops1 p_rng) in Hinv. fold ctx in Hinv.
  destruct Hinv as (Hq & Hq0 & Hty).
  assert (Hacc : have_private_key ctx = true ->
                 1464 <= Z.of_nat (length sig) ->
                 q_next_usable_key ctx < 1024 ->
                 q_next_usable_key (sign_ctx r) = q_next_usable_key ctx + 1).
  { intros Hhave Hlen Hlt. destruct (Hty Hhave) as [Ht Ho].
    destruct (sign_accepted ctx f_rng (snd (run_ops ops1 p_rng)) msg sig tree
                Hhave) as (Hq' & _); try assumption.
    - rewrite Ht, Ho, (sig_len_supported Hhdr). exact Hlen.
    - rewrite Ht, (leaf_node_am_supported Hhdr). exact Hlt.
    - fold r in Hq'. rewrite Hq'. apply u32_small. lia. }
  split; [|split; [exact Hq|split; [|split; [|exact Hacc]]]].
  - unfold run_ops. rewrite fold_left_app.
    apply (fold_run_op_counter ops2 _ Hhdr).
    apply (fold_run_op_counter ops1 (mbedtls_lms_init_private, p_rng) Hhdr
             counter_inv_init).
  - intros Hret.
    destruct (have_private_key ctx) eqn:Hhave.
    + destruct (Hty eq_refl) as [Ht Ho].
      destruct (Z.le_gt_cases 1464 (Z.of_nat (length sig))) as [Hlen|Hlen];
        [destruct (Z.lt_ge_cases (q_next_usable_key ctx) 1024) as [Hlt|Hge]|].
      * by apply Hacc.
      * destruct (sign_rejected ctx f_rng (snd (run_ops ops1 p_rng)) msg sig tree)
          as (_ & Hne & _); [|contradiction].
        do 4 right. rewrite Ht, (leaf_node_am_supported Hhdr). lia.
      * destruct (sign_rejected ctx f_rng (snd (run_ops ops1 p_rng)) msg sig tree)
          as (_ & Hne & _); [|contradiction].
        right. left. rewrite Ht, Ho, (sig_len_supported Hhdr). lia.
    + destruct (sign_rejected ctx f_rng (snd (run_ops ops1 p_rng)) msg sig tree)
        as (_ & Hne & _); [by left|contradiction].
  - intros Hfull.
    assert (Hhave : have_private_key ctx = true).
    { destruct (have_private_key ctx); [reflexivity|].
      specialize (Hq0 eq_refl). lia. }
    destruct (Hty Hhave) as [Ht Ho].
    destruct (sign_rejected ctx f_rng (snd (run_ops ops1 p_rng)) msg sig tree)
      as (Hctx & Hne & _).
    { do 4 right. rewrite Ht, (leaf_node_am_supported Hhdr). lia. }
    split; [exact Hne|split; [exact Hctx|split]].
    + intros Hlen. subst r. unfold mbedtls_lms_sign.
      rewrite Hhave, Ht, Ho, (sig_len_supported Hhdr),
        (leaf_node_am_supported Hhdr), Hfull. cbn [negb].
      destruct (Z.ltb_spec (Z.of_nat (length sig)) 1464); [lia|]. reflexivity.
    + intros Hlen. subst r. unfold mbedtls_lms_sign.
      rewrite Hhave, Ht, Ho, (sig_len_supported Hhdr). cbn [negb].
      destruct (Z.ltb_spec (Z.of_nat (length sig)) 1464); [|lia]. reflexivity.
Qed.

(** C3, as the code has it: a call of [mbedtls_lms_sign] that returns an
    error from one of its entry checks (no private key, buffer too small,
    unsupported pair, counter exhausted) leaves [q_next_usable_key] as it
    was; a call that returns an error after the entry checks (failure of
    the OTS signer or of the tree build) leaves it one higher. *)
Theorem sign_error_counter ctx f_rng p_rng msg sig tree :
  rfc8554_header ->
  0 <= q_next_usable_key ctx ->
  let r := mbedtls_lms_sign ctx f_rng p_rng msg sig tree in
  sign_ret r <> 0 ->
  (have_private_key ctx = false
   \/ Z.of_nat (length sig) < 1464
   \/ type (priv_params ctx) <> MBEDTLS_LMS_SHA256_M32_H10
   \/ otstype (priv_params ctx) <> MBEDTLS_LMOTS_SHA256_N32_W8
   \/ 1024 <= q_next_usable_key ctx ->
   q_next_usable_key (sign_ctx r) = q_next_usable_key ctx)
  /\ (have_private_key ctx = true ->
      1464 <= Z.of_nat (length sig) ->
      type (priv_params ctx) = MBEDTLS_LMS_SHA256_M32_H10 ->
      otstype (priv_params ctx) = MBEDTLS_LMOTS_SHA256_N32_W8 ->
      q_next_usable_key ctx < 1024 ->
      q_next_usable_key (sign_ctx r) = q_next_usable_key ctx + 1).
Proof.
  intros Hhdr Hq0 r Hret. split.
  - intros Hrej.
    destruct (Z.eq_dec (type (priv_params ctx)) MBEDTLS_LMS_SHA256_M32_H10)
      as [Ht|Ht];
      [destruct (Z.eq_dec (otstype (priv_params ctx))
                   MBEDTLS_LMOTS_SHA256_N32_W8) as [Ho|Ho]|].
    + destruct (sign_rejected ctx f_rng p_rng msg sig tree) as (Hctx & _);
        [|fold r in Hctx; by rewrite Hctx].
      rewrite Ht, Ho, (sig_len_supported Hhdr), (leaf_node_am_supported Hhdr).
      destruct Hrej as [Hr|[Hr|[Hr|[Hr|Hr]]]]; auto; contradiction.
    + destruct (sign_rejected ctx f_rng p_rng msg sig tree) as (Hctx & _);
        [auto|fold r in Hctx; by rewrite Hctx].
    + destruct (sign_rejected ctx f_rng p_rng msg sig tree) as (Hctx & _);
        [auto|fold r in Hctx; by rewrite Hctx].
  - intros Hhave Hlen Ht Ho Hlt.
    destruct (sign_accepted ctx f_rng p_rng msg sig tree Hhave) as (Hq' & _);
      try assumption.
    + rewrite Ht, Ho, (sig_len_supported Hhdr). exact Hlen.
    + rewrite Ht, (leaf_node_am_supported Hhdr). exact Hlt.
    + fold r in Hq'. rewrite Hq'. apply u32_small. lia.
Qed.

End Counter.

(** C2 as stated fails: after a key generation and 1024 signature
    requests whose RNG fails the counter is 1024, and a further request
    with a buffer of 1463 bytes is turned away with [BufferTooSmall], not
    with [OutOfPrivateKeys]. *)
Lemma sign_exhausted_short_buffer :
  let st := @run_ops lms_h test_psa test_platform unit test_lmots
              (test_generate :: replicate 1024 test_sign_failing_rng) tt in
  let r := @mbedtls_lms_sign lms_h test_psa unit test_lmots (fst st) test_rng
             (snd st) [] (replicate 1463 0) [] in
  q_next_usable_key (fst st) = 1024
  /\ sign_ret r = MBEDTLS_ERR_LMS_BUFFER_TOO_SMALL
  /\ sign_ret r <> MBEDTLS_ERR_LMS_OUT_OF_PRIVATE_KEYS.
Proof. vm_compute. repeat split. discriminate. Qed.

(** The amended C2 on that run: with the counter at 1024 a request with
    a buffer of 1464 bytes is turned away with [OutOfPrivateKeys], and
    the counter stays at 1024. *)
Lemma q_next_usable_key_monotone_test_run :
  let st := @run_ops lms_h test_psa test_platform unit test_lmots
              (test_generate :: replicate 1024 test_sign_failing_rng) tt in
  let r := @mbedtls_lms_sign lms_h test_psa unit test_lmots (fst st) test_rng
             (snd st) [] (replicate 1464 0) [] in
  sign_ret r = MBEDTLS_ERR_LMS_OUT_OF_PRIVATE_KEYS
  /\ sign_ctx r = fst st
  /\ 0 <= q_next_usable_key (fst st) <= 1024.
Proof.
  intros st r.
  pose proof (@q_next_usable_key_monotone lms_h test_psa test_platform unit
                test_lmots
                (test_generate :: replicate 1024 test_sign_failing_rng) [] tt
                test_rng [] (replicate 1464 0) [] lms_h_rfc8554)
    as (_ & Hbound & _ & Hfull & _).
  assert (Hq : q_next_usable_key (fst st) = 1024)
    by (vm_compute; reflexivity).
  assert (Hlen : 1464 <= Z.of_nat (length (replicate 1464 0)))
    by (vm_compute; discriminate).
  destruct (Hfull Hq) as (_ & Hctx & Hout & _).
  split; [exact (Hout Hlen)|split; [exact Hctx|exact Hbound]].
Defined.

(** C3 as stated fails: on a freshly generated key, a call of
    [mbedtls_lms_sign] whose RNG fails returns the RNG's error from the OTS
    signer, and the counter has moved from 0 to 1. *)
Lemma sign_error_advances_counter :
  let r := @mbedtls_lms_sign lms_h test_psa unit test_lmots test_private
             failing_rng tt [] (replicate 1464 0) [] in
  sign_ret r = -52
  /\ q_next_usable_key test_private = 0
  /\ q_next_usable_key (sign_ctx r) = 1
  /\ q_next_usable_key (sign_ctx r) <> q_next_usable_key test_private.
Proof. vm_compute. repeat split. discriminate. Qed.

(** The amended C3 on the same call. *)
Lemma sign_error_counter_failed_ots_sign :
  q_next_usable_key
    (sign_ctx (@mbedtls_lms_sign lms_h test_psa unit test_lmots test_private
                 failing_rng tt [] (replicate 1464 0) []))
  = q_next_usable_key test_private + 1.
Proof.
  refine (proj2 (@sign_error_counter lms_h test_psa unit test_lmots
                   test_private failing_rng tt [] (replicate 1464 0) []
                   lms_h_rfc8554 _ _) _ _ _ _ _);
    vm_compute; try reflexivity; discriminate.
Defined.

(** ** Key generation and the RNG *)

(** C7, on the code: [mbedtls_lms_generate_private_key] calls [f_rng] for
    the key identifier and drops its return code.  With an RNG that
    reports a failure and stores nothing, the call still returns 0 with
    [have_private_key] set, and [I] is the 16 zero bytes the context held
    before. *)
Theorem generate_private_key_ignores_rng_failure :
  let r := @mbedtls_lms_generate_private_key lms_h test_platform unit
             test_lmots mbedtls_lms_init_private MBEDTLS_LMS_SHA256_M32_H10
             MBEDTLS_LMOTS_SHA256_N32_W8 failing_rng tt [] in
  fst (fst (failing_rng tt MBEDTLS_LMOTS_I_KEY_ID_LEN)) <> 0
  /\ fst (fst r) = 0
  /\ have_private_key (snd (fst r)) = true
  /\ q_next_usable_key (snd (fst r)) = 0
  /\ I_key_identifier (priv_params (snd (fst r))) = replicate 16 0
  /\ length (ots_private_keys (snd (fst r))) = 1024%nat.
Proof. vm_compute. repeat split. discriminate. Qed.

(** ** The node hasher against the spec's two hashes *)

Section Hasher.
Context `{LmsHeader} `{PsaHash}.

Ltac psa_cases :=
  repeat match goal with
  | |- context [negb (psa_hash_status ?c =? PSA_SUCCESS)] =>
      destruct (Z.eqb_spec (psa_hash_status c) PSA_SUCCESS); cbn [negb fst snd]
  end.

(** [create_merkle_leaf_value] returns 0 only after it stored
    [leaf_hash] at [out]; a failed call leaves [out] alone; and with a
    backend that does not fail and room for the digest it returns 0. *)
Lemma create_merkle_leaf_value_spec params pub_key r out :
  psa_contract ->
  let res := create_merkle_leaf_value params pub_key r out in
  (fst res = 0 ->
   snd res
   = write out 0
       (leaf_hash (read (I_key_identifier params) 0 16) r
          (read pub_key 0 (MBEDTLS_LMOTS_N_HASH_LEN (otstype params)))))
  /\ (fst res <> 0 -> snd res = out)
  /\ (psa_never_fails -> 32 <= MBEDTLS_LMS_M_NODE_BYTES (type params) ->
      fst res = 0).
Proof.
  intros (Hlen & Hok & Herr).
  unfold create_merkle_leaf_value, psa_hash_setup, psa_hash_update,
    psa_hash_finish, psa_hash_operation_init.
  cbv beta iota zeta. repeat split.
  - psa_cases;
      try (intros Hret; apply Herr in Hret; contradiction).
    rewrite Hlen.
    destruct (Z.ltb_spec (MBEDTLS_LMS_M_NODE_BYTES (type params))
                (Z.of_nat 32)); cbn [fst snd].
    + intros Hret. apply Herr in Hret. discriminate Hret.
    + intros _. unfold leaf_hash. do 2 f_equal.
      rewrite <- !app_assoc. reflexivity.
  - psa_cases; try reflexivity.
    rewrite Hlen.
    destruct (Z.ltb_spec (MBEDTLS_LMS_M_NODE_BYTES (type params))
                (Z.of_nat 32)); cbn [fst snd]; [reflexivity|].
    intros Hne. contradiction.
  - intros Hnf Hroom. rewrite !Hnf.
    change (PSA_SUCCESS =? PSA_SUCCESS) with true. cbn [negb].
    rewrite Hlen.
    destruct (Z.ltb_spec (MBEDTLS_LMS_M_NODE_BYTES (type params))
                (Z.of_nat 32)); [lia|exact Hok].
Qed.

Lemma create_merkle_internal_value_spec params left right r out :
  psa_contract ->
  let res := create_merkle_internal_value params left right r out in
  (fst res = 0 ->
   snd res
   = write out 0
       (internal_hash (read (I_key_identifier params) 0 16) r
          (read left 0 (MBEDTLS_LMS_M_NODE_BYTES (type params)))
          (read right 0 (MBEDTLS_LMS_M_NODE_BYTES (type params)))))
  /\ (fst res <> 0 -> snd res = out)
  /\ (psa_never_fails -> 32 <= MBEDTLS_LMS_M_NODE_BYTES (type params) ->
      fst res = 0).
Proof.
  intros (Hlen & Hok & Herr).
  unfold create_merkle_internal_value, psa_hash_setup, psa_hash_update,
    psa_hash_finish, psa_hash_operation_init.
  cbv beta iota zeta. repeat split.
  - psa_cases;
      try (intros Hret; apply Herr in Hret; contradiction).
    rewrite Hlen.
    destruct (Z.ltb_spec (MBEDTLS_LMS_M_NODE_BYTES (type params))
                (Z.of_nat 32)); cbn [fst snd].
    + intros Hret. apply Herr in Hret. discriminate Hret.
    + intros _. unfold internal_hash. do 2 f_equal.
      rewrite <- !app_assoc. reflexivity.
  - psa_cases; try reflexivity.
    rewrite Hlen.
    destruct (Z.ltb_spec (MBEDTLS_LMS_M_NODE_BYTES (type params))
                (Z.of_nat 32)); cbn [fst snd]; [reflexivity|].
    intros Hne. contradiction.
  - intros Hnf Hroom. rewrite !Hnf.
    change (PSA_SUCCESS =? PSA_SUCCESS) with true. cbn [negb].
    rewrite Hlen.
    destruct (Z.ltb_spec (MBEDTLS_LMS_M_NODE_BYTES (type params))
                (Z.of_nat 32)); [lia|exact Hok].
Qed.

End Hasher.

(** ** The tree builder *)

Lemma row_insert_eq tree r node :
  0 <= r -> (Z.to_nat r < length tree)%nat ->
  row (<[Z.to_nat r := node]> tree) r = node.
Proof.
  intros. unfold row. rewrite nth_lookup, list_lookup_insert_eq by lia.
  reflexivity.
Qed.

Lemma row_insert_ne tree r k node :
  0 <= r -> 0 <= k -> r <> k ->
  row (<[Z.to_nat r := node]> tree) k = row tree k.
Proof.
  intros. unfold row. rewrite !nth_lookup, list_lookup_insert_ne by lia.
  reflexivity.
Qed.

Lemma tree_shape_insert tree r node :
  tree_shape tree -> length node = 32%nat ->
  tree_shape (<[r := node]> tree).
Proof.
  intros [Hl Hrows] Hn. split.
  - by rewrite length_insert.
  - apply Forall_insert; assumption.
Qed.

Lemma tree_shape_row tree r :
  tree_shape tree -> 0 <= r < 2048 -> length (row tree r) = 32%nat.
Proof.
  intros [Hl Hrows] Hr. unfold row.
  destruct (nth_lookup_or_length tree (Z.to_nat r) []) as [Hlk|Hge]; [|lia].
  rewrite Forall_lookup in Hrows. exact (Hrows _ _ Hlk).
Qed.

Section Tree.
Context `{LmsHeader} `{PsaHash} {P_rng : Type} `{Lmots P_rng}.

Lemma tree_load_row tree r :
  0 <= r -> tree_load tree (r * 32) = row tree r.
Proof.
  intros Hr. unfold tree_load, row, ptr_add, MBEDTLS_LMS_M_NODE_BYTES_MAX.
  rewrite Z.div_mul, Z.mod_mul by lia. reflexivity.
Qed.

Lemma tree_store_row tree r out :
  0 <= r -> tree_store tree (r * 32) out = <[Z.to_nat r := out]> tree.
Proof.
  intros Hr. unfold tree_store, MBEDTLS_LMS_M_NODE_BYTES_MAX.
  rewrite Z.div_mul, Z.mod_mul by lia. reflexivity.
Qed.

Section Supported.
Variable ctx : mbedtls_lms_private_t.
Hypothesis Hhdr : rfc8554_header.
Hypothesis Hpsa : psa_contract.
Hypothesis Hty : type (priv_params ctx) = MBEDTLS_LMS_SHA256_M32_H10.
Hypothesis Hots : otstype (priv_params ctx) = MBEDTLS_LMOTS_SHA256_N32_W8.

Lemma node_bytes_ctx :
  MBEDTLS_LMS_M_NODE_BYTES (type (priv_params ctx)) = 32.
Proof using Hhdr Hty. rewrite Hty. apply Hhdr. Qed.

Lemma hash_len_ctx :
  MBEDTLS_LMOTS_N_HASH_LEN (otstype (priv_params ctx)) = 32.
Proof using Hhdr Hots. rewrite Hots. apply Hhdr. Qed.

Lemma merkle_leaf_loop_spec n i tree ret tree' :
  tree_shape tree -> 0 <= i -> i + Z.of_nat n = 1024 ->
  merkle_leaf_loop n ctx i tree = (ret, tree') ->
  (ret = 0 ->
   tree_shape tree'
   /\ (forall j, i <= j < 1024 ->
       row tree' (1024 + j)
       = leaf_hash (key_id ctx) (1024 + j) (leaf_key ctx j))
   /\ (forall k, 0 <= k < 1024 + i -> row tree' k = row tree k))
  /\ (psa_never_fails -> ret = 0).
Proof using Hhdr Hpsa Hty Hots.
  revert i tree. induction n as [|n IH]; intros i tree Hshape Hi Hn Hrun.
  - simpl in Hrun. injection Hrun as <- <-. split; [|reflexivity]. intros _.
    split; [exact Hshape|split; [intros j Hj; lia|reflexivity]].
  - cbn [merkle_leaf_loop] in Hrun.
    rewrite node_bytes_ctx, Hty, (internal_node_am_supported Hhdr) in Hrun.
    rewrite (u32_small (1024 + i)) in Hrun by lia.
    rewrite tree_load_row in Hrun by lia.
    pose proof (create_merkle_leaf_value_spec (priv_params ctx)
                  (public_key (nth (Z.to_nat i) (ots_public_keys ctx)
                                 mbedtls_lmots_init_public))
                  (1024 + i) (row tree (1024 + i)) Hpsa) as (Hv & _ & Hnf).
    rewrite hash_len_ctx in Hv. rewrite node_bytes_ctx in Hnf.
    destruct (create_merkle_leaf_value _ _ _ _) as [ret1 out].
    cbn [fst snd] in Hv, Hnf. rewrite tree_store_row in Hrun by lia.
    assert (Hdig : forall I r K, length (leaf_hash I r K) = 32%nat)
      by (intros; apply Hpsa).
    destruct (Z.eqb_spec ret1 0) as [->|Hne]; cbn [negb] in Hrun.
    + specialize (Hv eq_refl).
      rewrite write_all in Hv
        by (rewrite Hdig; symmetry; apply tree_shape_row; [assumption|lia]).
      subst out.
      apply IH in Hrun;
        [|apply tree_shape_insert; [assumption|apply Hdig]|lia|lia].
      destruct Hrun as [IHv IHnf].
      split; [|exact IHnf]. intros Hret.
      destruct (IHv Hret) as (Hs & Hleaf & Hframe).
      split; [exact Hs|split].
      * intros j Hj. destruct (Z.eq_dec j i) as [->|Hji].
        -- rewrite Hframe by lia. apply row_insert_eq; [lia|].
           destruct Hshape as [Hl _]. lia.
        -- apply Hleaf. lia.
      * intros k Hk. rewrite Hframe by lia. apply row_insert_ne; lia.
    + injection Hrun as <- <-. split; [intros Hret; contradiction|].
      intros Hnever. exfalso. apply Hne, Hnf; [exact Hnever|lia].
Qed.

Lemma merkle_internal_loop_spec n r tree ret tree' :
  tree_shape tree -> Z.of_nat n = r -> r < 1024 ->
  merkle_internal_loop n ctx r tree = (ret, tree') ->
  (ret = 0 ->
   tree_shape tree'
   /\ (forall k, 1 <= k <= r ->
       row tree' k
       = internal_hash (key_id ctx) k (row tree' (2 * k)) (row tree' (2 * k + 1)))
   /\ (forall k, r < k -> row tree' k = row tree k))
  /\ (psa_never_fails -> ret = 0).
Proof using Hhdr Hpsa Hty Hots.
  revert r tree. induction n as [|n IH]; intros r tree Hshape Hn Hr Hrun.
  - simpl in Hrun. injection Hrun as <- <-. split; [|reflexivity]. intros _.
    split; [exact Hshape|split; [intros k Hk; lia|reflexivity]].
  - cbn [merkle_internal_loop] in Hrun. cbv zeta in Hrun.
    rewrite node_bytes_ctx in Hrun.
    rewrite !tree_load_row in Hrun by lia.
    pose proof (create_merkle_internal_value_spec (priv_params ctx)
                  (row tree (r * 2)) (row tree (r * 2 + 1)) r (row tree r)
                  Hpsa) as (Hv & _ & Hnf).
    rewrite !node_bytes_ctx in Hv. rewrite node_bytes_ctx in Hnf.
    destruct (create_merkle_internal_value _ _ _ _ _) as [ret1 out].
    cbn [fst snd] in Hv, Hnf. rewrite tree_store_row in Hrun by lia.
    assert (Hdig : forall I r L R, length (internal_hash I r L R) = 32%nat)
      by (intros; apply Hpsa).
    destruct (Z.eqb_spec ret1 0) as [->|Hne]; cbn [negb] in Hrun.
    + specialize (Hv eq_refl).
      rewrite write_all in Hv
        by (rewrite Hdig; symmetry; apply tree_shape_row; [assumption|lia]).
      rewrite (read_all (row tree (r * 2)) 32),
        (read_all (row tree (r * 2 + 1)) 32) in Hv
        by (rewrite tree_shape_row; [reflexivity|assumption|lia]).
      subst out.
      apply IH in Hrun;
        [|apply tree_shape_insert; [assumption|apply Hdig]|lia|lia].
      destruct Hrun as [IHv IHnf].
      split; [|exact IHnf]. intros Hret.
      destruct (IHv Hret) as (Hs & Hnode & Hframe).
      split; [exact Hs|split].
      * intros k Hk. destruct (Z.eq_dec k r) as [->|Hkr].
        -- rewrite !Hframe by lia.
           rewrite row_insert_eq by (destruct Hshape; lia).
           rewrite !row_insert_ne by lia.
           f_equal; f_equal; lia.
        -- apply Hnode. lia.
      * intros k Hk. rewrite Hframe by lia. apply row_insert_ne; lia.
    + injection Hrun as <- <-. split; [intros Hret; contradiction|].
      intros Hnever. exfalso. apply Hne, Hnf; [exact Hnever|lia].
Qed.

(** [calculate_merkle_tree] on a context with the supported pair: when it
    returns 0 the buffer holds the tree of section 4.3, and with a backend
    that does not fail it returns 0. *)
Lemma calculate_merkle_tree_spec tree ret tree' :
  tree_shape tree ->
  calculate_merkle_tree ctx tree = (ret, tree') ->
  (ret = 0 ->
   tree_shape tree'
   /\ (forall i, 0 <= i < 1024 ->
       row tree' (1024 + i)
       = leaf_hash (key_id ctx) (1024 + i) (leaf_key ctx i))
   /\ (forall r, 1 <= r < 1024 ->
       row tree' r
       = internal_hash (key_id ctx) r (row tree' (2 * r)) (row tree' (2 * r + 1))))
  /\ (psa_never_fails -> ret = 0).
Proof using Hhdr Hpsa Hty Hots.
  intros Hshape Hrun. unfold calculate_merkle_tree in Hrun.
  rewrite Hty, (internal_node_am_supported Hhdr) in Hrun.
  change (u32 (1024 - 1)) with 1023 in Hrun.
  destruct (merkle_leaf_loop _ _ _ _) as [ret1 tree1] eqn:Hleaves.
  apply merkle_leaf_loop_spec in Hleaves; [|assumption|lia|lia].
  destruct Hleaves as [Lv Lnf].
  destruct (Z.eqb_spec ret1 0) as [->|Hne]; cbn [negb] in Hrun.
  - destruct (Lv eq_refl) as (Hs1 & Hleaf & _).
    apply merkle_internal_loop_spec in Hrun; [|assumption|lia|lia].
    destruct Hrun as [Iv Inf].
    split; [|exact Inf]. intros Hret.
    destruct (Iv Hret) as (Hs2 & Hnode & Hframe).
    split; [exact Hs2|split].
    + intros i Hi. rewrite Hframe by lia. apply Hleaf. lia.
    + intros r Hr. apply Hnode. lia.
  - injection Hrun as <- <-. split; [intros Hret; contradiction|].
    intros Hnever. exfalso. apply Hne, Lnf, Hnever.
Qed.

End Supported.
End Tree.

Lemma tree_shape_test_tree b : tree_shape (test_tree b).
Proof.
  split.
  - apply length_replicate.
  - apply Forall_replicate. apply length_replicate.
Qed.

Lemma test_psa_contract : @psa_contract test_psa.
Proof.
  split; [|split].
  - intros m. apply length_replicate.
  - reflexivity.
  - intros status. simpl. unfold test_error_from_psa.
    destruct (Z.eqb_spec status PSA_SUCCESS); [trivial|discriminate].
Qed.

Lemma test_psa_never_fails : @psa_never_fails test_psa.
Proof. intros call. reflexivity. Qed.

Section TreeTheorem.
Context `{LmsHeader} `{PsaHash} {P_rng : Type} `{Lmots P_rng}.

(** The equations of section 4.3 determine every used row of the tree. *)
Lemma tree_equations_unique key_id leaf t t' :
  (forall i, 0 <= i < 1024 -> row t (1024 + i) = leaf i) ->
  (forall i, 0 <= i < 1024 -> row t' (1024 + i) = leaf i) ->
  (forall r, 1 <= r < 1024 ->
     row t r = internal_hash key_id r (row t (2 * r)) (row t (2 * r + 1))) ->
  (forall r, 1 <= r < 1024 ->
     row t' r = internal_hash key_id r (row t' (2 * r)) (row t' (2 * r + 1))) ->
  forall k, 1 <= k < 2048 -> row t' k = row t k.
Proof.
  intros Hl Hl' Hn Hn'.
  assert (Hind : forall n k, 2048 - k <= Z.of_nat n -> 1 <= k < 2048 ->
                             row t' k = row t k).
  { induction n as [|n IH]; intros k Hk Hr; [lia|].
    destruct (Z.lt_ge_cases k 1024) as [Hlt|Hge].
    - rewrite Hn, Hn' by lia. rewrite !IH by lia. reflexivity.
    - replace k with (1024 + (k - 1024)) by lia.
      rewrite Hl, Hl' by lia. reflexivity. }
  intros k Hk. apply (Hind (Z.to_nat 2048)); lia.
Qed.

Section SupportedKey.
Variable ctx : mbedtls_lms_private_t.
Hypothesis Hhdr : rfc8554_header.
Hypothesis Hpsa : psa_contract.
Hypothesis Hnf : psa_never_fails.
Hypothesis Hty : type (priv_params ctx) = MBEDTLS_LMS_SHA256_M32_H10.
Hypothesis Hots : otstype (priv_params ctx) = MBEDTLS_LMOTS_SHA256_N32_W8.

(** With a backend that does not fail, the tree builder returns 0 and
    leaves the tree of section 4.3. *)
Lemma calculate_merkle_tree_runs b :
  tree_shape b ->
  fst (calculate_merkle_tree ctx b) = 0
  /\ tree_shape (snd (calculate_merkle_tree ctx b))
  /\ (forall i, 0 <= i < 1024 ->
      row (snd (calculate_merkle_tree ctx b)) (1024 + i)
      = leaf_hash (key_id ctx) (1024 + i) (leaf_key ctx i))
  /\ (forall r, 1 <= r < 1024 ->
      row (snd (calculate_merkle_tree ctx b)) r
      = internal_hash (key_id ctx) r
          (row (snd (calculate_merkle_tree ctx b)) (2 * r))
          (row (snd (calculate_merkle_tree ctx b)) (2 * r + 1))).
Proof using Hhdr Hpsa Hnf Hty Hots.
  intros Hb. destruct (calculate_merkle_tree ctx b) as [ret t] eqn:Hrun.
  destruct (calculate_merkle_tree_spec ctx Hhdr Hpsa Hty Hots b ret t Hb Hrun)
    as [Hv Hz].
  specialize (Hz Hnf). subst ret. split; [reflexivity|]. by apply Hv.
Qed.

(** [mbedtls_lms_calculate_public_key] then returns 0 with the parameters
    of the private context and row 1 of that tree as the root. *)
Lemma calculate_public_key_runs pub b :
  have_private_key ctx = true ->
  length (T_1_pub_key pub) = 32%nat ->
  tree_shape b ->
  mbedtls_lms_calculate_public_key pub ctx b
  = (0, set_have_public_key
          (set_T_1_pub_key (set_params pub (priv_params ctx))
             (row (snd (calculate_merkle_tree ctx b)) 1)) true).
Proof using Hhdr Hpsa Hnf Hty Hots.
  intros Hhave HT Hb.
  destruct (calculate_merkle_tree_runs b Hb) as (Hret & Hshape & _).
  unfold mbedtls_lms_calculate_public_key.
  rewrite Hhave, Hty, Hots. cbn [negb].
  change (MBEDTLS_LMS_SHA256_M32_H10 =? MBEDTLS_LMS_SHA256_M32_H10) with true.
  change (MBEDTLS_LMOTS_SHA256_N32_W8 =? MBEDTLS_LMOTS_SHA256_N32_W8) with true.
  cbn [negb].
  destruct (calculate_merkle_tree ctx b) as [ret t]. cbn [fst snd] in *.
  subst ret. cbn [negb Z.eqb params set_params T_1_pub_key].
  rewrite Hty. destruct Hhdr as (_ & -> & _).
  unfold memcpy. change (nth 1%nat t []) with (row t 1).
  rewrite (read_all (row t 1) 32)
    by (rewrite tree_shape_row; [reflexivity|assumption|lia]).
  rewrite write_all by (rewrite tree_shape_row; [lia|assumption|lia]).
  reflexivity.
Qed.

(** Two runs of the tree builder agree on every row but row 0. *)
Lemma calculate_merkle_tree_rows b b' k :
  tree_shape b -> tree_shape b' -> 1 <= k < 2048 ->
  row (snd (calculate_merkle_tree ctx b')) k
  = row (snd (calculate_merkle_tree ctx b)) k.
Proof using Hhdr Hpsa Hnf Hty Hots.
  intros Hb Hb' Hk.
  destruct (calculate_merkle_tree_runs b Hb) as (_ & _ & Hleaf & Hnode).
  destruct (calculate_merkle_tree_runs b' Hb') as (_ & _ & Hleaf' & Hnode').
  exact (tree_equations_unique (key_id ctx)
           (fun i => leaf_hash (key_id ctx) (1024 + i) (leaf_key ctx i))
           _ _ Hleaf Hleaf' Hnode Hnode' k Hk).
Qed.

End SupportedKey.

(** C8: on a private context holding a key for the supported pair, with a
    hash backend that does not fail, [calculate_merkle_tree] returns 0
    and leaves [tree[1024 + i] = leaf_hash(I, 1024 + i, ots_public_keys[i])]
    for every [i < 1024] and
    [tree[r] = internal_hash(I, r, tree[2r], tree[2r + 1])] for every
    [1 <= r < 1024]; [mbedtls_lms_calculate_public_key] returns 0 and
    stores [tree[1]] as [T_1_pub_key], with the parameters of the private
    context; and a second run, from a tree buffer with other contents,
    gives the same rows 1 to 2047 and the same root. *)
Theorem merkle_tree_construction ctx pub tree0 tree0' :
  rfc8554_header -> psa_contract -> psa_never_fails ->
  have_private_key ctx = true ->
  type (priv_params ctx) = MBEDTLS_LMS_SHA256_M32_H10 ->
  otstype (priv_params ctx) = MBEDTLS_LMOTS_SHA256_N32_W8 ->
  tree_shape tree0 -> tree_shape tree0' ->
  length (T_1_pub_key pub) = 32%nat ->
  let tree := snd (calculate_merkle_tree ctx tree0) in
  let pub' := snd (mbedtls_lms_calculate_public_key pub ctx tree0) in
  fst (calculate_merkle_tree ctx tree0) = 0
  /\ (forall i, 0 <= i < 1024 ->
      row tree (1024 + i) = leaf_hash (key_id ctx) (1024 + i) (leaf_key ctx i))
  /\ (forall r, 1 <= r < 1024 ->
      row tree r
      = internal_hash (key_id ctx) r (row tree (2 * r)) (row tree (2 * r + 1)))
  /\ fst (mbedtls_lms_calculate_public_key pub ctx tree0) = 0
  /\ T_1_pub_key pub' = row tree 1
  /\ params pub' = priv_params ctx
  /\ have_public_key pub' = true
  /\ (forall k, 1 <= k < 2048 ->
      row (snd (calculate_merkle_tree ctx tree0')) k = row tree k)
  /\ T_1_pub_key (snd (mbedtls_lms_calculate_public_key pub ctx tree0'))
     = T_1_pub_key pub'.
Proof.
  intros Hhdr Hpsa Hnf Hhave Hty Hots Hs Hs' HT tree pub'.
  destruct (calculate_merkle_tree_runs ctx Hhdr Hpsa Hnf Hty Hots tree0 Hs)
    as (Hret & _ & Hleaf & Hnode).
  pose proof (calculate_merkle_tree_rows ctx Hhdr Hpsa Hnf Hty Hots
                tree0 tree0' 1 Hs Hs' ltac:(lia)) as Hroot.
  subst pub'.
  rewrite (calculate_public_key_runs ctx Hhdr Hpsa Hnf Hty Hots pub tree0
             Hhave HT Hs).
  rewrite (calculate_public_key_runs ctx Hhdr Hpsa Hnf Hty Hots pub tree0'
             Hhave HT Hs').
  cbn [fst snd T_1_pub_key params have_public_key set_have_public_key
       set_T_1_pub_key set_params].
  repeat split; try assumption.
  intros k Hk.
  apply (calculate_merkle_tree_rows ctx Hhdr Hpsa Hnf Hty Hots); assumption.
Qed.

End TreeTheorem.

(** C8 on the key of the tests, from a buffer of zero bytes and from a
    buffer of 255s. *)
Lemma merkle_tree_construction_test_key :
  row (snd (@calculate_merkle_tree lms_h test_psa unit test_lmots test_private
              (test_tree 0))) 1
  = @internal_hash test_psa (@key_id unit test_lmots test_private) 1
      (row (snd (@calculate_merkle_tree lms_h test_psa unit test_lmots
                   test_private (test_tree 0))) 2)
      (row (snd (@calculate_merkle_tree lms_h test_psa unit test_lmots
                   test_private (test_tree 0))) 3)
  /\ T_1_pub_key
       (snd (@mbedtls_lms_calculate_public_key lms_h test_psa unit test_lmots
               mbedtls_lms_init_public test_private (test_tree 255)))
     = T_1_pub_key
         (snd (@mbedtls_lms_calculate_public_key lms_h test_psa unit
                 test_lmots mbedtls_lms_init_public test_private
                 (test_tree 0))).
Proof.
  pose proof (@merkle_tree_construction lms_h test_psa unit test_lmots
                test_private mbedtls_lms_init_public (test_tree 0)
                (test_tree 255) lms_h_rfc8554 test_psa_contract
                test_psa_never_fails) as Hthm.
  destruct Hthm as (_ & _ & Hnode & _ & _ & _ & _ & _ & Hroot);
    try (vm_compute; reflexivity);
    try apply tree_shape_test_tree.
  split; [apply (Hnode 1); lia|exact Hroot].
Defined.

(** ** The signature *)

Lemma lxor_1 x : Z.lxor x 1 = if Z.odd x then x - 1 else x + 1.
Proof.
  assert (H1 : forall m, 0 <= m -> Z.testbit 1 (Z.succ m) = false).
  { intros m Hm. change 1 with (2 * 0 + 1).
    rewrite Z.testbit_odd_succ by lia. apply Z.testbit_0_l. }
  pose proof (Z.div2_odd x) as Hx.
  destruct (Z.odd x); cbn [Z.b2z] in Hx;
    remember (Z.div2 x) as a eqn:Ha; clear Ha; subst x;
    apply Z.bits_inj'; intros n Hn; rewrite Z.lxor_spec.
  - replace (2 * a + 1 - 1) with (2 * a) by lia.
    destruct (Z.eq_dec n 0) as [->|Hne].
    + rewrite Z.testbit_odd_0, Z.testbit_even_0. reflexivity.
    + replace n with (Z.succ (n - 1)) by lia. rewrite H1 by lia.
      rewrite Z.testbit_odd_succ, Z.testbit_even_succ by lia.
      apply xorb_false_r.
  - rewrite Z.add_0_r.
    destruct (Z.eq_dec n 0) as [->|Hne].
    + rewrite Z.testbit_odd_0, Z.testbit_even_0. reflexivity.
    + replace n with (Z.succ (n - 1)) by lia. rewrite H1 by lia.
      rewrite Z.testbit_odd_succ, Z.testbit_even_succ by lia.
      apply xorb_false_r.
Qed.

Lemma odd_mod_2 x : Z.odd x = negb (x mod 2 =? 0).
Proof.
  rewrite Zmod_odd. destruct (Z.odd x); reflexivity.
Qed.

(** Flipping the lowest bit stays inside a level of the tree. *)
Lemma lxor_1_level x n :
  1 <= n -> 2 ^ n <= x < 2 ^ (n + 1) ->
  2 ^ n <= Z.lxor x 1 < 2 ^ (n + 1).
Proof.
  intros Hn Hx. rewrite lxor_1.
  replace n with (Z.succ (n - 1)) in * by lia.
  rewrite Z.pow_succ_r in * by lia.
  replace (Z.succ (n - 1) + 1) with (Z.succ (Z.succ (n - 1))) in * by lia.
  rewrite (Z.pow_succ_r 2 (Z.succ (n - 1))) in * by lia.
  rewrite Z.pow_succ_r in * by lia.
  remember (2 ^ (n - 1)) as p eqn:Hp. clear Hp.
  destruct (Z.odd x) eqn:Hodd.
  - assert (x <> 2 * p); [|lia]. intros ->.
    rewrite Z.odd_mul in Hodd. discriminate Hodd.
  - assert (x <> 2 * (2 * p) - 1); [|lia]. intros ->.
    rewrite Z.odd_sub, Z.odd_mul in Hodd. discriminate Hodd.
Qed.

Lemma shiftr_1_level x n :
  0 <= n -> 2 ^ (n + 1) <= x < 2 ^ (n + 2) ->
  2 ^ n <= Z.shiftr x 1 < 2 ^ (n + 1).
Proof.
  intros Hn Hx. rewrite Z.shiftr_div_pow2 by lia. change (2 ^ 1) with 2.
  replace (n + 2) with (Z.succ (n + 1)) in Hx by lia.
  replace (n + 1) with (Z.succ n) in * by lia.
  rewrite !Z.pow_succ_r in Hx by lia. rewrite Z.pow_succ_r by lia.
  assert (0 < 2 ^ n) by (apply Z.pow_pos_nonneg; lia).
  split; [apply Z.div_le_lower_bound; lia|apply Z.div_lt_upper_bound; lia].
Qed.

Lemma level_bound n : 0 <= n <= 10 -> 2 <= 2 ^ (n + 1) <= 2048.
Proof.
  intros Hn. change 2048 with (2 ^ 11). change 2 with (2 ^ 1) at 1.
  split; apply Z.pow_le_mono_r; lia.
Qed.

Lemma length_ptr_add (buf : list byte) off :
  length (ptr_add buf off) = (length buf - Z.to_nat off)%nat.
Proof. unfold ptr_add. apply length_drop. Qed.

Lemma read_ptr_store_low (buf : list byte) off region o n :
  (Z.to_nat off <= length buf)%nat ->
  (Z.to_nat o + Z.to_nat n <= Z.to_nat off)%nat ->
  read (ptr_store buf off region) o n = read buf o n.
Proof.
  intros Hin Hlow. apply list_eq. intros i. unfold ptr_store.
  rewrite !lookup_read. case_decide; [|reflexivity].
  rewrite lookup_app_l by (rewrite length_take; lia).
  apply lookup_take_lt. lia.
Qed.

Lemma read_ptr_store_high (buf : list byte) off region o n :
  (Z.to_nat off <= length buf)%nat -> 0 <= off -> 0 <= o ->
  read (ptr_store buf off region) (off + o) n = read region o n.
Proof.
  intros Hin Hoff Ho. apply list_eq. intros i. unfold ptr_store.
  rewrite !lookup_read. case_decide; [|reflexivity].
  rewrite lookup_app_r by (rewrite length_take; lia).
  rewrite length_take. f_equal. lia.
Qed.

Lemma length_ptr_store (buf : list byte) off region :
  (Z.to_nat off <= length buf)%nat ->
  length region = (length buf - Z.to_nat off)%nat ->
  length (ptr_store buf off region) = length buf.
Proof.
  intros. unfold ptr_store. rewrite length_app, length_take. lia.
Qed.

Section Signature.
Context `{LmsHeader} `{PsaHash} {P_rng : Type} `{Lmots P_rng}.

(** The tree depends on the parameters and the OTS public keys only. *)
Lemma merkle_leaf_loop_ext n ctx ctx' i tree :
  priv_params ctx = priv_params ctx' ->
  ots_public_keys ctx = ots_public_keys ctx' ->
  merkle_leaf_loop n ctx i tree = merkle_leaf_loop n ctx' i tree.
Proof.
  intros Hp Hk. revert i tree. induction n as [|n IH]; intros i tree; simpl;
    [reflexivity|].
  rewrite Hp, Hk. destruct (create_merkle_leaf_value _ _ _ _) as [ret out].
  destruct (negb (ret =? 0)); [reflexivity|apply IH].
Qed.

Lemma merkle_internal_loop_ext n ctx ctx' r tree :
  priv_params ctx = priv_params ctx' ->
  merkle_internal_loop n ctx r tree = merkle_internal_loop n ctx' r tree.
Proof.
  intros Hp. revert r tree. induction n as [|n IH]; intros r tree; simpl;
    [reflexivity|].
  rewrite Hp. destruct (create_merkle_internal_value _ _ _ _ _) as [ret out].
  destruct (negb (ret =? 0)); [reflexivity|apply IH].
Qed.

Lemma calculate_merkle_tree_ext ctx ctx' tree :
  priv_params ctx = priv_params ctx' ->
  ots_public_keys ctx = ots_public_keys ctx' ->
  calculate_merkle_tree ctx tree = calculate_merkle_tree ctx' tree.
Proof.
  intros Hp Hk. unfold calculate_merkle_tree.
  rewrite (merkle_leaf_loop_ext _ ctx ctx' _ _ Hp Hk), Hp.
  destruct (merkle_leaf_loop _ _ _ _) as [ret t].
  destruct (negb (ret =? 0)); [reflexivity|].
  apply merkle_internal_loop_ext, Hp.
Qed.

(** The loop of [get_merkle_path] stores, for every height it visits,
    the sibling row at its place in [path], and nothing below the first
    height.  [n] rounds are left and [curr] is on level [n] of the
    tree. *)
Lemma merkle_path_loop_spec ctx tree n height curr path :
  MBEDTLS_LMS_M_NODE_BYTES (type (priv_params ctx)) = 32 ->
  tree_shape tree -> 0 <= height -> Z.of_nat n <= 10 ->
  2 ^ Z.of_nat n <= curr < 2 ^ (Z.of_nat n + 1) ->
  (height + Z.of_nat n) * 32 <= Z.of_nat (length path) ->
  let path' := merkle_path_loop n ctx tree height curr path in
  length path' = length path
  /\ (forall j, 0 <= j < Z.of_nat n ->
      read path' ((height + j) * 32) 32
      = row tree (Z.lxor (Z.shiftr curr j) 1))
  /\ (forall o k, 0 <= o -> 0 <= k -> o + k <= height * 32 ->
      read path' o k = read path o k).
Proof.
  intros Hm Hshape. revert height curr path.
  induction n as [|n IH]; intros height curr path Hh Hn Hc Hlen.
  - simpl. split; [reflexivity|split; [intros j Hj; lia|reflexivity]].
  - cbn [merkle_path_loop]. cbv zeta. rewrite Hm. unfold memcpy.
    rewrite Nat2Z.inj_succ in Hc, Hn, Hlen.
    replace (Z.succ (Z.of_nat n)) with (Z.of_nat n + 1) in * by lia.
    pose proof (level_bound (Z.of_nat n + 1) ltac:(lia)) as Hb.
    pose proof (level_bound (Z.of_nat n) ltac:(lia)) as Hb'.
    pose proof (lxor_1_level curr (Z.of_nat n + 1) ltac:(lia) Hc) as Hadj.
    change (nth (Z.to_nat (Z.lxor curr 1)) tree [])
      with (row tree (Z.lxor curr 1)).
    assert (Hrl : length (row tree (Z.lxor curr 1)) = 32%nat)
      by (apply tree_shape_row; [assumption|lia]).
    rewrite (read_all (row tree (Z.lxor curr 1)) 32) by lia.
    assert (Hw : length (write path (height * 32) (row tree (Z.lxor curr 1)))
                 = length path) by (apply length_write; lia).
    specialize (IH (height + 1) (Z.shiftr curr 1)
                  (write path (height * 32) (row tree (Z.lxor curr 1)))).
    destruct IH as (IHl & IHn & IHf);
      [lia|lia|apply shiftr_1_level; [lia|]|rewrite Hw; lia|].
    { replace (Z.of_nat n + 2) with (Z.of_nat n + 1 + 1) by lia. exact Hc. }
    split; [congruence|split].
    + intros j Hj. destruct (Z.eq_dec j 0) as [->|Hj0].
      * rewrite Z.shiftr_0_r, Z.add_0_r.
        rewrite IHf by lia. apply read_write_eq; lia.
      * replace (height + j) with (height + 1 + (j - 1)) by lia.
        rewrite IHn by lia. rewrite Z.shiftr_shiftr by lia.
        do 3 f_equal. lia.
    + intros o k Ho Hk Hok. rewrite IHf by lia.
      apply read_write_ne; lia.
Qed.

(** [mbedtls_lms_sign] past its entry checks, with the header's values
    in place. *)
Lemma sign_unfold ctx f_rng p_rng msg sig tree :
  rfc8554_header ->
  have_private_key ctx = true ->
  1464 <= Z.of_nat (length sig) ->
  type (priv_params ctx) = MBEDTLS_LMS_SHA256_M32_H10 ->
  otstype (priv_params ctx) = MBEDTLS_LMOTS_SHA256_N32_W8 ->
  0 <= q_next_usable_key ctx < 1024 ->
  mbedtls_lms_sign ctx f_rng p_rng msg sig tree
  = let q := q_next_usable_key ctx in
    let res :=
      mbedtls_lmots_sign
        (nth (Z.to_nat q) (ots_private_keys ctx) mbedtls_lmots_init_private)
        f_rng p_rng msg 1464 in
    let ctx1 :=
      set_ots_private_keys (set_q_next_usable_key ctx (q + 1))
        (<[Z.to_nat q := snd (fst (fst res))]> (ots_private_keys ctx)) in
    let sig1 := write sig 4 (snd res) in
    if negb (fst (fst (fst res)) =? 0)
    then {| sign_ret := fst (fst (fst res)); sign_ctx := ctx1;
            sign_rng := snd (fst res); sign_sig := sig1;
            sign_sig_len := None |}
    else
      let sig3 :=
        write (write sig1 1140
                 (mbedtls_lms_unsigned_int_to_network_bytes
                    MBEDTLS_LMS_SHA256_M32_H10 4))
          0 (mbedtls_lms_unsigned_int_to_network_bytes q 4) in
      let gp := get_merkle_path ctx1 (1024 + q) (ptr_add sig3 1144) tree in
      let sig4 := ptr_store sig3 1144 (snd gp) in
      if negb (fst gp =? 0)
      then {| sign_ret := fst gp; sign_ctx := ctx1; sign_rng := snd (fst res);
              sign_sig := sig4; sign_sig_len := None |}
      else {| sign_ret := 0; sign_ctx := ctx1; sign_rng := snd (fst res);
              sign_sig := sig4; sign_sig_len := Some 1464 |}.
Proof.
  intros Hhdr Hhave Hlen Hty Hots Hq. unfold mbedtls_lms_sign.
  cbn [priv_params set_q_next_usable_key set_ots_private_keys
       ots_private_keys q_next_usable_key].
  rewrite Hhave, Hty, Hots, (sig_len_supported Hhdr),
    (leaf_node_am_supported Hhdr), (internal_node_am_supported Hhdr),
    (sig_type_offset_supported Hhdr), (sig_path_offset_supported Hhdr).
  cbn [negb].
  destruct (Z.ltb_spec (Z.of_nat (length sig)) 1464); [lia|].
  change (MBEDTLS_LMS_SHA256_M32_H10 =? MBEDTLS_LMS_SHA256_M32_H10) with true.
  change (MBEDTLS_LMOTS_SHA256_N32_W8 =? MBEDTLS_LMOTS_SHA256_N32_W8) with true.
  cbn [negb].
  destruct (Z.geb_spec (q_next_usable_key ctx) 1024); [lia|].
  rewrite (u32_small (q_next_usable_key ctx + 1)) by lia.
  rewrite (u32_small (1024 + q_next_usable_key ctx)) by lia.
  change SIG_OTS_SIG_OFFSET with 4. change SIG_Q_LEAF_ID_OFFSET with 0.
  change (Z.to_nat MBEDTLS_LMS_TYPE_LEN) with 4%nat.
  change (Z.to_nat MBEDTLS_LMOTS_Q_LEAF_ID_LEN) with 4%nat.
  cbv zeta.
  destruct (mbedtls_lmots_sign _ _ _ _ _) as [[[ret sk] p'] ots_sig].
  cbn [fst snd].
  destruct (negb (ret =? 0)); [reflexivity|].
  destruct (get_merkle_path _ _ _ _) as [ret' path]. reflexivity.
Qed.

(** A call that returns 0 passed the five entry checks. *)
Lemma sign_success_entry ctx f_rng p_rng msg sig tree :
  rfc8554_header ->
  sign_ret (mbedtls_lms_sign ctx f_rng p_rng msg sig tree) = 0 ->
  have_private_key ctx = true
  /\ type (priv_params ctx) = MBEDTLS_LMS_SHA256_M32_H10
  /\ otstype (priv_params ctx) = MBEDTLS_LMOTS_SHA256_N32_W8
  /\ 1464 <= Z.of_nat (length sig)
  /\ q_next_usable_key ctx < 1024.
Proof.
  intros Hhdr Hret.
  assert (Hno : forall P : Prop,
            (P -> have_private_key ctx = false
                  \/ Z.of_nat (length sig)
                     < MBEDTLS_LMS_SIG_LEN (type (priv_params ctx))
                         (otstype (priv_params ctx))
                  \/ type (priv_params ctx) <> MBEDTLS_LMS_SHA256_M32_H10
                  \/ otstype (priv_params ctx) <> MBEDTLS_LMOTS_SHA256_N32_W8
                  \/ MERKLE_TREE_LEAF_NODE_AM (type (priv_params ctx))
                     <= q_next_usable_key ctx) -> ~ P).
  { intros P HP Hp.
    destruct (sign_rejected ctx f_rng p_rng msg sig tree (HP Hp))
      as (_ & Hne & _). contradiction. }
  assert (Hhave : have_private_key ctx = true).
  { destruct (have_private_key ctx) eqn:E; [reflexivity|].
    exfalso. apply (Hno True); auto. }
  assert (Hty : type (priv_params ctx) = MBEDTLS_LMS_SHA256_M32_H10).
  { destruct (Z.eq_dec (type (priv_params ctx)) MBEDTLS_LMS_SHA256_M32_H10)
      as [E|E]; [exact E|]. exfalso. apply (Hno True); auto. }
  assert (Hots : otstype (priv_params ctx) = MBEDTLS_LMOTS_SHA256_N32_W8).
  { destruct (Z.eq_dec (otstype (priv_params ctx))
                MBEDTLS_LMOTS_SHA256_N32_W8) as [E|E]; [exact E|].
    exfalso. apply (Hno True); auto 6. }
  repeat split; try assumption.
  - destruct (Z.le_gt_cases 1464 (Z.of_nat (length sig))) as [E|E];
      [exact E|].
    exfalso. apply (Hno True); [|exact I]. intros _. right. left.
    rewrite Hty, Hots, (sig_len_supported Hhdr). lia.
  - destruct (Z.lt_ge_cases (q_next_usable_key ctx) 1024) as [E|E];
      [exact E|].
    exfalso. apply (Hno True); [|exact I]. intros _. do 4 right.
    rewrite Hty, (leaf_node_am_supported Hhdr). lia.
Qed.

(** The bytes of a signature emitted by a call that passed the entry
    checks. *)
Lemma sign_layout ctx f_rng p_rng msg sig tree0 :
  rfc8554_header -> psa_contract -> lmots_sign_length ->
  tree_shape tree0 ->
  have_private_key ctx = true ->
  type (priv_params ctx) = MBEDTLS_LMS_SHA256_M32_H10 ->
  otstype (priv_params ctx) = MBEDTLS_LMOTS_SHA256_N32_W8 ->
  1464 <= Z.of_nat (length sig) ->
  0 <= q_next_usable_key ctx < 1024 ->
  let r := mbedtls_lms_sign ctx f_rng p_rng msg sig tree0 in
  let q := q_next_usable_key ctx in
  let res :=
    mbedtls_lmots_sign
      (nth (Z.to_nat q) (ots_private_keys ctx) mbedtls_lmots_init_private)
      f_rng p_rng msg 1464 in
  sign_ret r = 0 ->
  fst (fst (fst res)) = 0
  /\ fst (calculate_merkle_tree ctx tree0) = 0
  /\ sign_sig_len r = Some 1464
  /\ length (sign_sig r) = length sig
  /\ read (sign_sig r) 0 4 = mbedtls_lms_unsigned_int_to_network_bytes q 4
  /\ read (sign_sig r) 4 1136 = snd res
  /\ read (sign_sig r) 1140 4
     = mbedtls_lms_unsigned_int_to_network_bytes MBEDTLS_LMS_SHA256_M32_H10 4
  /\ forall h, 0 <= h < 10 ->
       read (sign_sig r) (1144 + 32 * h) 32
       = row (snd (calculate_merkle_tree ctx tree0))
           (Z.lxor (Z.shiftr (1024 + q) h) 1).
Proof.
  intros Hhdr Hpsa Hsl Hshape Hhave Hty Hots Hlen Hq r q res Hret.
  subst r res. rewrite sign_unfold in * by assumption.
  cbv zeta in *. fold q in Hret |- *.
  specialize (Hsl (nth (Z.to_nat q) (ots_private_keys ctx)
                     mbedtls_lmots_init_private) f_rng p_rng msg 1464).
  destruct (mbedtls_lmots_sign _ _ _ _ _) as [[[ret sk] p'] osig] eqn:Hsign.
  cbn [fst snd] in *.
  destruct (Z.eqb_spec ret 0) as [->|Hne]; cbn [negb] in *;
    [|simpl in Hret; contradiction].
  specialize (Hsl eq_refl).
  assert (Hol : length osig = 1136%nat).
  { destruct Hhdr as (_ & _ & _ & Hs & _). rewrite Hs in Hsl. lia. }
  set (ctx1 := set_ots_private_keys _ _) in *.
  set (sig1 := write sig 4 osig) in *.
  set (sig2 := write sig1 1140 _) in *.
  set (sig3 := write sig2 0 _) in *.
  assert (Hl1 : length sig1 = length sig) by (apply length_write; lia).
  assert (Hl2 : length sig2 = length sig).
  { unfold sig2. rewrite length_write; [exact Hl1|].
    rewrite length_encode. lia. }
  assert (Hl3 : length sig3 = length sig).
  { unfold sig3. rewrite length_write; [exact Hl2|].
    rewrite length_encode. lia. }
  unfold get_merkle_path in *.
  rewrite (calculate_merkle_tree_ext ctx1 ctx tree0 eq_refl eq_refl) in *.
  destruct (calculate_merkle_tree ctx tree0) as [ret' tree'] eqn:Hcalc.
  cbn [fst snd] in *.
  destruct (calculate_merkle_tree_spec ctx Hhdr Hpsa Hty Hots tree0 ret' tree'
              Hshape Hcalc) as [Hv _].
  destruct (Z.eqb_spec ret' 0) as [->|Hne]; cbn [negb fst snd] in *;
    [|destruct (Z.eqb_spec ret' 0); [contradiction|];
      simpl in Hret; contradiction].
  destruct (Hv eq_refl) as (Hshape' & _).
  change (priv_params ctx1) with (priv_params ctx) in *.
  rewrite Hty in *. destruct Hhdr as (Hh & Hm & Hhdr').
  rewrite Hh in *.
  pose proof (merkle_path_loop_spec ctx1 tree' (Z.to_nat 10) 0 (1024 + q)
                (ptr_add sig3 1144)) as Hpath.
  change (priv_params ctx1) with (priv_params ctx) in Hpath.
  rewrite Hty in Hpath. specialize (Hpath Hm Hshape').
  destruct Hpath as (Hpl & Hpn & _);
    [lia|lia|change (2 ^ Z.of_nat (Z.to_nat 10)) with 1024;
             change (2 ^ (Z.of_nat (Z.to_nat 10) + 1)) with 2048; lia
    |rewrite length_ptr_add; lia|].
  set (path' := merkle_path_loop _ _ _ _ _ _) in *.
  cbn [negb Z.eqb sign_sig sign_sig_len].
  rewrite length_ptr_add in Hpl.
  do 3 (split; [reflexivity|]). split; [|split; [|split; [|split]]].
  - rewrite length_ptr_store; lia.
  - rewrite read_ptr_store_low by lia. unfold sig3.
    apply read_write_eq; rewrite ?length_encode; lia.
  - rewrite read_ptr_store_low by lia. unfold sig3.
    rewrite read_write_ne by (rewrite ?length_encode; lia). unfold sig2.
    rewrite read_write_ne by (rewrite ?length_encode; lia).
    apply read_write_eq; lia.
  - rewrite read_ptr_store_low by lia. unfold sig3.
    rewrite read_write_ne by (rewrite ?length_encode; lia).
    apply read_write_eq; rewrite ?length_encode; lia.
  - intros h Hh'. rewrite read_ptr_store_high by lia.
    replace (32 * h) with ((0 + h) * 32) by lia. apply Hpn. lia.
Qed.

(** C9: a signature that [mbedtls_lms_sign] emits with return code 0 for
    leaf [q] holds the 4-byte big-endian [q] at offset 0, the bytes the
    OTS signer produced at offset 4, the 4-byte big-endian [lms_type] 6
    at offset 1140, and at offset 1144 + 32 h, for each height [h < 10],
    the row [((1024 + q) >> h) xor 1] of the tree; the length reported is
    1464, and the buffer keeps its size. *)
Theorem sign_signature_layout ctx f_rng p_rng msg sig tree0 :
  rfc8554_header -> psa_contract -> lmots_sign_length ->
  0 <= q_next_usable_key ctx -> tree_shape tree0 ->
  let r := mbedtls_lms_sign ctx f_rng p_rng msg sig tree0 in
  let q := q_next_usable_key ctx in
  let tree := snd (calculate_merkle_tree ctx tree0) in
  let ots_sig :=
    snd (mbedtls_lmots_sign
           (nth (Z.to_nat q) (ots_private_keys ctx) mbedtls_lmots_init_private)
           f_rng p_rng msg 1464) in
  sign_ret r = 0 ->
  sign_sig_len r = Some 1464
  /\ length (sign_sig r) = length sig
  /\ read (sign_sig r) 0 4 = mbedtls_lms_unsigned_int_to_network_bytes q 4
  /\ read (sign_sig r) 4 1136 = ots_sig
  /\ read (sign_sig r) 1140 4
     = mbedtls_lms_unsigned_int_to_network_bytes MBEDTLS_LMS_SHA256_M32_H10 4
  /\ forall h, 0 <= h < 10 ->
       read (sign_sig r) (1144 + 32 * h) 32
       = row tree (Z.lxor (Z.shiftr (1024 + q) h) 1).
Proof.
  intros Hhdr Hpsa Hsl Hq0 Hshape r q tree ots_sig Hret.
  destruct (sign_success_entry ctx f_rng p_rng msg sig tree0 Hhdr Hret)
    as (Hhave & Hty & Hots & Hlen & Hq).
  destruct (sign_layout ctx f_rng p_rng msg sig tree0 Hhdr Hpsa Hsl Hshape
              Hhave Hty Hots Hlen ltac:(lia) Hret)
    as (_ & _ & Hsl' & Hl & Hfq & Hfo & Hft & Hfp).
  repeat split; assumption.
Qed.

End Signature.

Lemma test_lmots_sign_length : @lmots_sign_length lms_h unit test_lmots.
Proof.
  intros sk f_rng p_rng msg size. simpl.
  destruct (f_rng p_rng 32) as [[ret random] p'].
  destruct (Z.eqb_spec ret 0) as [->|Hne]; cbn [negb]; [|simpl; contradiction].
  destruct (sk <? 0); simpl; [discriminate|reflexivity].
Qed.

(** C9 on the first signature of the key of the tests: leaf 0, whose
    first path node is row 1025. *)
Lemma sign_signature_layout_first_signature :
  let r := @mbedtls_lms_sign lms_h test_psa unit test_lmots test_private
             test_rng tt [] (replicate 1464 0) (test_tree 0) in
  sign_sig_len r = Some 1464
  /\ read (sign_sig r) 0 4 = [0; 0; 0; 0]
  /\ read (sign_sig r) 1140 4 = [0; 0; 0; 6]
  /\ read (sign_sig r) 1144 32
     = row (snd (@calculate_merkle_tree lms_h test_psa unit test_lmots
                   test_private (test_tree 0))) 1025.
Proof.
  intros r.
  pose proof (@sign_signature_layout lms_h test_psa unit test_lmots
                test_private test_rng tt [] (replicate 1464 0) (test_tree 0)
                lms_h_rfc8554 test_psa_contract test_lmots_sign_length)
    as Hthm.
  destruct Hthm as (Hlen & _ & Hq & _ & Hty & Hpath);
    [vm_compute; discriminate|apply tree_shape_test_tree
    |vm_compute; reflexivity|].
  split; [exact Hlen|split; [exact Hq|split; [exact Hty|]]].
  exact (Hpath 0 ltac:(lia)).
Defined.

(** ** Key generation and the OTS slots *)

Section KeyInv.
Context `{LmsHeader} `{PsaHash} `{Platform} {P_rng : Type} `{Lmots P_rng}.

(** When the key-generation loop runs to its end, every slot it visited
    holds the key generated for its index and the public key derived from
    it, and the slots below are untouched. *)
Lemma generate_ots_keys_slots n ret0 idx otstype_ id seed privs pubs
      ret idx' privs' pubs' :
  generate_ots_keys n ret0 idx otstype_ id seed privs pubs
    = (false, ret, idx', privs', pubs') ->
  0 <= idx ->
  (Z.to_nat idx + n <= length privs)%nat ->
  (Z.to_nat idx + n <= length pubs)%nat ->
  length privs' = length privs /\ length pubs' = length pubs
  /\ (forall i, idx <= i < idx + Z.of_nat n ->
      exists sk,
        mbedtls_lmots_generate_private_key
          (nth (Z.to_nat i) privs mbedtls_lmots_init_private)
          otstype_ id i seed = (0, sk)
        /\ mbedtls_lmots_calculate_public_key
             (nth (Z.to_nat i) pubs mbedtls_lmots_init_public) sk
           = (0, nth (Z.to_nat i) pubs' mbedtls_lmots_init_public)
        /\ nth (Z.to_nat i) privs' mbedtls_lmots_init_private = sk)
  /\ (forall i, 0 <= i < idx ->
      nth (Z.to_nat i) privs' mbedtls_lmots_init_private
      = nth (Z.to_nat i) privs mbedtls_lmots_init_private
      /\ nth (Z.to_nat i) pubs' mbedtls_lmots_init_public
         = nth (Z.to_nat i) pubs mbedtls_lmots_init_public).
Proof.
  revert ret0 idx privs pubs.
  induction n as [|n IH]; intros ret0 idx privs pubs Hrun Hidx Hlp Hlq.
  - simpl in Hrun. injection Hrun as <- <- <- <-.
    repeat split; try reflexivity. intros i Hi. lia.
  - cbn [generate_ots_keys] in Hrun. cbv zeta in Hrun.
    destruct (mbedtls_lmots_generate_private_key _ _ _ _ _) as [ret1 sk]
      eqn:Hgen.
    destruct (Z.eqb_spec ret1 0) as [->|Hne]; cbn [negb] in Hrun;
      [|discriminate Hrun].
    destruct (mbedtls_lmots_calculate_public_key _ _) as [ret2 pk] eqn:Hpub.
    destruct (Z.eqb_spec ret2 0) as [->|Hne]; cbn [negb] in Hrun;
      [|discriminate Hrun].
    apply IH in Hrun;
      [|lia|rewrite length_insert; lia|rewrite length_insert; lia].
    rewrite !length_insert in Hrun.
    destruct Hrun as (Hl1 & Hl2 & Hslots & Hframe).
    split; [exact Hl1|split; [exact Hl2|split]].
    + intros i Hi. destruct (Z.eq_dec i idx) as [->|Hne].
      * exists sk. destruct (Hframe idx ltac:(lia)) as [Hf1 Hf2].
        rewrite Hf1, Hf2, !nth_lookup, !list_lookup_insert_eq by lia.
        rewrite <- !nth_lookup. auto.
      * destruct (Hslots i ltac:(lia)) as (sk' & Hg & Hp & Hs).
        rewrite nth_lookup, list_lookup_insert_ne, <- nth_lookup in Hg by lia.
        rewrite (nth_lookup (<[Z.to_nat idx:=pk]> pubs)),
          list_lookup_insert_ne, <- nth_lookup in Hp by lia.
        exists sk'. auto.
    + intros i Hi. destruct (Hframe i ltac:(lia)) as [Hf1 Hf2].
      rewrite Hf1, Hf2, !nth_lookup, !list_lookup_insert_ne by lia.
      auto.
Qed.

Lemma key_inv_init : key_inv mbedtls_lms_init_private.
Proof. split; [reflexivity|discriminate]. Qed.

Lemma nth_replicate_default {A} (n i : nat) (x : A) :
  nth i (replicate n x) x = x.
Proof.
  rewrite nth_lookup. destruct (replicate n x !! i) eqn:E; [|reflexivity].
  apply lookup_replicate in E. simpl. tauto.
Qed.

Lemma generate_private_key_key_inv ctx type_ otstype_ f_rng p_rng seed :
  rfc8554_header -> key_inv ctx ->
  key_inv (snd (fst (mbedtls_lms_generate_private_key ctx type_ otstype_
                       f_rng p_rng seed))).
Proof.
  intros Hhdr Hinv. unfold mbedtls_lms_generate_private_key.
  destruct (Z.eqb_spec type_ MBEDTLS_LMS_SHA256_M32_H10) as [->|];
    cbn [negb]; [|exact Hinv].
  destruct (Z.eqb_spec otstype_ MBEDTLS_LMOTS_SHA256_N32_W8) as [->|];
    cbn [negb]; [|exact Hinv].
  destruct (have_private_key ctx) eqn:Hhave; [exact Hinv|].
  destruct Hinv as [HI _].
  destruct (f_rng p_rng MBEDTLS_LMOTS_I_KEY_ID_LEN) as [[rc random] p'].
  cbn [priv_params set_priv_params set_type set_otstype set_I_key_identifier
       type otstype I_key_identifier].
  rewrite (leaf_node_am_supported Hhdr).
  set (id := write (I_key_identifier (priv_params ctx)) 0
               (read random 0 MBEDTLS_LMOTS_I_KEY_ID_LEN)).
  assert (Hid : length id = 16%nat).
  { unfold id. rewrite length_write; [exact HI|].
    unfold read. rewrite length_take. change (Z.to_nat 0) with 0%nat.
    change (Z.to_nat MBEDTLS_LMOTS_I_KEY_ID_LEN) with 16%nat. lia. }
  destruct (mbedtls_calloc_ok 0); cbn [negb];
    [|split; [exact Hid|simpl; rewrite Hhave; discriminate]].
  destruct (mbedtls_calloc_ok 1); cbn [negb];
    [|split; [exact Hid|simpl; rewrite Hhave; discriminate]].
  cbn [ots_private_keys ots_public_keys set_ots_private_keys
       set_ots_public_keys set_ots_private_keys_block
       set_ots_public_keys_block priv_params].
  match goal with |- context [generate_ots_keys ?n ?r ?i ?o ?k ?s ?a ?b] =>
    pose proof (generate_ots_keys_ret n r i o k s a b) as Hloop;
    pose proof (generate_ots_keys_slots n r i o k s a b) as Hslots;
    destruct (generate_ots_keys n r i o k s a b) as [[[[j ret] idx] sks] pks]
  end.
  destruct j.
  - destruct (Z.eqb_spec ret 0); [contradiction|]. cbn [negb].
    split; [exact Hid|simpl; rewrite Hhave; discriminate].
  - destruct Hloop as [[Hn _] | ->]; [discriminate Hn|].
    specialize (Hslots _ _ _ _ eq_refl).
    rewrite !length_replicate in Hslots.
    destruct Hslots as (Hl1 & Hl2 & Hs & _); [lia|lia|lia|].
    cbn [negb Z.eqb snd fst]. split; [exact Hid|]. intros _.
    cbn [priv_params set_have_private_key set_q_next_usable_key
         set_ots_public_keys set_ots_private_keys type otstype
         q_next_usable_key ots_private_keys ots_public_keys].
    repeat split; try reflexivity; try lia; try assumption.
    exists seed. intros i Hi.
    destruct (Hs i ltac:(lia)) as (sk & Hg & Hp & Hsk).
    rewrite nth_replicate_default in Hg. rewrite nth_replicate_default in Hp.
    exists sk. unfold key_id. cbn [priv_params I_key_identifier].
    auto.
Qed.

Lemma sign_key_inv ctx f_rng p_rng msg sig tree :
  rfc8554_header -> key_inv ctx ->
  key_inv (sign_ctx (mbedtls_lms_sign ctx f_rng p_rng msg sig tree)).
Proof.
  intros Hhdr Hinv.
  destruct (have_private_key ctx) eqn:Hhave;
    [|destruct (sign_rejected ctx f_rng p_rng msg sig tree) as [-> _];
      [by left|exact Hinv]].
  destruct Hinv as [HI Hkey].
  destruct (Hkey Hhave) as (Hty & Hots & Hq & Hlp & Hlq & seed & Hslots).
  destruct (Z.le_gt_cases 1464 (Z.of_nat (length sig))) as [Hlen|Hlen];
    [destruct (Z.lt_ge_cases (q_next_usable_key ctx) 1024) as [Hlt|Hge]|].
  - rewrite sign_unfold by (try assumption; lia). cbv zeta.
    match goal with |- context [mbedtls_lmots_sign ?a ?b ?c ?d ?e] =>
      destruct (mbedtls_lmots_sign a b c d e) as [[[ret sk'] p'] osig]
    end.
    cbn [fst snd].
    assert (Hgoal : key_inv
              (set_ots_private_keys
                 (set_q_next_usable_key ctx (q_next_usable_key ctx + 1))
                 (<[Z.to_nat (q_next_usable_key ctx) := sk']>
                    (ots_private_keys ctx)))).
    { split; [exact HI|]. intros _.
      cbn [priv_params set_ots_private_keys set_q_next_usable_key
           q_next_usable_key ots_private_keys ots_public_keys].
      rewrite length_insert.
      repeat split; try assumption; try lia.
      exists seed. intros i Hi. destruct (Hslots i Hi) as (sk & Hg & Hp & Hs).
      exists sk. split; [exact Hg|split; [exact Hp|]].
      intros Hqi. rewrite nth_lookup, list_lookup_insert_ne by lia.
      rewrite <- nth_lookup. apply Hs. lia. }
    destruct (negb (ret =? 0)); [exact Hgoal|].
    destruct (negb (fst (get_merkle_path _ _ _ _) =? 0)); exact Hgoal.
  - destruct (sign_rejected ctx f_rng p_rng msg sig tree) as [-> _];
      [|split; assumption].
    do 4 right. rewrite Hty, (leaf_node_am_supported Hhdr). lia.
  - destruct (sign_rejected ctx f_rng p_rng msg sig tree) as [-> _];
      [|split; assumption].
    right. left. rewrite Hty, Hots, (sig_len_supported Hhdr). lia.
Qed.

Lemma run_ops_key_inv ops p_rng :
  rfc8554_header -> key_inv (fst (run_ops ops p_rng)).
Proof.
  intros Hhdr. unfold run_ops.
  assert (Hgen : forall st, key_inv (fst st) ->
                 key_inv (fst (fold_left run_op ops st))).
  { induction ops as [|op ops IH]; intros st Hinv; [exact Hinv|].
    simpl. apply IH.
    destruct op as [t o f seed|f msg sig tree|pub tree]; simpl.
    - pose proof (generate_private_key_key_inv (fst st) t o f (snd st) seed
                    Hhdr Hinv) as Hg.
      destruct (mbedtls_lms_generate_private_key _ _ _ _ _ _) as [[ret c] p].
      exact Hg.
    - apply sign_key_inv; assumption.
    - exact Hinv. }
  apply Hgen, key_inv_init.
Qed.

End KeyInv.

(** ** Export and import of a public key *)

Lemma read_read (buf : list byte) a n b m :
  0 <= a -> 0 <= b -> 0 <= m -> b + m <= n ->
  read (read buf a n) b m = read buf (a + b) m.
Proof.
  intros Ha Hb Hm Hbm. apply list_eq. intros i.
  rewrite !lookup_read. case_decide; [|reflexivity].
  case_decide; [|lia]. f_equal. lia.
Qed.

Section RoundTrip.
Context `{LmsHeader} `{PsaHash} `{Platform} {P_rng : Type} `{Lmots P_rng}.

(** [import_public_key(export_public_key(pub))] is [pub], for a public
    key of the supported pair. *)
Lemma export_import_round_trip pub pub1 keybuf :
  rfc8554_header ->
  have_public_key pub = true ->
  type (params pub) = MBEDTLS_LMS_SHA256_M32_H10 ->
  otstype (params pub) = MBEDTLS_LMOTS_SHA256_N32_W8 ->
  wf_public pub -> wf_public pub1 ->
  56 <= Z.of_nat (length keybuf) ->
  fst (fst (mbedtls_lms_export_public_key pub keybuf)) = 0
  /\ snd (mbedtls_lms_export_public_key pub keybuf) = Some 56
  /\ mbedtls_lms_import_public_key pub1
       (read (snd (fst (mbedtls_lms_export_public_key pub keybuf))) 0 56)
     = Some (0, pub).
Proof.
  intros Hhdr Hhave Hty Hots [HI HT] [HI1 HT1] Hlen.
  pose proof Hhdr as (_ & Hm & _ & _ & _ & _ & Hmax).
  unfold mbedtls_lms_export_public_key.
  rewrite Hty, Hots, (public_key_len_supported Hhdr), Hhave, Hm.
  destruct (Z.ltb_spec (Z.of_nat (length keybuf)) 56); [lia|]. cbn [negb].
  change PUBLIC_KEY_TYPE_OFFSET with 0.
  change PUBLIC_KEY_OTSTYPE_OFFSET with 4.
  change PUBLIC_KEY_I_KEY_ID_OFFSET with 8.
  change PUBLIC_KEY_ROOT_NODE_OFFSET with 24.
  change MBEDTLS_LMOTS_I_KEY_ID_LEN with 16.
  change (Z.to_nat MBEDTLS_LMS_TYPE_LEN) with 4%nat.
  change (Z.to_nat MBEDTLS_LMOTS_TYPE_LEN) with 4%nat.
  unfold memcpy. rewrite (read_all (I_key_identifier (params pub)) 16) by lia.
  rewrite (read_all (T_1_pub_key pub) 32) by lia.
  cbn [fst snd]. split; [reflexivity|split; [reflexivity|]].
  set (e6 := mbedtls_lms_unsigned_int_to_network_bytes
               MBEDTLS_LMS_SHA256_M32_H10 4).
  set (e4 := mbedtls_lms_unsigned_int_to_network_bytes
               MBEDTLS_LMOTS_SHA256_N32_W8 4).
  assert (He6 : length e6 = 4%nat) by reflexivity.
  assert (He4 : length e4 = 4%nat) by reflexivity.
  set (k1 := write keybuf 0 e6). set (k2 := write k1 4 e4).
  set (k3 := write k2 8 (I_key_identifier (params pub))).
  set (k4 := write k3 24 (T_1_pub_key pub)).
  assert (Hl1 : length k1 = length keybuf) by (apply length_write; lia).
  assert (Hl2 : length k2 = length keybuf)
    by (unfold k2; rewrite length_write; lia).
  assert (Hl3 : length k3 = length keybuf)
    by (unfold k3; rewrite length_write; lia).
  assert (Hl4 : length k4 = length keybuf)
    by (unfold k4; rewrite length_write; lia).
  set (k := read k4 0 56).
  assert (Hlk : length k = 56%nat) by (apply length_read; lia).
  assert (Hf1 : read k 0 4 = e6).
  { unfold k. rewrite read_read by lia.
    unfold k4. rewrite read_write_ne by lia.
    unfold k3. rewrite read_write_ne by lia.
    unfold k2. rewrite read_write_ne by lia.
    apply read_write_eq; lia. }
  assert (Hf2 : read k 4 4 = e4).
  { unfold k. rewrite read_read by lia.
    unfold k4. rewrite read_write_ne by lia.
    unfold k3. rewrite read_write_ne by lia.
    apply read_write_eq; lia. }
  assert (Hf3 : read k 8 16 = I_key_identifier (params pub)).
  { unfold k. rewrite read_read by lia. unfold k4.
    rewrite read_write_ne by lia. apply read_write_eq; lia. }
  assert (Hf4 : read k 24 32 = T_1_pub_key pub).
  { unfold k. rewrite read_read by lia. apply read_write_eq; lia. }
  unfold mbedtls_lms_import_public_key. rewrite Hlk.
  assert (Hpk : MBEDTLS_LMS_PUBLIC_KEY_LEN (type (params pub1)) <= 56).
  { unfold MBEDTLS_LMS_PUBLIC_KEY_LEN. specialize (Hmax (type (params pub1))).
    unfold MBEDTLS_LMS_TYPE_LEN, MBEDTLS_LMOTS_TYPE_LEN,
      MBEDTLS_LMOTS_I_KEY_ID_LEN, MBEDTLS_LMS_M_NODE_BYTES_MAX in *. lia. }
  destruct (Z.ltb_spec (Z.of_nat 56)
              (MBEDTLS_LMS_PUBLIC_KEY_LEN (type (params pub1)))); [lia|].
  change PUBLIC_KEY_TYPE_OFFSET with 0.
  change PUBLIC_KEY_OTSTYPE_OFFSET with 4.
  change PUBLIC_KEY_I_KEY_ID_OFFSET with 8.
  change PUBLIC_KEY_ROOT_NODE_OFFSET with 24.
  change MBEDTLS_LMOTS_I_KEY_ID_LEN with 16.
  change MBEDTLS_LMS_TYPE_LEN with 4. change MBEDTLS_LMOTS_TYPE_LEN with 4.
  change (Z.to_nat 4) with 4%nat.
  rewrite (read_in_Some k 0 4), Hf1 by lia. cbn [mbind option_bind].
  change (mbedtls_lms_network_bytes_to_unsigned_int 4 e6)
    with MBEDTLS_LMS_SHA256_M32_H10.
  change (negb (MBEDTLS_LMS_SHA256_M32_H10 =? MBEDTLS_LMS_SHA256_M32_H10))
    with false. cbv iota.
  rewrite (read_in_Some k 4 4), Hf2 by lia. cbn [mbind option_bind].
  change (mbedtls_lms_network_bytes_to_unsigned_int 4 e4)
    with MBEDTLS_LMOTS_SHA256_N32_W8.
  change (negb (MBEDTLS_LMOTS_SHA256_N32_W8 =? MBEDTLS_LMOTS_SHA256_N32_W8))
    with false. cbv iota.
  rewrite (read_in_Some k 8 16), Hf3 by lia. cbn [mbind option_bind].
  cbn [params set_params set_type set_otstype set_I_key_identifier type
       T_1_pub_key].
  rewrite Hm.
  rewrite (read_in_Some k 24 32), Hf4 by lia. cbn [mbind option_bind].
  cbn [I_key_identifier set_otstype set_type].
  rewrite !write_all by lia.
  destruct pub as [[I o t] T h]. simpl in Hty, Hots, Hhave.
  subst t o h. reflexivity.
Qed.

(** ** Verification of an emitted signature *)

(** The climb of [mbedtls_lms_verify] from a node of the tree along its
    siblings ends at the root. *)
Lemma verify_climb_root pub sigv tree id n height curr :
  psa_contract -> psa_never_fails ->
  MBEDTLS_LMS_M_NODE_BYTES (type (params pub)) = 32 ->
  SIG_PATH_OFFSET (otstype (params pub)) = 1144 ->
  read (I_key_identifier (params pub)) 0 16 = id ->
  tree_shape tree ->
  (forall r, 1 <= r < 1024 ->
     row tree r = internal_hash id r (row tree (2 * r)) (row tree (2 * r + 1))) ->
  0 <= height -> Z.of_nat n <= 10 ->
  2 ^ Z.of_nat n <= curr < 2 ^ (Z.of_nat n + 1) ->
  (forall j, 0 <= j < Z.of_nat n ->
     read sigv (1144 + (height + j) * 32) 32
     = row tree (Z.lxor (Z.shiftr curr j) 1)) ->
  verify_climb n pub sigv height curr (row tree curr) = row tree 1.
Proof.
  intros Hpsa Hnf Hm Hoff Hid Hshape Heq. revert height curr.
  induction n as [|n IH]; intros height curr Hh Hn Hc Hpath.
  - simpl in *. replace curr with 1 by lia. reflexivity.
  - cbn [verify_climb]. cbv zeta. rewrite Hm, Hoff.
    rewrite Nat2Z.inj_succ in Hc, Hn, Hpath.
    replace (Z.succ (Z.of_nat n)) with (Z.of_nat n + 1) in * by lia.
    pose proof (level_bound (Z.of_nat n + 1) ltac:(lia)) as Hb.
    pose proof (level_bound (Z.of_nat n) ltac:(lia)) as Hb'.
    assert (Hc2 : 2 ^ Z.of_nat n <= curr / 2 < 2 ^ (Z.of_nat n + 1)).
    { pose proof (shiftr_1_level curr (Z.of_nat n) ltac:(lia)) as Hs.
      rewrite Z.shiftr_div_pow2 in Hs by lia. change (2 ^ 1) with 2 in Hs.
      apply Hs. replace (Z.of_nat n + 2) with (Z.of_nat n + 1 + 1) by lia.
      exact Hc. }
    assert (Hp0 : 0 < 2 ^ Z.of_nat n) by (apply Z.pow_pos_nonneg; lia).
    assert (Hp1 : 2 ^ (Z.of_nat n + 1) <= 1024)
      by (change 1024 with (2 ^ 10); apply Z.pow_le_mono_r; lia).
    pose proof (Hpath 0 ltac:(lia)) as Hsib.
    rewrite Z.shiftr_0_r, Z.add_0_r, lxor_1 in Hsib.
    pose proof (Z.div_mod curr 2 ltac:(lia)) as Hdm.
    pose proof (Zmod_odd curr) as Hodd.
    assert (Hland : Z.land curr 1 = curr mod 2).
    { change 1 with (Z.ones 1). rewrite Z.land_ones by lia. reflexivity. }
    rewrite Hland.
    assert (Hrc : length (row tree curr) = 32%nat)
      by (apply tree_shape_row; [assumption|lia]).
    assert (Hstep :
      forall left right,
        read left 0 32 = row tree (2 * (curr / 2)) ->
        read right 0 32 = row tree (2 * (curr / 2) + 1) ->
        snd (create_merkle_internal_value (params pub) left right (curr / 2)
               (row tree curr)) = row tree (curr / 2)).
    { intros left right Hl Hr.
      destruct (create_merkle_internal_value_spec (params pub) left right
                  (curr / 2) (row tree curr) Hpsa) as (Hv & _ & Hz).
      rewrite Hm, Hid, Hl, Hr in Hv. rewrite Hm in Hz.
      rewrite (Hv (Hz Hnf ltac:(lia))), <- Heq by lia.
      apply write_all. rewrite Hrc. apply tree_shape_row; [assumption|lia]. }
    assert (Hrest :
      verify_climb n pub sigv (height + 1) (curr / 2) (row tree (curr / 2))
      = row tree 1).
    { apply IH; [lia|lia|exact Hc2|]. intros j Hj.
      replace (height + 1 + j) with (height + (j + 1)) by lia.
      rewrite Hpath by lia.
      replace (curr / 2) with (Z.shiftr curr 1)
        by (rewrite Z.shiftr_div_pow2 by lia; reflexivity).
      rewrite Z.shiftr_shiftr by lia. do 3 f_equal. lia. }
    destruct (Z.odd curr) eqn:Ho.
    + rewrite Hodd. cbn [negb Z.eqb].
      destruct (create_merkle_internal_value _ _ _ _ _) as [ret out] eqn:Hcall.
      assert (out = row tree (curr / 2)) as ->; [|exact Hrest].
      change out with (snd (ret, out)). rewrite <- Hcall. apply Hstep.
      * rewrite read_ptr_add by lia. rewrite Z.add_0_r, Hsib.
        f_equal. lia.
      * rewrite read_all by lia. f_equal. lia.
    + rewrite Hodd. cbn [negb Z.eqb].
      destruct (create_merkle_internal_value _ _ _ _ _) as [ret out] eqn:Hcall.
      assert (out = row tree (curr / 2)) as ->; [|exact Hrest].
      change out with (snd (ret, out)). rewrite <- Hcall. apply Hstep.
      * rewrite read_all by lia. f_equal. lia.
      * rewrite read_ptr_add by lia. rewrite Z.add_0_r, Hsib.
        f_equal. lia.
Qed.

End RoundTrip.

Section RoundTripTheorem.
Context `{LmsHeader} `{PsaHash} `{Platform} {P_rng : Type} `{Lmots P_rng}.

(** [mbedtls_lms_verify] accepts a signature whose fields decode as they
    should, whose OTS part yields the public key of leaf [q], and whose
    path holds the siblings of that leaf in a tree with root
    [T_1_pub_key]. *)
Lemma verify_accepts pub msg sigv Kc Tc tree q K :
  rfc8554_header -> psa_contract -> psa_never_fails ->
  have_public_key pub = true ->
  type (params pub) = MBEDTLS_LMS_SHA256_M32_H10 ->
  otstype (params pub) = MBEDTLS_LMOTS_SHA256_N32_W8 ->
  Z.of_nat (length sigv) = 1464 ->
  length Kc = 32%nat -> length Tc = 32%nat -> length K = 32%nat ->
  mbedtls_lms_network_bytes_to_unsigned_int 4
    (read sigv (4 + MBEDTLS_LMOTS_SIG_TYPE_OFFSET) 4)
    = MBEDTLS_LMOTS_SHA256_N32_W8 ->
  mbedtls_lms_network_bytes_to_unsigned_int 4 (read sigv 1140 4)
    = MBEDTLS_LMS_SHA256_M32_H10 ->
  mbedtls_lms_network_bytes_to_unsigned_int 4 (read sigv 0 4) = q ->
  0 <= q < 1024 ->
  mbedtls_lmots_calculate_public_key_candidate
    {| lmots_I_key_identifier := read (I_key_identifier (params pub)) 0 16;
       lmots_q_leaf_identifier := mbedtls_lms_unsigned_int_to_network_bytes q 4;
       lmots_type := MBEDTLS_LMOTS_SHA256_N32_W8 |}
    msg (read sigv 4 1136) MBEDTLS_LMOTS_N_HASH_LEN_MAX = (0, K) ->
  tree_shape tree ->
  row tree (1024 + q)
    = leaf_hash (read (I_key_identifier (params pub)) 0 16) (1024 + q) K ->
  (forall r, 1 <= r < 1024 ->
     row tree r
     = internal_hash (read (I_key_identifier (params pub)) 0 16) r
         (row tree (2 * r)) (row tree (2 * r + 1))) ->
  (forall h, 0 <= h < 10 ->
     read sigv (1144 + 32 * h) 32
     = row tree (Z.lxor (Z.shiftr (1024 + q) h) 1)) ->
  T_1_pub_key pub = row tree 1 ->
  mbedtls_lms_verify pub msg sigv Kc Tc = 0.
Proof.
  intros Hhdr Hpsa Hnf Hhave Hty Hots Hlen HKc HTc HK Hf1 Hf2 Hq Hqr Hcand
    Hshape Hleaf Hnode Hpath Hroot.
  pose proof Hhdr as (Hh & Hm & Hn & Hs & _).
  unfold mbedtls_lms_verify.
  rewrite Hhave, Hty, Hots, (sig_len_supported Hhdr), Hlen,
    (sig_type_offset_supported Hhdr), (leaf_node_am_supported Hhdr),
    (internal_node_am_supported Hhdr), Hh, Hm, Hs.
  change (1464 =? 1464) with true.
  change (MBEDTLS_LMS_SHA256_M32_H10 =? MBEDTLS_LMS_SHA256_M32_H10) with true.
  change (MBEDTLS_LMOTS_SHA256_N32_W8 =? MBEDTLS_LMOTS_SHA256_N32_W8) with true.
  cbn [negb].
  change (Z.to_nat MBEDTLS_LMOTS_TYPE_LEN) with 4%nat.
  change (Z.to_nat MBEDTLS_LMS_TYPE_LEN) with 4%nat.
  change (Z.to_nat MBEDTLS_LMOTS_Q_LEAF_ID_LEN) with 4%nat.
  change SIG_OTS_SIG_OFFSET with 4. change SIG_Q_LEAF_ID_OFFSET with 0.
  change MBEDTLS_LMOTS_I_KEY_ID_LEN with 16.
  rewrite !decode_ptr_add. rewrite Hf1, Hf2, Hq.
  change (MBEDTLS_LMS_SHA256_M32_H10 =? MBEDTLS_LMS_SHA256_M32_H10) with true.
  change (MBEDTLS_LMOTS_SHA256_N32_W8 =? MBEDTLS_LMOTS_SHA256_N32_W8) with true.
  cbn [negb].
  destruct (Z.geb_spec q 1024); [lia|].
  rewrite Hcand. cbv iota beta. change (0 =? 0) with true. cbn [negb].
  rewrite (write_all Kc K) by lia.
  rewrite (u32_small (1024 + q)) by lia.
  destruct (create_merkle_leaf_value_spec (params pub) K (1024 + q) Tc Hpsa)
    as (Hv & _ & Hz).
  rewrite Hots, Hn in Hv. rewrite Hty, Hm in Hz.
  specialize (Hz Hnf ltac:(lia)). specialize (Hv Hz).
  rewrite (read_all K 32), <- Hleaf in Hv by lia.
  assert (Hrl : length (row tree (1024 + q)) = 32%nat)
    by (apply tree_shape_row; [assumption|lia]).
  rewrite write_all in Hv by lia.
  destruct (create_merkle_leaf_value _ _ _ _) as [ret out].
  cbn [fst snd] in Hv. subst out.
  rewrite (verify_climb_root pub sigv tree
             (read (I_key_identifier (params pub)) 0 16));
    try assumption; try reflexivity; try lia.
  - unfold memcmp_eq. rewrite Hroot.
    rewrite bool_decide_eq_true_2 by reflexivity. reflexivity.
  - rewrite Hty. exact Hm.
  - rewrite Hots. apply (sig_path_offset_supported Hhdr).
  - change (2 ^ Z.of_nat (Z.to_nat 10)) with 1024.
    change (2 ^ (Z.of_nat (Z.to_nat 10) + 1)) with 2048. lia.
  - intros j Hj. rewrite <- Hpath by lia. f_equal. lia.
Qed.

(** C1: take any run of calls on a private context from
    [mbedtls_lms_init_private] on, and the context [ctx] it leaves.  If
    [mbedtls_lms_sign] returns 0 on [ctx] for a message, then
    [mbedtls_lms_calculate_public_key] on [ctx] returns 0,
    [mbedtls_lms_export_public_key] of that key returns 0,
    [mbedtls_lms_import_public_key] of the 56 exported bytes returns 0,
    and [mbedtls_lms_verify] with the imported key returns 0 on the
    message and the 1464 signature bytes.  The hash backend does not
    fail and the OTS primitive is correct. *)
Theorem sign_verify_round_trip ops p_rng f_rng msg sig tree0 tree1
        pub0 pub1 keybuf Kc Tc :
  rfc8554_header -> psa_contract -> psa_never_fails ->
  lmots_sign_length -> lmots_correct ->
  tree_shape tree0 -> tree_shape tree1 ->
  wf_public pub0 -> wf_public pub1 ->
  56 <= Z.of_nat (length keybuf) ->
  length Kc = 32%nat -> length Tc = 32%nat ->
  let ctx := fst (run_ops ops p_rng) in
  let r := mbedtls_lms_sign ctx f_rng (snd (run_ops ops p_rng)) msg sig tree0 in
  let pub := snd (mbedtls_lms_calculate_public_key pub0 ctx tree1) in
  let key :=
    read (snd (fst (mbedtls_lms_export_public_key pub keybuf))) 0 56 in
  sign_ret r = 0 ->
  fst (mbedtls_lms_calculate_public_key pub0 ctx tree1) = 0
  /\ fst (fst (mbedtls_lms_export_public_key pub keybuf)) = 0
  /\ snd (mbedtls_lms_export_public_key pub keybuf) = Some 56
  /\ sign_sig_len r = Some 1464
  /\ exists pub',
       mbedtls_lms_import_public_key pub1 key = Some (0, pub')
       /\ mbedtls_lms_verify pub' msg (read (sign_sig r) 0 1464) Kc Tc = 0.
Proof.
  intros Hhdr Hpsa Hnf Hsl Hcor Hs0 Hs1 [_ HT0] Hwf1 Hkb HKc HTc
    ctx r pub key Hret.
  pose proof (run_ops_key_inv ops p_rng Hhdr) as [HI Hkey]. fold ctx in HI, Hkey.
  destruct (sign_success_entry ctx f_rng (snd (run_ops ops p_rng)) msg sig
              tree0 Hhdr Hret) as (Hhave & Hty & Hots & Hlen & Hq).
  destruct (Hkey Hhave) as (_ & _ & Hq0 & Hlp & Hlq & seed & Hslots).
  (* the signature *)
  pose proof (sign_layout ctx f_rng (snd (run_ops ops p_rng)) msg sig tree0
                Hhdr Hpsa Hsl Hs0 Hhave Hty Hots Hlen ltac:(lia) Hret)
    as (Hots_ret & _ & Hsl' & Hsiglen & Hsq & Hsots & Hsty & Hspath).
  fold r in Hsl', Hsiglen, Hsq, Hsots, Hsty, Hspath.
  (* the tree that signing built *)
  destruct (calculate_merkle_tree ctx tree0) as [ret0 t0] eqn:Hcalc0.
  destruct (calculate_merkle_tree_spec ctx Hhdr Hpsa Hty Hots tree0 ret0 t0
              Hs0 Hcalc0) as [Hv0 Hz0].
  specialize (Hz0 Hnf). destruct (Hv0 Hz0) as (Hshape0 & Hleaf0 & Hnode0).
  cbn [snd] in Hspath.
  (* the public key *)
  pose proof (calculate_public_key_runs ctx Hhdr Hpsa Hnf Hty Hots pub0 tree1
                Hhave HT0 Hs1) as Hpub.
  pose proof (calculate_merkle_tree_rows ctx Hhdr Hpsa Hnf Hty Hots tree0
                tree1 1 Hs0 Hs1 ltac:(lia)) as Hroot.
  rewrite Hcalc0 in Hroot. cbn [snd] in Hroot.
  assert (Hpret : fst (mbedtls_lms_calculate_public_key pub0 ctx tree1) = 0)
    by (rewrite Hpub; reflexivity).
  assert (HpT : T_1_pub_key pub = row t0 1)
    by (subst pub; rewrite Hpub; exact Hroot).
  assert (Hpp : params pub = priv_params ctx)
    by (subst pub; rewrite Hpub; reflexivity).
  assert (Hph : have_public_key pub = true)
    by (subst pub; rewrite Hpub; reflexivity).
  assert (Hwf : wf_public pub).
  { split; [rewrite Hpp; exact HI|].
    rewrite HpT. apply tree_shape_row; [assumption|lia]. }
  destruct (export_import_round_trip pub pub1 keybuf Hhdr Hph) as (He & Hel & Himp);
    try assumption; try (rewrite Hpp; assumption).
  fold key in Himp.
  split; [exact Hpret|split; [exact He|split; [exact Hel|split; [exact Hsl'|]]]].
  exists pub. split; [exact Himp|].
  (* the OTS signature *)
  destruct (Hslots (q_next_usable_key ctx) ltac:(lia)) as (sk & Hgen & Hpk & Hsk).
  specialize (Hsk ltac:(lia)).
  rewrite Hsk in Hots_ret, Hsots.
  destruct (Hcor (key_id ctx) (q_next_usable_key ctx) seed sk _ f_rng
              (snd (run_ops ops p_rng)) msg 1464 ltac:(lia) Hgen Hpk Hots_ret)
    as (Hkl & Hkty & Hkc).
  rewrite <- Hsots in Hkty, Hkc.
  assert (Hid : read (I_key_identifier (params pub)) 0 16 = key_id ctx)
    by (rewrite Hpp; reflexivity).
  assert (Hsv : forall o n, 0 <= o -> 0 <= n -> o + n <= 1464 ->
                read (read (sign_sig r) 0 1464) o n = read (sign_sig r) o n).
  { intros o n Ho Hn Hon. rewrite read_read by lia. reflexivity. }
  apply (verify_accepts pub msg (read (sign_sig r) 0 1464) Kc Tc t0
           (q_next_usable_key ctx)
           (public_key (nth (Z.to_nat (q_next_usable_key ctx))
                          (ots_public_keys ctx) mbedtls_lmots_init_public)));
    try assumption; try (rewrite Hpp; assumption).
  - rewrite length_read by lia. reflexivity.
  - destruct Hhdr as (_ & _ & _ & _ & Ho1 & Ho2 & _).
    unfold MBEDTLS_LMOTS_TYPE_LEN in Ho2.
    rewrite Hsv by lia. rewrite read_read in Hkty by lia. exact Hkty.
  - rewrite Hsv by lia. rewrite Hsty. reflexivity.
  - rewrite Hsv by lia. rewrite Hsq.
    rewrite <- (app_nil_r (mbedtls_lms_unsigned_int_to_network_bytes _ 4)).
    apply decode_encode_4. lia.
  - lia.
  - rewrite Hid, Hsv by lia. exact Hkc.
  - rewrite Hid, Hleaf0 by lia. unfold leaf_key.
    rewrite read_all by lia. reflexivity.
  - intros h Hh. rewrite Hsv by lia. apply Hspath. exact Hh.
Qed.

End RoundTripTheorem.

Lemma test_lmots_correct : @lmots_correct lms_h unit test_lmots.
Proof.
  intros id q seed sk pk f_rng p_rng msg size Hq Hgen Hpk Hret.
  simpl in Hgen, Hpk. injection Hgen as <-. injection Hpk as <-.
  cbn [mbedtls_lmots_sign test_lmots] in Hret |- *.
  destruct (f_rng p_rng 32) as [[ret random] p'].
  destruct (Z.eqb_spec ret 0) as [->|Hne]; cbn [negb] in Hret |- *;
    [|simpl in Hret; contradiction].
  destruct (Z.ltb_spec q 0); [lia|]. cbn [fst snd public_key test_lmots].
  split; [reflexivity|split; [reflexivity|]].
  cbn [mbedtls_lmots_calculate_public_key_candidate test_lmots
       lmots_q_leaf_identifier].
  rewrite <- (app_nil_r (mbedtls_lms_unsigned_int_to_network_bytes q 4)).
  rewrite decode_encode_4 by lia. reflexivity.
Qed.

Lemma wf_public_init : wf_public mbedtls_lms_init_public.
Proof. split; reflexivity. Qed.

(** C1 on the key of the tests: its first signature, over the message
    [1; 2; 3], verifies under the exported and imported public key. *)
Lemma sign_verify_round_trip_test_key :
  let r := @mbedtls_lms_sign lms_h test_psa unit test_lmots (fst test_run)
             test_rng (snd test_run) [1; 2; 3] (replicate 1464 0)
             (test_tree 0) in
  let pub :=
    snd (@mbedtls_lms_calculate_public_key lms_h test_psa unit test_lmots
           mbedtls_lms_init_public (fst test_run) (test_tree 255)) in
  let key :=
    read (snd (fst (@mbedtls_lms_export_public_key lms_h pub
                      (replicate 56 0)))) 0 56 in
  exists pub',
    @mbedtls_lms_import_public_key lms_h mbedtls_lms_init_public key
      = Some (0, pub')
    /\ @mbedtls_lms_verify lms_h test_psa unit test_lmots pub' [1; 2; 3]
         (read (sign_sig r) 0 1464) (replicate 32 0) (replicate 32 0) = 0.
Proof.
  intros r pub key.
  pose proof (@sign_verify_round_trip lms_h test_psa test_platform unit
                test_lmots [test_generate] tt test_rng [1; 2; 3]
                (replicate 1464 0) (test_tree 0) (test_tree 255)
                mbedtls_lms_init_public mbedtls_lms_init_public
                (replicate 56 0) (replicate 32 0) (replicate 32 0)
                lms_h_rfc8554 test_psa_contract test_psa_never_fails
                test_lmots_sign_length test_lmots_correct
                (tree_shape_test_tree 0) (tree_shape_test_tree 255)
                wf_public_init wf_public_init) as Hthm.
  destruct Hthm as (_ & _ & _ & _ & Hv);
    [vm_compute; discriminate|reflexivity|reflexivity
    |vm_compute; reflexivity|exact Hv].
Defined.

(** ** Further properties of the public-key codec *)

Lemma drop_write (buf : list byte) (off : Z) (d : list byte) (n : nat) :
  (Z.to_nat off + length d <= length buf)%nat ->
  (Z.to_nat off + length d <= n)%nat ->
  drop n (write buf off d) = drop n buf.
Proof.
  intros Hb Hn. apply list_eq. intros i.
  rewrite !lookup_drop, lookup_write by assumption.
  destruct (decide (n + i < Z.to_nat off)%nat); [lia|].
  destruct (decide (n + i < Z.to_nat off + length d)%nat); [lia|].
  reflexivity.
Qed.

Lemma read_split (buf : list byte) (off n m : Z) :
  0 <= off -> 0 <= n -> 0 <= m ->
  read buf off (n + m) = read buf off n ++ read buf (off + n) m.
Proof.
  intros Ho Hn Hm. unfold read.
  rewrite !Z2Nat.inj_add by lia.
  rewrite <- take_take_drop, drop_drop. reflexivity.
Qed.

Lemma lor_shiftl_add x y k :
  0 <= k -> 0 <= y < 2 ^ k -> Z.lor (Z.shiftl x k) y = x * 2 ^ k + y.
Proof.
  intros Hk Hy.
  assert (Hland : Z.land (Z.shiftl x k) y = 0).
  { apply Z.bits_inj'. intros n Hn. rewrite Z.land_spec, Z.bits_0.
    destruct (Z.lt_ge_cases n k) as [Hlt|Hge].
    - rewrite Z.shiftl_spec_low by assumption. reflexivity.
    - destruct (Z.eq_dec y 0) as [->|Hy0].
      + rewrite Z.bits_0. apply andb_false_r.
      + rewrite (Z.bits_above_log2 y n); [apply andb_false_r|lia|].
        apply Z.log2_lt_pow2; [lia|].
        apply Z.lt_le_trans with (2 ^ k); [lia|].
        apply Z.pow_le_mono_r; lia. }
  rewrite <- Z.lxor_lor by assumption.
  rewrite <- Z.add_nocarry_lxor by assumption.
  rewrite Z.shiftl_mul_pow2 by assumption. reflexivity.
Qed.

(** For four bytes, encoding the decoded value gives the bytes back. *)
Lemma encode_decode_4 (l : list byte) :
  length l = 4%nat -> Forall (fun b => 0 <= b < 256) l ->
  mbedtls_lms_unsigned_int_to_network_bytes
    (mbedtls_lms_network_bytes_to_unsigned_int 4 l) 4 = l.
Proof.
  intros Hl Hr.
  destruct l as [|a [|b [|c [|d [|e l]]]]]; try discriminate.
  apply Forall_cons in Hr as [Ha Hr]. apply Forall_cons in Hr as [Hb Hr].
  apply Forall_cons in Hr as [Hc Hr]. apply Forall_cons in Hr as [Hd _].
  assert (Hv : mbedtls_lms_network_bytes_to_unsigned_int 4 [a; b; c; d]
               = a * 2 ^ 24 + (b * 2 ^ 16 + (c * 2 ^ 8 + d))).
  { cbn [mbedtls_lms_network_bytes_to_unsigned_int].
    change (8 * Z.of_nat 3) with 24. change (8 * Z.of_nat 2) with 16.
    change (8 * Z.of_nat 1) with 8. change (8 * Z.of_nat 0) with 0.
    rewrite Z.lor_0_r, Z.shiftl_0_r.
    rewrite (Z.shiftl_mul_pow2 a 24), (Z.shiftl_mul_pow2 b 16),
      (Z.shiftl_mul_pow2 c 8) by lia.
    rewrite !u32_small by lia.
    rewrite <- (Z.shiftl_mul_pow2 c 8) by lia.
    rewrite (lor_shiftl_add c d 8) by lia.
    rewrite <- (Z.shiftl_mul_pow2 b 16) by lia.
    rewrite (lor_shiftl_add b _ 16) by lia.
    rewrite <- (Z.shiftl_mul_pow2 a 24) by lia.
    rewrite (lor_shiftl_add a _ 24) by lia.
    rewrite !Z.shiftl_mul_pow2 by lia. reflexivity. }
  rewrite Hv. cbn [mbedtls_lms_unsigned_int_to_network_bytes].
  change (8 * Z.of_nat 3) with 24. change (8 * Z.of_nat 2) with 16.
  change (8 * Z.of_nat 1) with 8. change (8 * Z.of_nat 0) with 0.
  change 255 with (Z.ones 8).
  rewrite !Z.land_ones, !Z.shiftr_div_pow2 by lia.
  change (2 ^ 24) with 16777216. change (2 ^ 16) with 65536.
  change (2 ^ 8) with 256. change (2 ^ 0) with 1.
  f_equal; [|f_equal; [|f_equal; [|f_equal]]];
    Z.div_mod_to_equations; lia.
Qed.

(** The four fields of an exported public key, read back. *)
Lemma read_public_key_fields (key a b c d : list byte) :
  56 <= Z.of_nat (length key) ->
  length a = 4%nat -> length b = 4%nat ->
  length c = 16%nat -> length d = 32%nat ->
  let out := write (write (write (write key 0 a) 4 b) 8 c) 24 d in
  length out = length key
  /\ read out 0 4 = a /\ read out 4 4 = b
  /\ read out 8 16 = c /\ read out 24 32 = d
  /\ drop 56 out = drop 56 key.
Proof.
  intros Hlen Ha Hb Hc Hd.
  set (k1 := write key 0 a). set (k2 := write k1 4 b).
  set (k3 := write k2 8 c).
  assert (Hl1 : length k1 = length key) by (apply length_write; lia).
  assert (Hl2 : length k2 = length key)
    by (unfold k2; rewrite length_write; lia).
  assert (Hl3 : length k3 = length key)
    by (unfold k3; rewrite length_write; lia).
  cbv zeta.
  split; [rewrite length_write; lia|].
  split; [|split; [|split; [|split]]].
  - rewrite read_write_ne by lia. unfold k3.
    rewrite read_write_ne by lia. unfold k2.
    rewrite read_write_ne by lia. apply read_write_eq; lia.
  - rewrite read_write_ne by lia. unfold k3.
    rewrite read_write_ne by lia. apply read_write_eq; lia.
  - rewrite read_write_ne by lia. apply read_write_eq; lia.
  - apply read_write_eq; lia.
  - rewrite drop_write by lia. unfold k3.
    rewrite drop_write by lia. unfold k2.
    rewrite drop_write by lia. apply drop_write; lia.
Qed.

Section PublicKeyCodec.
Context `{LmsHeader}.
Hypothesis Hhdr : rfc8554_header.

Lemma public_key_len_bound t : MBEDTLS_LMS_PUBLIC_KEY_LEN t <= 56.
Proof using Hhdr.
  destruct Hhdr as (_ & _ & _ & _ & _ & _ & Hmax).
  unfold MBEDTLS_LMS_PUBLIC_KEY_LEN. specialize (Hmax t).
  unfold MBEDTLS_LMS_TYPE_LEN, MBEDTLS_LMOTS_TYPE_LEN,
    MBEDTLS_LMOTS_I_KEY_ID_LEN, MBEDTLS_LMS_M_NODE_BYTES_MAX in *. lia.
Qed.

(** What [mbedtls_lms_export_public_key] stores for a context that holds
    a key of the supported type. *)
Lemma export_public_key_supported ctx key :
  have_public_key ctx = true ->
  type (params ctx) = MBEDTLS_LMS_SHA256_M32_H10 ->
  wf_public ctx ->
  56 <= Z.of_nat (length key) ->
  mbedtls_lms_export_public_key ctx key
  = (0,
     write
       (write
          (write
             (write key 0
                (mbedtls_lms_unsigned_int_to_network_bytes
                   MBEDTLS_LMS_SHA256_M32_H10 4))
             4 (mbedtls_lms_unsigned_int_to_network_bytes
                  (otstype (params ctx)) 4))
          8 (I_key_identifier (params ctx)))
       24 (T_1_pub_key ctx),
     Some 56).
Proof using Hhdr.
  intros Hhave Hty [HI HT] Hlen.
  pose proof Hhdr as (_ & Hm & _).
  unfold mbedtls_lms_export_public_key.
  rewrite Hty, (public_key_len_supported Hhdr), Hhave, Hm.
  destruct (Z.ltb_spec (Z.of_nat (length key)) 56); [lia|]. cbn [negb].
  unfold memcpy. change MBEDTLS_LMOTS_I_KEY_ID_LEN with 16.
  rewrite (read_all (I_key_identifier (params ctx)) 16) by lia.
  rewrite (read_all (T_1_pub_key ctx) 32) by lia.
  reflexivity.
Qed.

(** What [mbedtls_lms_import_public_key] does with a key of at least 56
    bytes: both type fields are looked at in turn, and each accepted
    field is stored before the next one is read. *)
Lemma import_public_key_long_key ctx key :
  56 <= Z.of_nat (length key) ->
  mbedtls_lms_import_public_key ctx key
  = Some
      (if negb (mbedtls_lms_network_bytes_to_unsigned_int 4 (read key 0 4)
                =? MBEDTLS_LMS_SHA256_M32_H10)
       then (MBEDTLS_ERR_LMS_BAD_INPUT_DATA, ctx)
       else if negb (mbedtls_lms_network_bytes_to_unsigned_int 4 (read key 4 4)
                     =? MBEDTLS_LMOTS_SHA256_N32_W8)
       then (MBEDTLS_ERR_LMS_BAD_INPUT_DATA,
             set_params ctx (set_type (params ctx) MBEDTLS_LMS_SHA256_M32_H10))
       else (0,
             {| params :=
                  {| I_key_identifier :=
                       write (I_key_identifier (params ctx)) 0 (read key 8 16);
                     otstype := MBEDTLS_LMOTS_SHA256_N32_W8;
                     type := MBEDTLS_LMS_SHA256_M32_H10 |};
                T_1_pub_key := write (T_1_pub_key ctx) 0 (read key 24 32);
                have_public_key := true |})).
Proof using Hhdr.
  intros Hlen. pose proof Hhdr as (_ & Hm & _).
  pose proof (public_key_len_bound (type (params ctx))) as Hpk.
  unfold mbedtls_lms_import_public_key.
  destruct (Z.ltb_spec (Z.of_nat (length key))
              (MBEDTLS_LMS_PUBLIC_KEY_LEN (type (params ctx)))); [lia|].
  change PUBLIC_KEY_TYPE_OFFSET with 0.
  change PUBLIC_KEY_OTSTYPE_OFFSET with 4.
  change PUBLIC_KEY_I_KEY_ID_OFFSET with 8.
  change PUBLIC_KEY_ROOT_NODE_OFFSET with 24.
  change MBEDTLS_LMOTS_I_KEY_ID_LEN with 16.
  change MBEDTLS_LMS_TYPE_LEN with 4. change MBEDTLS_LMOTS_TYPE_LEN with 4.
  change (Z.to_nat 4) with 4%nat.
  rewrite (read_in_Some key 0 4) by lia. cbn [mbind option_bind].
  destruct (Z.eqb_spec (mbedtls_lms_network_bytes_to_unsigned_int 4
                          (read key 0 4)) MBEDTLS_LMS_SHA256_M32_H10)
    as [E6|N6]; cbn [negb]; [|reflexivity].
  rewrite E6.
  rewrite (read_in_Some key 4 4) by lia. cbn [mbind option_bind].
  destruct (Z.eqb_spec (mbedtls_lms_network_bytes_to_unsigned_int 4
                          (read key 4 4)) MBEDTLS_LMOTS_SHA256_N32_W8)
    as [E4|N4]; cbn [negb]; [|reflexivity].
  rewrite E4.
  rewrite (read_in_Some key 8 16) by lia. cbn [mbind option_bind].
  cbn [params set_params set_type set_otstype set_I_key_identifier type
       T_1_pub_key].
  rewrite Hm.
  rewrite (read_in_Some key 24 32) by lia. cbn [mbind option_bind].
  reflexivity.
Qed.

(** A key that [mbedtls_lms_import_public_key] accepts has at least 56
    bytes. *)
Lemma import_public_key_accepted_length ctx key ctx' :
  mbedtls_lms_import_public_key ctx key = Some (0, ctx') ->
  56 <= Z.of_nat (length key).
Proof using Hhdr.
  pose proof Hhdr as (_ & Hm & _).
  unfold mbedtls_lms_import_public_key. intros Himp.
  destruct (_ <? _); [discriminate|].
  destruct (read_in key PUBLIC_KEY_TYPE_OFFSET _) as [tb|];
    [|discriminate]. cbn [mbind option_bind] in Himp.
  destruct (Z.eqb_spec (mbedtls_lms_network_bytes_to_unsigned_int
                          (Z.to_nat MBEDTLS_LMS_TYPE_LEN) tb)
              MBEDTLS_LMS_SHA256_M32_H10) as [E6|]; cbn [negb] in Himp;
    [|discriminate].
  destruct (read_in key PUBLIC_KEY_OTSTYPE_OFFSET _) as [ob|];
    [|discriminate]. cbn [mbind option_bind] in Himp.
  destruct (negb _); [discriminate|].
  destruct (read_in key PUBLIC_KEY_I_KEY_ID_OFFSET _) as [ib|];
    [|discriminate]. cbn [mbind option_bind] in Himp.
  cbn [params set_params set_type set_otstype set_I_key_identifier type]
    in Himp.
  rewrite E6, Hm in Himp.
  unfold read_in in Himp.
  change PUBLIC_KEY_ROOT_NODE_OFFSET with 24 in Himp.
  destruct (Z.leb_spec (24 + 32) (Z.of_nat (length key))); [lia|].
  rewrite andb_false_r in Himp. discriminate.
Qed.

(** X1: a context that holds a key of the supported type is exported to
    any buffer of at least 56 bytes with return code 0 and the length 56:
    the 4-byte [lms_type] at offset 0, the 4-byte [ots_type] at offset 4,
    the identifier [I] at offset 8 and the root [T_1] at offset 24; the
    buffer keeps its size and its bytes from offset 56 on. *)
Theorem export_public_key_layout ctx key :
  have_public_key ctx = true ->
  type (params ctx) = MBEDTLS_LMS_SHA256_M32_H10 ->
  wf_public ctx ->
  56 <= Z.of_nat (length key) ->
  let r := mbedtls_lms_export_public_key ctx key in
  let out := snd (fst r) in
  fst (fst r) = 0
  /\ snd r = Some 56
  /\ length out = length key
  /\ read out 0 4
     = mbedtls_lms_unsigned_int_to_network_bytes MBEDTLS_LMS_SHA256_M32_H10 4
  /\ read out 4 4
     = mbedtls_lms_unsigned_int_to_network_bytes (otstype (params ctx)) 4
  /\ read out 8 16 = I_key_identifier (params ctx)
  /\ read out 24 32 = T_1_pub_key ctx
  /\ drop 56 out = drop 56 key.
Proof using Hhdr.
  intros Hhave Hty Hwf Hlen r out. subst out r.
  rewrite export_public_key_supported by assumption.
  destruct Hwf as [HI HT]. cbn [fst snd].
  do 2 (split; [reflexivity|]).
  apply read_public_key_fields; try assumption; apply length_encode.
Qed.

(** X2: [mbedtls_lms_import_public_key] on a key of at least 56 bytes
    never reads past the end of the key and never answers
    [BufferTooSmall]: it returns 0 exactly when the [lms_type] field is 6
    and the [ots_type] field is 4, and [BadInput] otherwise; a rejected
    key leaves the identifier, the root and [have_public_key] of the
    context as they were. *)
Theorem import_public_key_long_key_outcome ctx key :
  56 <= Z.of_nat (length key) ->
  exists ret ctx',
    mbedtls_lms_import_public_key ctx key = Some (ret, ctx')
    /\ (ret = 0 \/ ret = MBEDTLS_ERR_LMS_BAD_INPUT_DATA)
    /\ (ret = 0 <->
        mbedtls_lms_network_bytes_to_unsigned_int 4 (read key 0 4)
          = MBEDTLS_LMS_SHA256_M32_H10
        /\ mbedtls_lms_network_bytes_to_unsigned_int 4 (read key 4 4)
           = MBEDTLS_LMOTS_SHA256_N32_W8)
    /\ (ret <> 0 ->
        I_key_identifier (params ctx') = I_key_identifier (params ctx)
        /\ otstype (params ctx') = otstype (params ctx)
        /\ T_1_pub_key ctx' = T_1_pub_key ctx
        /\ have_public_key ctx' = have_public_key ctx).
Proof using Hhdr.
  intros Hlen. rewrite import_public_key_long_key by assumption.
  destruct (Z.eqb_spec (mbedtls_lms_network_bytes_to_unsigned_int 4
                          (read key 0 4)) MBEDTLS_LMS_SHA256_M32_H10)
    as [E6|N6]; cbn [negb].
  - destruct (Z.eqb_spec (mbedtls_lms_network_bytes_to_unsigned_int 4
                            (read key 4 4)) MBEDTLS_LMOTS_SHA256_N32_W8)
      as [E4|N4]; cbn [negb]; eexists; eexists; (split; [reflexivity|]).
    + split; [left; reflexivity|]. split; [tauto|]. intros Hne. contradiction.
    + split; [right; reflexivity|]. split.
      * split; [discriminate|]. intros [_ E]. contradiction.
      * intros _. repeat split.
  - eexists; eexists; split; [reflexivity|].
    split; [right; reflexivity|]. split.
    + split; [discriminate|]. intros [E _]. contradiction.
    + intros _. repeat split.
Qed.

(** X3: a key of at least 56 bytes with both type fields right replaces
    what a context held: the call returns 0 and the context is the
    identifier at offset 8, the root at offset 24, the supported pair and
    [have_public_key] set, whatever the context held before. *)
Theorem import_public_key_accepts ctx key :
  wf_public ctx ->
  56 <= Z.of_nat (length key) ->
  mbedtls_lms_network_bytes_to_unsigned_int 4 (read key 0 4)
    = MBEDTLS_LMS_SHA256_M32_H10 ->
  mbedtls_lms_network_bytes_to_unsigned_int 4 (read key 4 4)
    = MBEDTLS_LMOTS_SHA256_N32_W8 ->
  mbedtls_lms_import_public_key ctx key
  = Some (0,
          {| params :=
               {| I_key_identifier := read key 8 16;
                  otstype := MBEDTLS_LMOTS_SHA256_N32_W8;
                  type := MBEDTLS_LMS_SHA256_M32_H10 |};
             T_1_pub_key := read key 24 32;
             have_public_key := true |}).
Proof using Hhdr.
  intros [HI HT] Hlen E6 E4.
  rewrite import_public_key_long_key by assumption.
  rewrite E6, E4. cbn [negb Z.eqb Pos.eqb].
  change (MBEDTLS_LMS_SHA256_M32_H10 =? MBEDTLS_LMS_SHA256_M32_H10) with true.
  change (MBEDTLS_LMOTS_SHA256_N32_W8 =? MBEDTLS_LMOTS_SHA256_N32_W8)
    with true. cbn [negb].
  rewrite !write_all by (rewrite length_read; lia). reflexivity.
Qed.

(** X4: exporting a context that [mbedtls_lms_import_public_key] filled
    from a key gives the first 56 bytes of that key back. *)
Theorem import_export_round_trip ctx key ctx' buf :
  wf_public ctx ->
  Forall (fun b => 0 <= b < 256) key ->
  56 <= Z.of_nat (length buf) ->
  mbedtls_lms_import_public_key ctx key = Some (0, ctx') ->
  fst (fst (mbedtls_lms_export_public_key ctx' buf)) = 0
  /\ read (snd (fst (mbedtls_lms_export_public_key ctx' buf))) 0 56
     = read key 0 56.
Proof using Hhdr.
  intros [HI HT] Hbytes Hbuf Himp.
  pose proof (import_public_key_accepted_length _ _ _ Himp) as Hlen.
  rewrite import_public_key_long_key in Himp by assumption.
  destruct (Z.eqb_spec (mbedtls_lms_network_bytes_to_unsigned_int 4
                          (read key 0 4)) MBEDTLS_LMS_SHA256_M32_H10)
    as [E6|N6]; cbn [negb] in Himp; [|discriminate].
  destruct (Z.eqb_spec (mbedtls_lms_network_bytes_to_unsigned_int 4
                          (read key 4 4)) MBEDTLS_LMOTS_SHA256_N32_W8)
    as [E4|N4]; cbn [negb] in Himp; [|discriminate].
  injection Himp as <-.
  rewrite !write_all by (rewrite length_read; lia).
  set (ctx' := {| params := _ |}).
  assert (Hwf' : wf_public ctx').
  { split; cbn; apply length_read; lia. }
  rewrite (export_public_key_supported ctx' buf eq_refl eq_refl Hwf' Hbuf).
  cbn [fst snd ctx' params I_key_identifier otstype T_1_pub_key].
  split; [reflexivity|].
  match goal with
  | |- read ?o 0 56 = _ =>
      destruct (read_public_key_fields buf
                  (mbedtls_lms_unsigned_int_to_network_bytes
                     MBEDTLS_LMS_SHA256_M32_H10 4)
                  (mbedtls_lms_unsigned_int_to_network_bytes
                     MBEDTLS_LMOTS_SHA256_N32_W8 4)
                  (read key 8 16) (read key 24 32) Hbuf)
        as (_ & H0 & H4 & H8 & H24 & _)
  end; try (apply length_encode); try (apply length_read; lia).
  change 56 with (4 + (4 + (16 + 32))).
  rewrite !read_split by lia.
  change (0 + 4) with 4. change (4 + 4) with 8. change (8 + 16) with 24.
  rewrite H0, H4, H8, H24.
  rewrite <- E6 at 1. rewrite <- E4 at 1.
  rewrite !encode_decode_4.
  - reflexivity.
  - apply length_read; lia.
  - unfold read. apply Forall_take, Forall_drop, Hbytes.
  - apply length_read; lia.
  - unfold read. apply Forall_take, Forall_drop, Hbytes.
Qed.

(** X21: [mbedtls_lms_export_public_key] returns 0 exactly when the
    buffer has the length of a public key of the context's type and the
    context holds a key.  A shorter buffer is answered with
    [BufferTooSmall], also on a context without a key; every error leaves
    the buffer as it was and stores no length, and is [BufferTooSmall] or
    [BadInput]. *)
Theorem export_public_key_errors ctx key :
  let r := mbedtls_lms_export_public_key ctx key in
  (fst (fst r) = 0 <->
   MBEDTLS_LMS_PUBLIC_KEY_LEN (type (params ctx)) <= Z.of_nat (length key)
   /\ have_public_key ctx = true)
  /\ (Z.of_nat (length key) < MBEDTLS_LMS_PUBLIC_KEY_LEN (type (params ctx)) ->
      fst (fst r) = MBEDTLS_ERR_LMS_BUFFER_TOO_SMALL)
  /\ (fst (fst r) <> 0 ->
      snd (fst r) = key /\ snd r = None
      /\ (fst (fst r) = MBEDTLS_ERR_LMS_BUFFER_TOO_SMALL
          \/ fst (fst r) = MBEDTLS_ERR_LMS_BAD_INPUT_DATA)).
Proof using.
  cbv zeta. unfold mbedtls_lms_export_public_key.
  destruct (Z.ltb_spec (Z.of_nat (length key))
              (MBEDTLS_LMS_PUBLIC_KEY_LEN (type (params ctx)))) as [Hlt|Hge].
  - cbn [fst snd]. split; [|split].
    + split; [discriminate|]. intros [Hle _]. lia.
    + reflexivity.
    + intros _. auto.
  - destruct (have_public_key ctx); cbn [negb fst snd].
    + split; [|split].
      * split; [auto|reflexivity].
      * intros Hlt. lia.
      * intros E. contradiction.
    + split; [|split].
      * split; [discriminate|]. intros [_ E]. discriminate.
      * intros Hlt. lia.
      * intros _. auto.
Qed.

End PublicKeyCodec.

(** ** Further properties of verification *)

Section VerifyMore.
Context `{LmsHeader} `{PsaHash} {P_rng : Type} `{Lmots P_rng}.


(** X5: the return code of [mbedtls_lms_verify] is 0, [BadInput],
    [VerifyFailed] or the code the OTS candidate function returned for
    the OTS part of the signature; the codes of the node hasher never
    reach the caller. *)
Theorem verify_return_codes ctx msg sig Kc Tc :
  let r := mbedtls_lms_verify ctx msg sig Kc Tc in
  r = 0 \/ r = MBEDTLS_ERR_LMS_BAD_INPUT_DATA
  \/ r = MBEDTLS_ERR_LMS_VERIFY_FAILED
  \/ exists ots_params,
       r = fst (mbedtls_lmots_calculate_public_key_candidate ots_params msg
                  (read sig 4 (MBEDTLS_LMOTS_SIG_LEN (otstype (params ctx))))
                  32).
Proof.
  cbv zeta. unfold mbedtls_lms_verify.
  destruct (negb (have_public_key ctx)); [tauto|].
  destruct (negb (_ =? _)); [tauto|].
  destruct (negb (_ =? _)); [tauto|].
  destruct (negb (_ =? _)); [tauto|].
  destruct (negb (_ =? _)); [tauto|].
  destruct (negb (_ =? _)); [tauto|].
  destruct (_ >=? _); [tauto|].
  match goal with
  | |- context [mbedtls_lmots_calculate_public_key_candidate ?p ?m ?s ?n] =>
      pose (ots_params := p);
      destruct (mbedtls_lmots_calculate_public_key_candidate p m s n)
        as [ret K] eqn:Hcand
  end.
  destruct (negb (ret =? 0)).
  - do 3 right. exists ots_params.
    transitivity (fst (ret, K)); [reflexivity|].
    rewrite <- Hcand. reflexivity.
  - destruct (create_merkle_leaf_value _ _ _ _) as [ret' Tc'].
    destruct (negb (memcmp_eq _ _ _)); tauto.
Qed.

(** X6: with a hash backend that does not fail and an OTS candidate
    function that stores its 32 bytes, the answer of [mbedtls_lms_verify]
    does not depend on what its two local arrays held when the function
    was entered. *)
Theorem verify_ignores_local_contents ctx msg sig Kc Tc Kc' Tc' :
  rfc8554_header -> psa_contract -> psa_never_fails ->
  lmots_candidate_length ->
  length Kc = 32%nat -> length Tc = 32%nat ->
  length Kc' = 32%nat -> length Tc' = 32%nat ->
  mbedtls_lms_verify ctx msg sig Kc Tc = mbedtls_lms_verify ctx msg sig Kc' Tc'.
Proof.
  intros Hhdr Hpsa Hnf Hcl HKc HTc HKc' HTc'.
  pose proof Hhdr as (_ & Hm & _).
  unfold mbedtls_lms_verify.
  destruct (negb (have_public_key ctx)); [reflexivity|].
  destruct (negb (_ =? _)); [reflexivity|].
  destruct (Z.eqb_spec (type (params ctx)) MBEDTLS_LMS_SHA256_M32_H10)
    as [Hty|]; cbn [negb]; [|reflexivity].
  destruct (negb (_ =? _)); [reflexivity|].
  destruct (negb (_ =? _)); [reflexivity|].
  destruct (negb (_ =? _)); [reflexivity|].
  destruct (_ >=? _); [reflexivity|].
  match goal with
  | |- context [mbedtls_lmots_calculate_public_key_candidate ?p ?m ?s ?n] =>
      pose proof (Hcl p m s n) as HK;
      destruct (mbedtls_lmots_calculate_public_key_candidate p m s n)
        as [ret K]
  end.
  cbn [fst snd] in HK.
  destruct (Z.eqb_spec ret 0) as [->|]; cbn [negb]; [|reflexivity].
  specialize (HK eq_refl).
  rewrite (write_all Kc K), (write_all Kc' K) by lia.
  match goal with
  | |- context [create_merkle_leaf_value ?p ?k ?r Tc] =>
      destruct (create_merkle_leaf_value_spec p k r Tc Hpsa) as (Hv & _ & Hz);
      destruct (create_merkle_leaf_value_spec p k r Tc' Hpsa)
        as (Hv' & _ & Hz');
      destruct (create_merkle_leaf_value p k r Tc) as [r1 out1];
      destruct (create_merkle_leaf_value p k r Tc') as [r2 out2]
  end.
  cbn [fst snd] in *. rewrite Hty, Hm in Hz, Hz'.
  specialize (Hv (Hz Hnf ltac:(lia))). specialize (Hv' (Hz' Hnf ltac:(lia))).
  destruct Hpsa as (Hdl & _).
  rewrite write_all in Hv by (unfold leaf_hash; rewrite Hdl; lia).
  rewrite write_all in Hv' by (unfold leaf_hash; rewrite Hdl; lia).
  subst out1 out2. reflexivity.
Qed.


(** X20: an answer 0 of [mbedtls_lms_verify] means that every check was
    passed: the context holds a key for the supported pair, the signature
    has exactly 1464 bytes, its OTS type field is 4, its LMS type field
    is 6, its leaf index is below 1024, and the OTS candidate function
    returned 0 on its OTS part. *)
Theorem verify_accept_entails ctx msg sig Kc Tc :
  rfc8554_header ->
  mbedtls_lms_verify ctx msg sig Kc Tc = 0 ->
  have_public_key ctx = true
  /\ Z.of_nat (length sig) = 1464
  /\ type (params ctx) = MBEDTLS_LMS_SHA256_M32_H10
  /\ otstype (params ctx) = MBEDTLS_LMOTS_SHA256_N32_W8
  /\ mbedtls_lms_network_bytes_to_unsigned_int 4
       (read sig (4 + MBEDTLS_LMOTS_SIG_TYPE_OFFSET) 4)
     = MBEDTLS_LMOTS_SHA256_N32_W8
  /\ mbedtls_lms_network_bytes_to_unsigned_int 4 (read sig 1140 4)
     = MBEDTLS_LMS_SHA256_M32_H10
  /\ mbedtls_lms_network_bytes_to_unsigned_int 4 (read sig 0 4) < 1024
  /\ fst (mbedtls_lmots_calculate_public_key_candidate
            {| lmots_I_key_identifier :=
                 read (I_key_identifier (params ctx)) 0 16;
               lmots_q_leaf_identifier :=
                 mbedtls_lms_unsigned_int_to_network_bytes
                   (mbedtls_lms_network_bytes_to_unsigned_int 4
                      (read sig 0 4)) 4;
               lmots_type := MBEDTLS_LMOTS_SHA256_N32_W8 |}
            msg (read sig 4 1136) 32) = 0.
Proof.
  intros Hhdr. pose proof Hhdr as (_ & _ & _ & Hs & _).
  unfold mbedtls_lms_verify.
  destruct (have_public_key ctx); cbn [negb]; [|discriminate].
  destruct (Z.eqb_spec (Z.of_nat (length sig))
              (MBEDTLS_LMS_SIG_LEN (type (params ctx)) (otstype (params ctx))))
    as [Hlen|]; cbn [negb]; [|discriminate].
  destruct (Z.eqb_spec (type (params ctx)) MBEDTLS_LMS_SHA256_M32_H10)
    as [Hty|]; cbn [negb]; [|discriminate].
  destruct (Z.eqb_spec (otstype (params ctx)) MBEDTLS_LMOTS_SHA256_N32_W8)
    as [Hots|]; cbn [negb]; [|discriminate].
  rewrite Hty, Hots, (sig_len_supported Hhdr) in Hlen.
  rewrite Hty, Hots, (sig_type_offset_supported Hhdr),
    (leaf_node_am_supported Hhdr), Hs.
  change (Z.to_nat MBEDTLS_LMOTS_TYPE_LEN) with 4%nat.
  change (Z.to_nat MBEDTLS_LMS_TYPE_LEN) with 4%nat.
  change (Z.to_nat MBEDTLS_LMOTS_Q_LEAF_ID_LEN) with 4%nat.
  change SIG_OTS_SIG_OFFSET with 4. change SIG_Q_LEAF_ID_OFFSET with 0.
  change MBEDTLS_LMOTS_I_KEY_ID_LEN with 16.
  change MBEDTLS_LMOTS_N_HASH_LEN_MAX with 32.
  rewrite !decode_ptr_add.
  destruct (Z.eqb_spec
    (mbedtls_lms_network_bytes_to_unsigned_int 4
       (read sig (4 + MBEDTLS_LMOTS_SIG_TYPE_OFFSET) 4))
    MBEDTLS_LMOTS_SHA256_N32_W8) as [E1|]; cbn [negb]; [|discriminate].
  destruct (Z.eqb_spec
    (mbedtls_lms_network_bytes_to_unsigned_int 4 (read sig 1140 4))
    MBEDTLS_LMS_SHA256_M32_H10) as [E2|]; cbn [negb]; [|discriminate].
  destruct (Z.geb_spec
    (mbedtls_lms_network_bytes_to_unsigned_int 4 (read sig 0 4)) 1024)
    as [|E3]; [discriminate|].
  destruct (mbedtls_lmots_calculate_public_key_candidate _ _ _ _)
    as [ret K].
  destruct (Z.eqb_spec ret 0) as [->|Hne]; cbn [negb];
    [|intros E; contradiction].
  intros _. repeat split; assumption || reflexivity.
Qed.

End VerifyMore.

(** X1 on a context of the tests and a buffer of 60 bytes. *)
Lemma export_public_key_layout_test_context :
  let out :=
    snd (fst (@mbedtls_lms_export_public_key lms_h
                (test_public (replicate 32 7)) (replicate 60 9))) in
  read out 0 4 = [0; 0; 0; 6]
  /\ read out 24 32 = replicate 32 7
  /\ drop 56 out = [9; 9; 9; 9].
Proof.
  intros out.
  pose proof (@export_public_key_layout lms_h lms_h_rfc8554
                (test_public (replicate 32 7)) (replicate 60 9)
                eq_refl eq_refl) as Hthm.
  destruct Hthm as (_ & _ & _ & H0 & _ & _ & H24 & Htail);
    [split; reflexivity|vm_compute; discriminate|].
  split; [exact H0|split; [exact H24|exact Htail]].
Defined.

(** X2 on a fresh context and a key of 56 zero bytes. *)
Lemma import_public_key_long_key_outcome_zero_key :
  exists ret ctx',
    @mbedtls_lms_import_public_key lms_h mbedtls_lms_init_public
      (replicate 56 0) = Some (ret, ctx')
    /\ (ret = 0 \/ ret = MBEDTLS_ERR_LMS_BAD_INPUT_DATA).
Proof.
  destruct (@import_public_key_long_key_outcome lms_h lms_h_rfc8554
              mbedtls_lms_init_public (replicate 56 0))
    as (ret & ctx' & Himp & Hret & _); [vm_compute; discriminate|].
  exists ret, ctx'. split; [exact Himp|exact Hret].
Defined.

(** X3 on a fresh context and a key with both type fields right. *)
Lemma import_public_key_accepts_fresh :
  @mbedtls_lms_import_public_key lms_h mbedtls_lms_init_public
    ([0; 0; 0; 6; 0; 0; 0; 4] ++ replicate 16 1 ++ replicate 32 2)
  = Some (0,
          {| params :=
               {| I_key_identifier := replicate 16 1;
                  otstype := MBEDTLS_LMOTS_SHA256_N32_W8;
                  type := MBEDTLS_LMS_SHA256_M32_H10 |};
             T_1_pub_key := replicate 32 2;
             have_public_key := true |}).
Proof.
  apply (@import_public_key_accepts lms_h lms_h_rfc8554
           mbedtls_lms_init_public
           ([0; 0; 0; 6; 0; 0; 0; 4] ++ replicate 16 1 ++ replicate 32 2));
    [split; reflexivity|vm_compute; discriminate|reflexivity|reflexivity].
Defined.

(** X4 on that key. *)
Lemma import_export_round_trip_fresh :
  let key := [0; 0; 0; 6; 0; 0; 0; 4] ++ replicate 16 1 ++ replicate 32 2 in
  let ctx' :=
    {| params :=
         {| I_key_identifier := replicate 16 1;
            otstype := MBEDTLS_LMOTS_SHA256_N32_W8;
            type := MBEDTLS_LMS_SHA256_M32_H10 |};
       T_1_pub_key := replicate 32 2;
       have_public_key := true |} in
  read (snd (fst (@mbedtls_lms_export_public_key lms_h ctx' (replicate 56 0))))
    0 56
  = read key 0 56.
Proof.
  intros key ctx'.
  apply (@import_export_round_trip lms_h lms_h_rfc8554
           mbedtls_lms_init_public key ctx' (replicate 56 0)).
  - split; reflexivity.
  - unfold key. apply Forall_app. split; [repeat constructor; lia|].
    apply Forall_app. split; apply Forall_replicate; lia.
  - vm_compute. discriminate.
  - vm_compute. reflexivity.
Defined.

Lemma test_lmots_candidate_length :
  @lmots_candidate_length unit test_lmots.
Proof. intros params msg sig size _. reflexivity. Qed.

(** X6 on a signature of the tests, from locals of zero bytes and from
    locals of 255s. *)
Lemma verify_ignores_local_contents_test_signature :
  @mbedtls_lms_verify lms_h test_psa unit test_lmots
    (test_public (replicate 32 7)) [] (test_sig 0 4)
    (replicate 32 0) (replicate 32 0)
  = @mbedtls_lms_verify lms_h test_psa unit test_lmots
      (test_public (replicate 32 7)) [] (test_sig 0 4)
      (replicate 32 255) (replicate 32 255).
Proof.
  apply (@verify_ignores_local_contents lms_h test_psa unit test_lmots
           (test_public (replicate 32 7)) [] (test_sig 0 4)
           (replicate 32 0) (replicate 32 0)
           (replicate 32 255) (replicate 32 255)
           lms_h_rfc8554 test_psa_contract test_psa_never_fails
           test_lmots_candidate_length); reflexivity.
Defined.


(** X20 on the signature of the tests that is accepted under the root of
    7s. *)
Lemma verify_accept_entails_test_signature :
  Z.of_nat (length (test_sig 0 4)) = 1464
  /\ mbedtls_lms_network_bytes_to_unsigned_int 4 (read (test_sig 0 4) 0 4)
     < 1024.
Proof.
  destruct (@verify_accept_entails lms_h test_psa unit test_lmots
              (test_public (replicate 32 7)) [] (test_sig 0 4)
              (replicate 32 0) (replicate 32 0) lms_h_rfc8554)
    as (_ & Hlen & _ & _ & _ & _ & Hq & _); [vm_compute; reflexivity|].
  split; [exact Hlen|exact Hq].
Defined.

(** ** Further properties of signing *)

Section SignMore.
Context `{LmsHeader} `{PsaHash} {P_rng : Type} `{Lmots P_rng}.

(** What no call of [mbedtls_lms_sign] touches. *)
Lemma sign_context_parts ctx f_rng p_rng msg sig tree :
  priv_params (sign_ctx (mbedtls_lms_sign ctx f_rng p_rng msg sig tree))
  = priv_params ctx
  /\ have_private_key (sign_ctx (mbedtls_lms_sign ctx f_rng p_rng msg sig tree))
     = have_private_key ctx
  /\ ots_public_keys (sign_ctx (mbedtls_lms_sign ctx f_rng p_rng msg sig tree))
     = ots_public_keys ctx.
Proof.
  unfold mbedtls_lms_sign.
  destruct (negb (have_private_key ctx)); [cbn; auto|].
  destruct (_ <? _); [cbn; auto|].
  destruct (negb (_ =? _)); [cbn; auto|].
  destruct (negb (_ =? _)); [cbn; auto|].
  destruct (_ >=? _); [cbn; auto|].
  destruct (mbedtls_lmots_sign _ _ _ _ _) as [[[ret sk] p'] ots_sig].
  destruct (negb (ret =? 0)); [cbn; auto|].
  destruct (get_merkle_path _ _ _ _) as [ret' path].
  destruct (negb (ret' =? 0)); cbn; auto.
Qed.

(** [mbedtls_lms_sign] calls neither [mbedtls_calloc] nor [mbedtls_free]. *)
Lemma sign_context_blocks ctx f_rng p_rng msg sig tree :
  ots_private_keys_block
    (sign_ctx (mbedtls_lms_sign ctx f_rng p_rng msg sig tree))
  = ots_private_keys_block ctx
  /\ ots_public_keys_block
       (sign_ctx (mbedtls_lms_sign ctx f_rng p_rng msg sig tree))
     = ots_public_keys_block ctx.
Proof.
  unfold mbedtls_lms_sign.
  destruct (negb (have_private_key ctx)); [cbn; auto|].
  destruct (_ <? _); [cbn; auto|].
  destruct (negb (_ =? _)); [cbn; auto|].
  destruct (negb (_ =? _)); [cbn; auto|].
  destruct (_ >=? _); [cbn; auto|].
  destruct (mbedtls_lmots_sign _ _ _ _ _) as [[[ret sk] p'] ots_sig].
  destruct (negb (ret =? 0)); [cbn; auto|].
  destruct (get_merkle_path _ _ _ _) as [ret' path].
  destruct (negb (ret' =? 0)); cbn; auto.
Qed.

(** X8: a call of [mbedtls_lms_sign] that one of the entry checks turns
    away returns [BadInput], [BufferTooSmall] or [OutOfPrivateKeys] and
    changes nothing: the context, the signature buffer and the RNG state
    are as before and no length is stored.  A context without a key gets
    [BadInput], and [OutOfPrivateKeys] is the answer only when the key,
    the buffer size and the parameter pair have passed. *)
Theorem sign_rejected_at_entry ctx f_rng p_rng msg sig tree :
  have_private_key ctx = false
  \/ Z.of_nat (length sig)
     < MBEDTLS_LMS_SIG_LEN (type (priv_params ctx)) (otstype (priv_params ctx))
  \/ type (priv_params ctx) <> MBEDTLS_LMS_SHA256_M32_H10
  \/ otstype (priv_params ctx) <> MBEDTLS_LMOTS_SHA256_N32_W8
  \/ MERKLE_TREE_LEAF_NODE_AM (type (priv_params ctx)) <= q_next_usable_key ctx ->
  let r := mbedtls_lms_sign ctx f_rng p_rng msg sig tree in
  (sign_ret r = MBEDTLS_ERR_LMS_BAD_INPUT_DATA
   \/ sign_ret r = MBEDTLS_ERR_LMS_BUFFER_TOO_SMALL
   \/ sign_ret r = MBEDTLS_ERR_LMS_OUT_OF_PRIVATE_KEYS)
  /\ (have_private_key ctx = false ->
      sign_ret r = MBEDTLS_ERR_LMS_BAD_INPUT_DATA)
  /\ (sign_ret r = MBEDTLS_ERR_LMS_OUT_OF_PRIVATE_KEYS ->
      have_private_key ctx = true
      /\ MBEDTLS_LMS_SIG_LEN (type (priv_params ctx))
           (otstype (priv_params ctx)) <= Z.of_nat (length sig)
      /\ type (priv_params ctx) = MBEDTLS_LMS_SHA256_M32_H10
      /\ otstype (priv_params ctx) = MBEDTLS_LMOTS_SHA256_N32_W8)
  /\ sign_ctx r = ctx /\ sign_sig r = sig /\ sign_rng r = p_rng
  /\ sign_sig_len r = None.
Proof.
  intros Hrej. unfold mbedtls_lms_sign.
  destruct (have_private_key ctx) eqn:Hhave; cbn [negb];
    [|cbn; repeat split; auto; discriminate].
  destruct (Z.ltb_spec (Z.of_nat (length sig))
              (MBEDTLS_LMS_SIG_LEN (type (priv_params ctx))
                 (otstype (priv_params ctx))));
    [cbn; repeat split; auto; discriminate|].
  destruct (Z.eqb_spec (type (priv_params ctx)) MBEDTLS_LMS_SHA256_M32_H10);
    cbn [negb]; [|cbn; repeat split; auto; discriminate].
  destruct (Z.eqb_spec (otstype (priv_params ctx)) MBEDTLS_LMOTS_SHA256_N32_W8);
    cbn [negb]; [|cbn; repeat split; auto; discriminate].
  destruct (Z.geb_spec (q_next_usable_key ctx)
              (MERKLE_TREE_LEAF_NODE_AM (type (priv_params ctx))));
    [cbn; repeat split; auto; discriminate|].
  exfalso. destruct Hrej as [Hr|[Hr|[Hr|[Hr|Hr]]]]; try congruence; lia.
Qed.

(** X9: whatever a call of [mbedtls_lms_sign] returns, it leaves the
    parameters, [have_private_key] and the OTS public keys of the context
    as they were, keeps the number of OTS private keys, and changes no
    OTS private key but the one of the leaf it was entered with; the
    counter is as before or one higher. *)
Theorem sign_context_frame ctx f_rng p_rng msg sig tree :
  let r := mbedtls_lms_sign ctx f_rng p_rng msg sig tree in
  priv_params (sign_ctx r) = priv_params ctx
  /\ have_private_key (sign_ctx r) = have_private_key ctx
  /\ ots_public_keys (sign_ctx r) = ots_public_keys ctx
  /\ length (ots_private_keys (sign_ctx r)) = length (ots_private_keys ctx)
  /\ (forall i, i <> Z.to_nat (q_next_usable_key ctx) ->
      ots_private_keys (sign_ctx r) !! i = ots_private_keys ctx !! i)
  /\ (q_next_usable_key (sign_ctx r) = q_next_usable_key ctx
      \/ q_next_usable_key (sign_ctx r) = u32 (q_next_usable_key ctx + 1)).
Proof.
  cbv zeta. unfold mbedtls_lms_sign.
  destruct (negb (have_private_key ctx)); [cbn; repeat split; auto|].
  destruct (_ <? _); [cbn; repeat split; auto|].
  destruct (negb (_ =? _)); [cbn; repeat split; auto|].
  destruct (negb (_ =? _)); [cbn; repeat split; auto|].
  destruct (_ >=? _); [cbn; repeat split; auto|].
  destruct (mbedtls_lmots_sign _ _ _ _ _) as [[[ret sk] p'] ots_sig].
  assert (Hframe :
    forall c, c = set_ots_private_keys
                    (set_q_next_usable_key ctx (u32 (q_next_usable_key ctx + 1)))
                    (<[Z.to_nat (q_next_usable_key ctx) := sk]>
                       (ots_private_keys ctx)) ->
    priv_params c = priv_params ctx
    /\ have_private_key c = have_private_key ctx
    /\ ots_public_keys c = ots_public_keys ctx
    /\ length (ots_private_keys c) = length (ots_private_keys ctx)
    /\ (forall i, i <> Z.to_nat (q_next_usable_key ctx) ->
        ots_private_keys c !! i = ots_private_keys ctx !! i)
    /\ (q_next_usable_key c = q_next_usable_key ctx
        \/ q_next_usable_key c = u32 (q_next_usable_key ctx + 1))).
  { intros c ->. cbn. repeat split.
    - apply length_insert.
    - intros i Hi. apply list_lookup_insert_ne. congruence.
    - right. reflexivity. }
  destruct (negb (ret =? 0)); [apply Hframe; reflexivity|].
  destruct (get_merkle_path _ _ _ _) as [ret' path].
  destruct (negb (ret' =? 0)); apply Hframe; reflexivity.
Qed.

(** X10: a call of [mbedtls_lms_sign] that has passed the entry checks
    returns the code of the OTS signer when that is not 0, and otherwise
    the code of the tree build; it stores the length 1464 exactly when it
    returns 0; the counter is one higher and the RNG state is the one the
    OTS signer left, whatever the call returns. *)
Theorem sign_outcome ctx f_rng p_rng msg sig tree :
  rfc8554_header ->
  have_private_key ctx = true ->
  type (priv_params ctx) = MBEDTLS_LMS_SHA256_M32_H10 ->
  otstype (priv_params ctx) = MBEDTLS_LMOTS_SHA256_N32_W8 ->
  1464 <= Z.of_nat (length sig) ->
  0 <= q_next_usable_key ctx < 1024 ->
  let ots :=
    mbedtls_lmots_sign
      (nth (Z.to_nat (q_next_usable_key ctx)) (ots_private_keys ctx)
         mbedtls_lmots_init_private)
      f_rng p_rng msg 1464 in
  let r := mbedtls_lms_sign ctx f_rng p_rng msg sig tree in
  sign_ret r
  = (if fst (fst (fst ots)) =? 0
     then fst (calculate_merkle_tree ctx tree)
     else fst (fst (fst ots)))
  /\ sign_sig_len r = (if sign_ret r =? 0 then Some 1464 else None)
  /\ q_next_usable_key (sign_ctx r) = q_next_usable_key ctx + 1
  /\ sign_rng r = snd (fst ots).
Proof.
  intros Hhdr Hhave Hty Hots Hlen Hq ots r. subst r ots.
  rewrite sign_unfold by assumption. cbv zeta.
  destruct (mbedtls_lmots_sign _ _ _ _ _) as [[[ret sk] p'] osig].
  cbn [fst snd].
  destruct (Z.eqb_spec ret 0) as [->|Hne]; cbn [negb].
  - set (ctx1 := set_ots_private_keys _ _).
    unfold get_merkle_path.
    rewrite (calculate_merkle_tree_ext ctx1 ctx tree eq_refl eq_refl).
    destruct (calculate_merkle_tree ctx tree) as [ret' tree'].
    cbn [fst snd].
    destruct (Z.eqb_spec ret' 0) as [->|Hne']; cbn [negb fst snd].
    + repeat split.
    + cbn [sign_ret sign_sig_len sign_ctx sign_rng q_next_usable_key
           set_ots_private_keys set_q_next_usable_key].
      destruct (Z.eqb_spec ret' 0); [contradiction|]. cbn [negb].
      cbn [sign_ret sign_sig_len sign_ctx sign_rng q_next_usable_key
           set_ots_private_keys set_q_next_usable_key].
      destruct (Z.eqb_spec ret' 0); [contradiction|]. repeat split.
  - cbn [sign_ret sign_sig_len sign_ctx sign_rng q_next_usable_key
         set_ots_private_keys set_q_next_usable_key].
    destruct (Z.eqb_spec ret 0); [contradiction|]. repeat split.
Qed.

End SignMore.

(** ** Further properties of a run of calls *)

Section RunMore.
Context `{LmsHeader} `{PsaHash} `{Platform} {P_rng : Type} `{Lmots P_rng}.
Hypothesis Hhdr : rfc8554_header.

Lemma signed_leaves_from ops st :
  counter_inv (fst st) ->
  StronglySorted Z.lt (signed_leaves ops st)
  /\ Forall (fun q => q_next_usable_key (fst st) <= q < 1024)
       (signed_leaves ops st)
  /\ Z.of_nat (length (signed_leaves ops st))
     <= 1024 - q_next_usable_key (fst st).
Proof using Hhdr.
  revert st. induction ops as [|op ops IH]; intros st Hinv.
  - cbn. destruct Hinv as (Hq & _).
    split; [constructor|split; [constructor|lia]].
  - destruct (run_op_counter st op Hhdr Hinv) as [Hinv' Hle].
    destruct (IH _ Hinv') as (Hs & Hf & Hl).
    assert (Hrest :
      StronglySorted Z.lt (signed_leaves ops (run_op st op))
      /\ Forall (fun q => q_next_usable_key (fst st) <= q < 1024)
           (signed_leaves ops (run_op st op))
      /\ Z.of_nat (length (signed_leaves ops (run_op st op)))
         <= 1024 - q_next_usable_key (fst st)).
    { split; [exact Hs|split; [|lia]].
      eapply Forall_impl; [exact Hf|]. cbn. intros q Hq. lia. }
    cbn [signed_leaves]. cbv zeta.
    destruct op as [t o f seed|f msg sig tree|pub tree];
      [exact Hrest| |exact Hrest].
    destruct (Z.eqb_spec
                (sign_ret (mbedtls_lms_sign (fst st) f (snd st) msg sig tree))
                0) as [Hret|]; [|exact Hrest].
    destruct (sign_success_entry _ _ _ _ _ _ Hhdr Hret)
      as (Hhave & Hty & Hots & Hlen & Hq).
    destruct (sign_accepted (fst st) f (snd st) msg sig tree Hhave)
      as (Hq' & _); try assumption.
    { rewrite Hty, Hots, (sig_len_supported Hhdr). exact Hlen. }
    { rewrite Hty, (leaf_node_am_supported Hhdr). exact Hq. }
    destruct Hinv as (Hq0 & _).
    rewrite u32_small in Hq' by lia.
    assert (Hq'' : q_next_usable_key
                     (fst (run_op st (op_sign f msg sig tree)))
                   = q_next_usable_key (fst st) + 1) by exact Hq'.
    rewrite Hq'' in Hf, Hl.
    split; [|split].
    + constructor; [exact Hs|].
      eapply Forall_impl; [exact Hf|]. cbn. intros q Hqq. lia.
    + constructor; [lia|].
      eapply Forall_impl; [exact Hf|]. cbn. intros q Hqq. lia.
    + cbn [length]. lia.
Qed.

(** X11: over any run of calls on a context since
    [mbedtls_lms_init_private], the leaf indices of the calls of
    [mbedtls_lms_sign] that returned 0 are strictly increasing in call
    order and lie in 0..1023: no leaf is handed out twice, and at most
    1024 signatures are issued. *)
Theorem signed_leaves_increasing ops p_rng :
  StronglySorted Z.lt (signed_leaves ops (mbedtls_lms_init_private, p_rng))
  /\ Forall (fun q => 0 <= q < 1024)
       (signed_leaves ops (mbedtls_lms_init_private, p_rng))
  /\ (length (signed_leaves ops (mbedtls_lms_init_private, p_rng)) <= 1024)%nat.
Proof using Hhdr.
  destruct (signed_leaves_from ops (mbedtls_lms_init_private, p_rng)
              counter_inv_init) as (Hs & Hf & Hl).
  cbn [fst mbedtls_lms_init_private q_next_usable_key] in Hf, Hl.
  split; [exact Hs|split; [exact Hf|lia]].
Qed.

Lemma run_op_public_part st op :
  counter_inv (fst st) -> have_private_key (fst st) = true ->
  have_private_key (fst (run_op st op)) = true
  /\ priv_params (fst (run_op st op)) = priv_params (fst st)
  /\ ots_public_keys (fst (run_op st op)) = ots_public_keys (fst st).
Proof using Hhdr.
  intros Hinv Hhave.
  destruct op as [t o f seed|f msg sig tree|pub tree]; cbn [run_op].
  - unfold mbedtls_lms_generate_private_key. rewrite Hhave.
    destruct (negb (t =? _)); [cbn; auto|].
    destruct (negb (o =? _)); cbn; auto.
  - cbn [fst].
    destruct (sign_context_parts (fst st) f (snd st) msg sig tree)
      as (Hp & Hh & Hk).
    rewrite Hp, Hh, Hk. auto.
  - auto.
Qed.

Lemma fold_run_op_public_part ops st :
  counter_inv (fst st) -> have_private_key (fst st) = true ->
  have_private_key (fst (fold_left run_op ops st)) = true
  /\ priv_params (fst (fold_left run_op ops st)) = priv_params (fst st)
  /\ ots_public_keys (fst (fold_left run_op ops st))
     = ots_public_keys (fst st).
Proof using Hhdr.
  revert st. induction ops as [|op ops IH]; intros st Hinv Hhave; cbn.
  - auto.
  - destruct (run_op_public_part st op Hinv Hhave) as (Hh & Hp & Hk).
    destruct (run_op_counter st op Hhdr Hinv) as [Hinv' _].
    destruct (IH _ Hinv' Hh) as (Hh' & Hp' & Hk').
    rewrite Hp', Hk'. auto.
Qed.

(** X12: once a context holds a private key, no later call of
    [mbedtls_lms_generate_private_key], [mbedtls_lms_sign] or
    [mbedtls_lms_calculate_public_key] changes its parameters or its OTS
    public keys, so [mbedtls_lms_calculate_public_key] gives the same
    answer and the same public context before and after them. *)
Theorem public_key_stable ops1 ops2 p_rng pub tree :
  have_private_key (fst (run_ops ops1 p_rng)) = true ->
  let ctx1 := fst (run_ops ops1 p_rng) in
  let ctx2 := fst (run_ops (ops1 ++ ops2) p_rng) in
  have_private_key ctx2 = true
  /\ priv_params ctx2 = priv_params ctx1
  /\ ots_public_keys ctx2 = ots_public_keys ctx1
  /\ mbedtls_lms_calculate_public_key pub ctx2 tree
     = mbedtls_lms_calculate_public_key pub ctx1 tree.
Proof using Hhdr.
  intros Hhave ctx1 ctx2. subst ctx1 ctx2. unfold run_ops in *.
  rewrite fold_left_app.
  set (st := fold_left run_op ops1 (mbedtls_lms_init_private, p_rng)) in *.
  assert (Hinv : counter_inv (fst st)).
  { apply fold_run_op_counter; [exact Hhdr|apply counter_inv_init]. }
  destruct (fold_run_op_public_part ops2 st Hinv Hhave) as (Hh & Hp & Hk).
  split; [exact Hh|split; [exact Hp|split; [exact Hk|]]].
  unfold mbedtls_lms_calculate_public_key.
  rewrite Hh, Hhave, Hp.
  rewrite (calculate_merkle_tree_ext _ (fst st) tree Hp Hk). reflexivity.
Qed.

End RunMore.

(** ** Further properties of key generation *)

Section GenerateMore.
Context `{LmsHeader} `{PsaHash} `{Platform} {P_rng : Type} `{Lmots P_rng}.
Hypothesis Hhdr : rfc8554_header.

(** X13: a call of [mbedtls_lms_generate_private_key] that returns 0 was
    made for the supported pair on a context without a key, and leaves a
    context with [have_private_key] set, the counter at 0, the pair
    stored, the RNG's bytes over the identifier, and 1024 OTS slots, slot
    [i] holding the private key generated for leaf [i] under that
    identifier and the caller's seed, with the public key computed from
    it. *)
Theorem generate_private_key_success ctx type_ otstype_ f_rng p_rng seed :
  let r :=
    mbedtls_lms_generate_private_key ctx type_ otstype_ f_rng p_rng seed in
  let ctx' := snd (fst r) in
  let drawn := f_rng p_rng MBEDTLS_LMOTS_I_KEY_ID_LEN in
  fst (fst r) = 0 ->
  have_private_key ctx = false
  /\ type_ = MBEDTLS_LMS_SHA256_M32_H10
  /\ otstype_ = MBEDTLS_LMOTS_SHA256_N32_W8
  /\ have_private_key ctx' = true
  /\ q_next_usable_key ctx' = 0
  /\ type (priv_params ctx') = MBEDTLS_LMS_SHA256_M32_H10
  /\ otstype (priv_params ctx') = MBEDTLS_LMOTS_SHA256_N32_W8
  /\ I_key_identifier (priv_params ctx')
     = write (I_key_identifier (priv_params ctx)) 0
         (read (snd (fst drawn)) 0 16)
  /\ snd r = snd drawn
  /\ length (ots_private_keys ctx') = 1024%nat
  /\ length (ots_public_keys ctx') = 1024%nat
  /\ forall i, 0 <= i < 1024 ->
       mbedtls_lmots_generate_private_key mbedtls_lmots_init_private
         MBEDTLS_LMOTS_SHA256_N32_W8
         (read (I_key_identifier (priv_params ctx')) 0 16) i seed
       = (0, nth (Z.to_nat i) (ots_private_keys ctx')
               mbedtls_lmots_init_private)
       /\ mbedtls_lmots_calculate_public_key mbedtls_lmots_init_public
            (nth (Z.to_nat i) (ots_private_keys ctx')
               mbedtls_lmots_init_private)
          = (0, nth (Z.to_nat i) (ots_public_keys ctx')
                  mbedtls_lmots_init_public).
Proof using Hhdr.
  cbv zeta. unfold mbedtls_lms_generate_private_key.
  destruct (Z.eqb_spec type_ MBEDTLS_LMS_SHA256_M32_H10) as [->|];
    cbn [negb]; [|discriminate].
  destruct (Z.eqb_spec otstype_ MBEDTLS_LMOTS_SHA256_N32_W8) as [->|];
    cbn [negb]; [|discriminate].
  destruct (have_private_key ctx) eqn:Hhave; [discriminate|].
  destruct (f_rng p_rng MBEDTLS_LMOTS_I_KEY_ID_LEN) as [[rc random] p'].
  cbn [priv_params set_priv_params set_type set_otstype set_I_key_identifier
       type otstype I_key_identifier fst snd].
  rewrite (leaf_node_am_supported Hhdr).
  destruct (mbedtls_calloc_ok 0); cbn [negb]; [|discriminate].
  destruct (mbedtls_calloc_ok 1); cbn [negb]; [|discriminate].
  cbn [ots_private_keys ots_public_keys set_ots_private_keys
       set_ots_public_keys set_ots_private_keys_block
       set_ots_public_keys_block priv_params].
  match goal with |- context [generate_ots_keys ?n ?r ?i ?o ?k ?s ?a ?b] =>
    pose proof (generate_ots_keys_ret n r i o k s a b) as Hloop;
    pose proof (generate_ots_keys_slots n r i o k s a b) as Hslots;
    destruct (generate_ots_keys n r i o k s a b) as [[[[j ret] idx] sks] pks]
  end.
  destruct j.
  - destruct (Z.eqb_spec ret 0); [contradiction|]. cbn [negb fst].
    intros E. contradiction.
  - destruct Hloop as [[Hn _] | ->]; [discriminate Hn|].
    specialize (Hslots _ _ _ _ eq_refl).
    rewrite !length_replicate in Hslots.
    destruct Hslots as (Hl1 & Hl2 & Hs & _); [lia|lia|lia|].
    cbn [negb Z.eqb snd fst]. intros _.
    cbn [priv_params set_have_private_key set_q_next_usable_key
         set_ots_public_keys set_ots_private_keys type otstype
         I_key_identifier have_private_key
         q_next_usable_key ots_private_keys ots_public_keys].
    change MBEDTLS_LMOTS_I_KEY_ID_LEN with 16 in *.
    repeat (split; [first [reflexivity|lia]|]).
    intros i Hi.
    destruct (Hs i ltac:(lia)) as (sk & Hg & Hp & Hsk).
    rewrite nth_replicate_default in Hg. rewrite nth_replicate_default in Hp.
    rewrite Hsk. split; assumption.
Qed.

(** X14: on a context whose [ots_public_keys] pointer is NULL or holds a
    live block, a call of [mbedtls_lms_generate_private_key] that returns
    an error leaves [have_private_key] and the counter as they were.  A
    call for another pair, or on a context that holds a key, returns
    [BadInput] and changes nothing; a call that passes these checks and
    fails has released both OTS arrays, each pointer being NULL or
    dangling afterwards and no block freed twice; it returns
    [AllocFailed] when the allocator refuses one of the two arrays, and
    when both were granted both pointers dangle. *)
Theorem generate_private_key_failure ctx type_ otstype_ f_rng p_rng seed :
  ots_public_keys_block ctx = block_null
  \/ ots_public_keys_block ctx = block_live ->
  let r :=
    mbedtls_lms_generate_private_key ctx type_ otstype_ f_rng p_rng seed in
  let ctx' := snd (fst r) in
  fst (fst r) <> 0 ->
  have_private_key ctx' = have_private_key ctx
  /\ q_next_usable_key ctx' = q_next_usable_key ctx
  /\ (type_ <> MBEDTLS_LMS_SHA256_M32_H10
      \/ otstype_ <> MBEDTLS_LMOTS_SHA256_N32_W8
      \/ have_private_key ctx = true ->
      r = (MBEDTLS_ERR_LMS_BAD_INPUT_DATA, ctx, p_rng))
  /\ (type_ = MBEDTLS_LMS_SHA256_M32_H10 ->
      otstype_ = MBEDTLS_LMOTS_SHA256_N32_W8 ->
      have_private_key ctx = false ->
      ots_private_keys ctx' = [] /\ ots_public_keys ctx' = []
      /\ (ots_private_keys_block ctx' = block_null
          \/ ots_private_keys_block ctx' = block_freed)
      /\ (ots_public_keys_block ctx' = block_null
          \/ ots_public_keys_block ctx' = block_freed)
      /\ (mbedtls_calloc_ok 0 = false \/ mbedtls_calloc_ok 1 = false ->
          fst (fst r) = MBEDTLS_ERR_LMS_ALLOC_FAILED)
      /\ (mbedtls_calloc_ok 0 = true -> mbedtls_calloc_ok 1 = true ->
          ots_private_keys_block ctx' = block_freed
          /\ ots_public_keys_block ctx' = block_freed)).
Proof using Hhdr.
  intros Hpub. cbv zeta. unfold mbedtls_lms_generate_private_key.
  destruct (Z.eqb_spec type_ MBEDTLS_LMS_SHA256_M32_H10) as [->|];
    cbn [negb]; [|intros _; cbn; repeat split; auto; contradiction].
  destruct (Z.eqb_spec otstype_ MBEDTLS_LMOTS_SHA256_N32_W8) as [->|];
    cbn [negb]; [|intros _; cbn; repeat split; auto; contradiction].
  destruct (have_private_key ctx) eqn:Hhave;
    [intros _; cbn; repeat split; auto; discriminate|].
  destruct (f_rng p_rng MBEDTLS_LMOTS_I_KEY_ID_LEN) as [[rc random] p'].
  cbn [priv_params set_priv_params set_type set_otstype set_I_key_identifier
       type otstype I_key_identifier fst snd].
  rewrite (leaf_node_am_supported Hhdr).
  assert (Hno : forall P : Prop,
            MBEDTLS_LMS_SHA256_M32_H10 <> MBEDTLS_LMS_SHA256_M32_H10
            \/ MBEDTLS_LMOTS_SHA256_N32_W8 <> MBEDTLS_LMOTS_SHA256_N32_W8
            \/ false = true -> P).
  { intros P [E|[E|E]]; [contradiction|contradiction|discriminate]. }
  destruct (mbedtls_calloc_ok 0) eqn:Ha0; cbn [negb].
  2: { intros _. unfold generate_exit_error. cbn. rewrite Hhave.
       split; [reflexivity|split; [reflexivity|split; [apply Hno|]]].
       intros _ _ _.
       destruct Hpub as [E|E]; rewrite E; cbn;
         repeat split; auto; intros; discriminate. }
  destruct (mbedtls_calloc_ok 1) eqn:Ha1; cbn [negb].
  2: { intros _. unfold generate_exit_error. cbn. rewrite Hhave.
       split; [reflexivity|split; [reflexivity|split; [apply Hno|]]].
       intros _ _ _. repeat split; auto; intros; discriminate. }
  cbn [ots_private_keys ots_public_keys set_ots_private_keys
       set_ots_public_keys set_ots_private_keys_block
       set_ots_public_keys_block priv_params].
  match goal with |- context [generate_ots_keys ?n ?r ?i ?o ?k ?s ?a ?b] =>
    pose proof (generate_ots_keys_ret n r i o k s a b) as Hloop;
    destruct (generate_ots_keys n r i o k s a b) as [[[[j ret] idx] sks] pks]
  end.
  destruct j.
  - destruct (Z.eqb_spec ret 0); [contradiction|]. cbn [negb fst].
    intros _. unfold generate_exit_error. cbn. rewrite Hhave.
    split; [reflexivity|split; [reflexivity|split; [apply Hno|]]].
    intros _ _ _. repeat split; auto. intros [E|E]; discriminate.
  - destruct Hloop as [[Hn _] | ->]; [discriminate Hn|].
    cbn [negb Z.eqb fst]. intros E. contradiction.
Qed.

(** X22: on a context without a key whose [ots_public_keys] pointer
    dangles (a call that failed in the key loop leaves it so), a call of
    [mbedtls_lms_generate_private_key] for the supported pair whose first
    allocation is refused returns [AllocFailed] after its [exit] path has
    handed the stale pointer to [mbedtls_free] a second time. *)
Theorem generate_private_key_frees_stale_array ctx f_rng p_rng seed :
  have_private_key ctx = false ->
  ots_public_keys_block ctx = block_freed ->
  mbedtls_calloc_ok 0 = false ->
  let r :=
    mbedtls_lms_generate_private_key ctx MBEDTLS_LMS_SHA256_M32_H10
      MBEDTLS_LMOTS_SHA256_N32_W8 f_rng p_rng seed in
  fst (fst r) = MBEDTLS_ERR_LMS_ALLOC_FAILED
  /\ ots_private_keys_block (snd (fst r)) = block_null
  /\ ots_public_keys_block (snd (fst r)) = block_freed_twice.
Proof using.
  intros Hhave Hpub Ha0. cbv zeta. unfold mbedtls_lms_generate_private_key.
  change (MBEDTLS_LMS_SHA256_M32_H10 =? MBEDTLS_LMS_SHA256_M32_H10) with true.
  change (MBEDTLS_LMOTS_SHA256_N32_W8 =? MBEDTLS_LMOTS_SHA256_N32_W8)
    with true.
  cbn [negb]. rewrite Hhave.
  destruct (f_rng p_rng MBEDTLS_LMOTS_I_KEY_ID_LEN) as [[rc random] p'].
  rewrite Ha0. cbn [negb]. unfold generate_exit_error. cbn.
  rewrite Hpub. repeat split.
Qed.

Lemma generate_private_key_block_inv ctx type_ otstype_ f_rng p_rng seed :
  block_inv ctx ->
  block_inv
    (snd (fst (mbedtls_lms_generate_private_key ctx type_ otstype_ f_rng
                 p_rng seed))).
Proof using Hhdr.
  intros Hinv. unfold mbedtls_lms_generate_private_key.
  destruct (Z.eqb_spec type_ MBEDTLS_LMS_SHA256_M32_H10) as [->|];
    cbn [negb]; [|exact Hinv].
  destruct (Z.eqb_spec otstype_ MBEDTLS_LMOTS_SHA256_N32_W8) as [->|];
    cbn [negb]; [|exact Hinv].
  destruct (have_private_key ctx) eqn:Hhave; [exact Hinv|].
  destruct Hinv as [_ Hno]. destruct (Hno Hhave) as [_ Hpub].
  destruct (f_rng p_rng MBEDTLS_LMOTS_I_KEY_ID_LEN) as [[rc random] p'].
  cbn [priv_params set_priv_params set_type set_otstype set_I_key_identifier
       type otstype I_key_identifier fst snd].
  rewrite (leaf_node_am_supported Hhdr).
  destruct (mbedtls_calloc_ok 0) eqn:Ha0; cbn [negb].
  2: { unfold generate_exit_error, block_inv. cbn. rewrite Hhave.
       split; [discriminate|]. intros _.
       destruct Hpub as [E|[E Ha]]; [|congruence].
       rewrite E. cbn. auto. }
  destruct (mbedtls_calloc_ok 1) eqn:Ha1; cbn [negb].
  2: { unfold generate_exit_error, block_inv. cbn. rewrite Hhave.
       split; [discriminate|]. intros _. auto. }
  cbn [ots_private_keys ots_public_keys set_ots_private_keys
       set_ots_public_keys set_ots_private_keys_block
       set_ots_public_keys_block priv_params].
  match goal with |- context [generate_ots_keys ?n ?r ?i ?o ?k ?s ?a ?b] =>
    pose proof (generate_ots_keys_ret n r i o k s a b) as Hloop;
    destruct (generate_ots_keys n r i o k s a b) as [[[[j ret] idx] sks] pks]
  end.
  destruct j.
  - destruct (Z.eqb_spec ret 0); [contradiction|]. cbn [negb fst snd].
    unfold generate_exit_error, block_inv. cbn. rewrite Hhave.
    split; [discriminate|]. intros _. auto.
  - destruct Hloop as [[Hn _] | ->]; [discriminate Hn|].
    cbn [negb Z.eqb fst snd]. unfold block_inv. cbn.
    split; [auto|discriminate].
Qed.

Lemma fold_run_op_block_inv ops st :
  block_inv (fst st) -> block_inv (fst (fold_left run_op ops st)).
Proof using Hhdr.
  revert st. induction ops as [|op ops IH]; intros st Hinv; cbn; [exact Hinv|].
  apply IH. destruct op as [t o f seed|f msg sig tree|pub tree]; cbn [run_op].
  - pose proof (generate_private_key_block_inv (fst st) t o f (snd st) seed
                  Hinv) as Hg.
    destruct (mbedtls_lms_generate_private_key _ _ _ _ _ _) as [[ret c] p].
    exact Hg.
  - cbn [fst]. unfold block_inv in *.
    destruct (sign_context_parts (fst st) f (snd st) msg sig tree)
      as (_ & Hh & _).
    destruct (sign_context_blocks (fst st) f (snd st) msg sig tree)
      as (Hb1 & Hb2).
    rewrite Hh, Hb1, Hb2. exact Hinv.
  - exact Hinv.
Qed.

(** X23: over any run of calls on a context since
    [mbedtls_lms_init_private], with an allocator that answers every
    call alike, no block is handed to [mbedtls_free] twice, and a context
    that holds a key holds two live arrays. *)
Theorem run_ops_no_double_free ops p_rng :
  let ctx := fst (run_ops ops p_rng) in
  ots_private_keys_block ctx <> block_freed_twice
  /\ ots_public_keys_block ctx <> block_freed_twice
  /\ (have_private_key ctx = true ->
      ots_private_keys_block ctx = block_live
      /\ ots_public_keys_block ctx = block_live).
Proof using Hhdr.
  intros ctx.
  assert (Hinv : block_inv ctx).
  { apply fold_run_op_block_inv. split; [discriminate|].
    intros _. cbn. auto. }
  destruct Hinv as [Hkey Hno].
  split; [|split; [|exact Hkey]].
  - destruct (have_private_key ctx).
    + destruct (Hkey eq_refl) as [-> _]. discriminate.
    + destruct (Hno eq_refl) as [[->| ->] _]; discriminate.
  - destruct (have_private_key ctx).
    + destruct (Hkey eq_refl) as [_ ->]. discriminate.
    + destruct (Hno eq_refl) as [_ [->|[-> _]]]; discriminate.
Qed.

End GenerateMore.

(** ** Further properties of the tree builder and its callers *)

Lemma read_app_r (a b : list byte) (o n : Z) :
  0 <= o -> read (a ++ b) (Z.of_nat (length a) + o) n = read b o n.
Proof.
  intros Ho. unfold read. rewrite Z2Nat.inj_add, Nat2Z.id by lia.
  rewrite drop_app_add. reflexivity.
Qed.

Lemma drop_ptr_store (buf : list byte) (off : Z) (region : list byte)
      (n : nat) :
  (Z.to_nat off <= length buf)%nat ->
  drop (Z.to_nat off + n) (ptr_store buf off region) = drop n region.
Proof.
  intros Hoff. unfold ptr_store.
  replace (Z.to_nat off) with (length (take (Z.to_nat off) buf)) at 1
    by (rewrite length_take; lia).
  apply drop_app_add.
Qed.

Section TreeMore.
Context `{LmsHeader} `{PsaHash} {P_rng : Type} `{Lmots P_rng}.

(** X15: a call of [mbedtls_lms_calculate_public_key] that returns an
    error leaves the root and [have_public_key] of the public context as
    they were.  Turned away at entry (no private key, another pair) it
    returns [BadInput] and changes nothing; past the entry checks it
    returns the code of the tree build, and the public context then
    holds the parameters of the private context already. *)
Theorem calculate_public_key_failure ctx priv tree :
  let r := mbedtls_lms_calculate_public_key ctx priv tree in
  fst r <> 0 ->
  T_1_pub_key (snd r) = T_1_pub_key ctx
  /\ have_public_key (snd r) = have_public_key ctx
  /\ (have_private_key priv = false
      \/ type (priv_params priv) <> MBEDTLS_LMS_SHA256_M32_H10
      \/ otstype (priv_params priv) <> MBEDTLS_LMOTS_SHA256_N32_W8 ->
      r = (MBEDTLS_ERR_LMS_BAD_INPUT_DATA, ctx))
  /\ (have_private_key priv = true ->
      type (priv_params priv) = MBEDTLS_LMS_SHA256_M32_H10 ->
      otstype (priv_params priv) = MBEDTLS_LMOTS_SHA256_N32_W8 ->
      r = (fst (calculate_merkle_tree priv tree),
           set_params ctx (priv_params priv))).
Proof.
  cbv zeta. unfold mbedtls_lms_calculate_public_key.
  destruct (have_private_key priv); cbn [negb];
    [|intros _; cbn; repeat split; auto; discriminate].
  destruct (Z.eqb_spec (type (priv_params priv)) MBEDTLS_LMS_SHA256_M32_H10);
    cbn [negb]; [|intros _; cbn; repeat split; auto; contradiction].
  destruct (Z.eqb_spec (otstype (priv_params priv))
              MBEDTLS_LMOTS_SHA256_N32_W8);
    cbn [negb]; [|intros _; cbn; repeat split; auto; contradiction].
  destruct (calculate_merkle_tree priv tree) as [ret tree'].
  destruct (Z.eqb_spec ret 0) as [->|Hne]; cbn [negb fst snd];
    [intros E; contradiction|].
  intros _. cbn. repeat split; auto.
  intros [E|[E|E]]; [discriminate|contradiction|contradiction].
Qed.

Section OneKey.
Variable ctx : mbedtls_lms_private_t.
Hypothesis Hhdr : rfc8554_header.
Hypothesis Hpsa : psa_contract.
Hypothesis Hty : type (priv_params ctx) = MBEDTLS_LMS_SHA256_M32_H10.

Lemma leaf_value_length pub_key r out :
  length out = 32%nat ->
  length (snd (create_merkle_leaf_value (priv_params ctx) pub_key r out))
  = 32%nat.
Proof using Hpsa.
  intros Hout.
  destruct (create_merkle_leaf_value_spec (priv_params ctx) pub_key r out
              Hpsa) as (Hv & Hf & _).
  destruct (Z.eq_dec
              (fst (create_merkle_leaf_value (priv_params ctx) pub_key r out))
              0) as [E|E].
  - rewrite (Hv E). rewrite length_write; [exact Hout|].
    unfold leaf_hash. destruct Hpsa as (Hd & _). rewrite Hd. lia.
  - rewrite (Hf E). exact Hout.
Qed.

Lemma internal_value_length left right r out :
  length out = 32%nat ->
  length (snd (create_merkle_internal_value (priv_params ctx) left right r
                 out)) = 32%nat.
Proof using Hpsa.
  intros Hout.
  destruct (create_merkle_internal_value_spec (priv_params ctx) left right r
              out Hpsa) as (Hv & Hf & _).
  destruct (Z.eq_dec
              (fst (create_merkle_internal_value (priv_params ctx) left right
                      r out)) 0) as [E|E].
  - rewrite (Hv E). rewrite length_write; [exact Hout|].
    unfold internal_hash. destruct Hpsa as (Hd & _). rewrite Hd. lia.
  - rewrite (Hf E). exact Hout.
Qed.

Lemma merkle_leaf_loop_frame n i tree :
  tree_shape tree -> 0 <= i -> i + Z.of_nat n = 1024 ->
  tree_shape (snd (merkle_leaf_loop n ctx i tree))
  /\ forall k, 0 <= k < 1024 + i ->
       row (snd (merkle_leaf_loop n ctx i tree)) k = row tree k.
Proof using Hhdr Hpsa Hty.
  revert i tree. induction n as [|n IH]; intros i tree Hshape Hi Hn.
  - cbn. split; [exact Hshape|reflexivity].
  - cbn [merkle_leaf_loop].
    rewrite (node_bytes_ctx ctx Hhdr Hty), Hty,
      (internal_node_am_supported Hhdr).
    rewrite (u32_small (1024 + i)) by lia.
    rewrite tree_load_row by lia.
    pose proof (leaf_value_length
                  (public_key (nth (Z.to_nat i) (ots_public_keys ctx)
                                 mbedtls_lmots_init_public))
                  (1024 + i) (row tree (1024 + i))) as Hlen.
    destruct (create_merkle_leaf_value _ _ _ _) as [ret1 out].
    cbn [snd] in Hlen.
    specialize (Hlen ltac:(apply tree_shape_row; [assumption|lia])).
    rewrite tree_store_row by lia.
    assert (Hshape' : tree_shape (<[Z.to_nat (1024 + i) := out]> tree))
      by (apply tree_shape_insert; assumption).
    destruct (negb (ret1 =? 0)); cbn [snd].
    + split; [exact Hshape'|]. intros k Hk. apply row_insert_ne; lia.
    + destruct (IH (i + 1) _ Hshape' ltac:(lia) ltac:(lia)) as [Hs Hf].
      split; [exact Hs|]. intros k Hk. rewrite Hf by lia.
      apply row_insert_ne; lia.
Qed.

Lemma merkle_internal_loop_frame n r tree :
  tree_shape tree -> Z.of_nat n = r -> r < 1024 ->
  tree_shape (snd (merkle_internal_loop n ctx r tree))
  /\ forall k, r < k \/ k = 0 ->
       row (snd (merkle_internal_loop n ctx r tree)) k = row tree k.
Proof using Hhdr Hpsa Hty.
  revert r tree. induction n as [|n IH]; intros r tree Hshape Hn Hr.
  - cbn. split; [exact Hshape|reflexivity].
  - cbn [merkle_internal_loop]. cbv zeta.
    rewrite (node_bytes_ctx ctx Hhdr Hty).
    rewrite !tree_load_row by lia.
    pose proof (internal_value_length (row tree (r * 2))
                  (row tree (r * 2 + 1)) r (row tree r)) as Hlen.
    destruct (create_merkle_internal_value _ _ _ _ _) as [ret1 out].
    cbn [snd] in Hlen.
    specialize (Hlen ltac:(apply tree_shape_row; [assumption|lia])).
    rewrite tree_store_row by lia.
    assert (Hshape' : tree_shape (<[Z.to_nat r := out]> tree))
      by (apply tree_shape_insert; assumption).
    destruct (negb (ret1 =? 0)); cbn [snd].
    + split; [exact Hshape'|]. intros k Hk. apply row_insert_ne; lia.
    + destruct (IH (r - 1) _ Hshape' ltac:(lia) ltac:(lia)) as [Hs Hf].
      split; [exact Hs|]. intros k Hk. rewrite Hf by lia.
      apply row_insert_ne; lia.
Qed.

(** X16: whatever the hash backend does, [calculate_merkle_tree] on a
    context of the supported type keeps the shape of the tree buffer
    (2048 rows of 32 bytes) and never writes row 0. *)
Theorem calculate_merkle_tree_frame tree0 :
  tree_shape tree0 ->
  tree_shape (snd (calculate_merkle_tree ctx tree0))
  /\ row (snd (calculate_merkle_tree ctx tree0)) 0 = row tree0 0.
Proof using Hhdr Hpsa Hty.
  intros Hshape. unfold calculate_merkle_tree.
  rewrite Hty, (internal_node_am_supported Hhdr).
  change (u32 (1024 - 1)) with 1023.
  destruct (merkle_leaf_loop_frame (Z.to_nat 1024) 0 tree0 Hshape)
    as [Hs1 Hf1]; [lia|lia|].
  destruct (merkle_leaf_loop _ _ _ _) as [ret1 tree1]. cbn [snd] in Hs1, Hf1.
  destruct (negb (ret1 =? 0)); cbn [snd].
  - split; [exact Hs1|apply Hf1; lia].
  - destruct (merkle_internal_loop_frame (Z.to_nat 1023) 1023 tree1 Hs1)
      as [Hs2 Hf2]; [lia|lia|].
    split; [exact Hs2|]. rewrite Hf2 by lia. apply Hf1. lia.
Qed.

Hypothesis Hots : otstype (priv_params ctx) = MBEDTLS_LMOTS_SHA256_N32_W8.

(** X17: whatever the hash backend does, a return code 0 of
    [calculate_merkle_tree] means that the tree is complete: every leaf
    row is the leaf hash of its OTS public key and every internal row
    the hash of its two children. *)
Theorem calculate_merkle_tree_sound tree0 :
  tree_shape tree0 ->
  fst (calculate_merkle_tree ctx tree0) = 0 ->
  let tree := snd (calculate_merkle_tree ctx tree0) in
  (forall i, 0 <= i < 1024 ->
     row tree (1024 + i) = leaf_hash (key_id ctx) (1024 + i) (leaf_key ctx i))
  /\ (forall r, 1 <= r < 1024 ->
      row tree r
      = internal_hash (key_id ctx) r (row tree (2 * r)) (row tree (2 * r + 1))).
Proof using Hhdr Hpsa Hty Hots.
  intros Hshape Hret tree. subst tree.
  destruct (calculate_merkle_tree ctx tree0) as [ret t] eqn:Hrun.
  cbn [fst snd] in *.
  destruct (calculate_merkle_tree_spec ctx Hhdr Hpsa Hty Hots tree0 ret t
              Hshape Hrun) as [Hv _].
  destruct (Hv Hret) as (_ & Hleaf & Hnode). split; assumption.
Qed.

Lemma merkle_path_loop_tail tree n height curr path :
  tree_shape tree -> 0 <= height -> Z.of_nat n <= 10 ->
  2 ^ Z.of_nat n <= curr < 2 ^ (Z.of_nat n + 1) ->
  (height + Z.of_nat n) * 32 <= Z.of_nat (length path) ->
  drop (Z.to_nat ((height + Z.of_nat n) * 32))
    (merkle_path_loop n ctx tree height curr path)
  = drop (Z.to_nat ((height + Z.of_nat n) * 32)) path.
Proof using Hhdr Hty.
  intros Hshape. revert height curr path.
  induction n as [|n IH]; intros height curr path Hh Hn Hc Hlen.
  - reflexivity.
  - cbn [merkle_path_loop]. cbv zeta.
    rewrite (node_bytes_ctx ctx Hhdr Hty). unfold memcpy.
    rewrite Nat2Z.inj_succ in Hc, Hn, Hlen |- *.
    replace (Z.succ (Z.of_nat n)) with (Z.of_nat n + 1) in * by lia.
    pose proof (level_bound (Z.of_nat n + 1) ltac:(lia)) as Hb.
    pose proof (lxor_1_level curr (Z.of_nat n + 1) ltac:(lia) Hc) as Hadj.
    change (nth (Z.to_nat (Z.lxor curr 1)) tree [])
      with (row tree (Z.lxor curr 1)).
    assert (Hrl : length (row tree (Z.lxor curr 1)) = 32%nat)
      by (apply tree_shape_row; [assumption|lia]).
    rewrite (read_all (row tree (Z.lxor curr 1)) 32) by lia.
    assert (Hw : length (write path (height * 32) (row tree (Z.lxor curr 1)))
                 = length path) by (apply length_write; lia).
    replace (height + (Z.of_nat n + 1)) with (height + 1 + Z.of_nat n) by lia.
    rewrite IH; [|lia|lia|apply shiftr_1_level; [lia|]|rewrite Hw; lia].
    + apply drop_write; lia.
    + replace (Z.of_nat n + 2) with (Z.of_nat n + 1 + 1) by lia. exact Hc.
Qed.

End OneKey.

(** X18: the authentication path that [get_merkle_path] extracts for
    leaf [q] leads [mbedtls_lms_verify]'s climb from the row of that leaf
    to the root: with a hash backend that does not fail,
    [get_merkle_path] returns 0, and on any signature holding that path
    at offset 1144 the climb from [tree[1024 + q]] ends in [tree[1]]. *)
Theorem merkle_path_authenticates ctx pub q prefix buf tree0 :
  rfc8554_header -> psa_contract -> psa_never_fails ->
  type (priv_params ctx) = MBEDTLS_LMS_SHA256_M32_H10 ->
  otstype (priv_params ctx) = MBEDTLS_LMOTS_SHA256_N32_W8 ->
  params pub = priv_params ctx ->
  tree_shape tree0 -> 0 <= q < 1024 ->
  length prefix = 1144%nat -> 320 <= Z.of_nat (length buf) ->
  let tree := snd (calculate_merkle_tree ctx tree0) in
  let gp := get_merkle_path ctx (1024 + q) buf tree0 in
  fst gp = 0
  /\ verify_climb 10 pub (prefix ++ snd gp) 0 (1024 + q)
       (row tree (1024 + q))
     = row tree 1.
Proof.
  intros Hhdr Hpsa Hnf Hty Hots Hp Hshape Hq Hpre Hbuf tree gp.
  subst tree gp.
  destruct (calculate_merkle_tree_runs ctx Hhdr Hpsa Hnf Hty Hots tree0
              Hshape) as (Hret & Hs & _ & Hnode).
  pose proof Hhdr as (Hh & Hm & _).
  unfold get_merkle_path.
  destruct (calculate_merkle_tree ctx tree0) as [ret t].
  cbn [fst snd] in *. subst ret. cbn [negb Z.eqb fst snd].
  split; [reflexivity|].
  rewrite Hty, Hh.
  destruct (merkle_path_loop_spec ctx t (Z.to_nat 10) 0 (1024 + q) buf)
    as (_ & Hpath & _); try assumption; try lia.
  { rewrite Hty. exact Hm. }
  { change (2 ^ Z.of_nat (Z.to_nat 10)) with 1024.
    change (2 ^ (Z.of_nat (Z.to_nat 10) + 1)) with 2048. lia. }
  apply (verify_climb_root pub _ t (key_id ctx)); try assumption; try lia.
  - rewrite Hp, Hty. exact Hm.
  - rewrite Hp, Hots. apply (sig_path_offset_supported Hhdr).
  - rewrite Hp. reflexivity.
  - intros j Hj.
    replace 1144 with (Z.of_nat (length prefix)) by lia.
    rewrite read_app_r by lia. apply Hpath. exact Hj.
Qed.

(** X19: a call of [mbedtls_lms_sign] that returns 0 has written the
    first 1464 bytes of the signature buffer only: the bytes after them
    are as before. *)
Theorem sign_buffer_tail ctx f_rng p_rng msg sig tree0 :
  rfc8554_header -> psa_contract -> lmots_sign_length ->
  0 <= q_next_usable_key ctx -> tree_shape tree0 ->
  let r := mbedtls_lms_sign ctx f_rng p_rng msg sig tree0 in
  sign_ret r = 0 ->
  drop 1464 (sign_sig r) = drop 1464 sig.
Proof.
  intros Hhdr Hpsa Hsl Hq0 Hshape r Hret. subst r.
  destruct (sign_success_entry ctx f_rng p_rng msg sig tree0 Hhdr Hret)
    as (Hhave & Hty & Hots & Hlen & Hq).
  rewrite sign_unfold in * by (try assumption; lia).
  cbv zeta in *.
  specialize (Hsl (nth (Z.to_nat (q_next_usable_key ctx))
                     (ots_private_keys ctx) mbedtls_lmots_init_private)
                f_rng p_rng msg 1464).
  destruct (mbedtls_lmots_sign _ _ _ _ _) as [[[ret sk] p'] osig].
  cbn [fst snd] in *.
  destruct (Z.eqb_spec ret 0) as [->|Hne]; cbn [negb] in *;
    [|cbn in Hret; contradiction].
  specialize (Hsl eq_refl).
  assert (Hol : length osig = 1136%nat).
  { destruct Hhdr as (_ & _ & _ & Hs & _). rewrite Hs in Hsl. lia. }
  set (ctx1 := set_ots_private_keys _ _) in *.
  set (sig1 := write sig 4 osig) in *.
  set (sig2 := write sig1 1140 _) in *.
  set (sig3 := write sig2 0 _) in *.
  assert (Hl1 : length sig1 = length sig) by (apply length_write; lia).
  assert (Hl2 : length sig2 = length sig).
  { unfold sig2. rewrite length_write; [exact Hl1|].
    rewrite length_encode. lia. }
  assert (Hl3 : length sig3 = length sig).
  { unfold sig3. rewrite length_write; [exact Hl2|].
    rewrite length_encode. lia. }
  unfold get_merkle_path in *.
  rewrite (calculate_merkle_tree_ext ctx1 ctx tree0 eq_refl eq_refl) in *.
  destruct (calculate_merkle_tree ctx tree0) as [ret' tree'] eqn:Hcalc.
  cbn [fst snd] in *.
  destruct (calculate_merkle_tree_spec ctx Hhdr Hpsa Hty Hots tree0 ret' tree'
              Hshape Hcalc) as [Hv _].
  destruct (Z.eqb_spec ret' 0) as [->|Hne]; cbn [negb fst snd] in *;
    [|destruct (Z.eqb_spec ret' 0); [contradiction|];
      cbn in Hret; contradiction].
  destruct (Hv eq_refl) as (Hshape' & _).
  cbn [negb Z.eqb sign_sig].
  change (priv_params ctx1) with (priv_params ctx).
  pose proof Hhdr as (Hh & _). rewrite Hty, Hh.
  pose proof (merkle_path_loop_tail ctx1 Hhdr Hty tree' (Z.to_nat 10) 0
                (1024 + q_next_usable_key ctx) (ptr_add sig3 1144) Hshape')
    as Htail.
  change 1464%nat
    with (Z.to_nat 1144 + Z.to_nat ((0 + Z.of_nat (Z.to_nat 10)) * 32))%nat
    at 1.
  rewrite drop_ptr_store by lia.
  rewrite Htail.
  - unfold ptr_add. rewrite drop_drop.
    change (Z.to_nat 1144 + Z.to_nat ((0 + Z.of_nat (Z.to_nat 10)) * 32))%nat
      with 1464%nat.
    unfold sig3. rewrite drop_write by (rewrite ?length_encode; lia).
    unfold sig2. rewrite drop_write by (rewrite ?length_encode; lia).
    unfold sig1. apply drop_write; lia.
  - lia.
  - lia.
  - change (2 ^ Z.of_nat (Z.to_nat 10)) with 1024.
    change (2 ^ (Z.of_nat (Z.to_nat 10) + 1)) with 2048. lia.
  - rewrite length_ptr_add. lia.
Qed.

End TreeMore.

(** ** The further properties on the stand-ins *)

Lemma root_fault_psa_contract : @psa_contract root_fault_psa.
Proof.
  split; [|split].
  - intros m. apply length_replicate.
  - reflexivity.
  - intros status. simpl. unfold test_error_from_psa.
    destruct (Z.eqb_spec status PSA_SUCCESS); [trivial|discriminate].
Qed.

(** X8 on a context without a key. *)
Lemma sign_rejected_at_entry_no_key :
  let r := @mbedtls_lms_sign lms_h test_psa unit test_lmots
             mbedtls_lms_init_private test_rng tt [] (replicate 1464 0) [] in
  sign_ret r = MBEDTLS_ERR_LMS_BAD_INPUT_DATA
  /\ sign_ctx r = mbedtls_lms_init_private
  /\ sign_sig_len r = None.
Proof.
  intros r.
  destruct (@sign_rejected_at_entry lms_h test_psa unit test_lmots
              mbedtls_lms_init_private test_rng tt [] (replicate 1464 0) []
              (or_introl eq_refl))
    as (_ & Hbad & _ & Hctx & _ & _ & Hlen).
  split; [exact (Hbad eq_refl)|split; [exact Hctx|exact Hlen]].
Defined.

(** X10 on the key of the tests, with an RNG that fails. *)
Lemma sign_outcome_failing_rng :
  let r := @mbedtls_lms_sign lms_h test_psa unit test_lmots test_private
             failing_rng tt [] (replicate 1464 0) (test_tree 0) in
  sign_sig_len r = (if sign_ret r =? 0 then Some 1464 else None)
  /\ q_next_usable_key (sign_ctx r) = q_next_usable_key test_private + 1.
Proof.
  intros r.
  pose proof (@sign_outcome lms_h test_psa unit test_lmots test_private
                failing_rng tt [] (replicate 1464 0) (test_tree 0)
                lms_h_rfc8554) as Hthm.
  assert (H1 : have_private_key test_private = true)
    by (vm_compute; reflexivity).
  assert (H2 : type (priv_params test_private) = MBEDTLS_LMS_SHA256_M32_H10)
    by (vm_compute; reflexivity).
  assert (H3 : otstype (priv_params test_private)
               = MBEDTLS_LMOTS_SHA256_N32_W8) by (vm_compute; reflexivity).
  assert (H4 : 1464 <= Z.of_nat (length (replicate 1464 0)))
    by (vm_compute; discriminate).
  assert (H5 : 0 <= q_next_usable_key test_private < 1024)
    by (vm_compute; split; [discriminate|reflexivity]).
  specialize (Hthm H1 H2 H3 H4 H5). cbv zeta in Hthm.
  destruct Hthm as (_ & Hlen & Hq & _).
  split; [exact Hlen|exact Hq].
Defined.

(** X11 on a run of the tests: a key is generated and two signatures are
    asked for. *)
Lemma signed_leaves_increasing_two_signatures :
  let ops :=
    [test_generate;
     op_sign test_rng [] (replicate 1464 0) (test_tree 0);
     op_sign test_rng [1] (replicate 1464 0) (test_tree 0)] in
  StronglySorted Z.lt
    (@signed_leaves lms_h test_psa test_platform unit test_lmots ops
       (mbedtls_lms_init_private, tt))
  /\ Forall (fun q => 0 <= q < 1024)
       (@signed_leaves lms_h test_psa test_platform unit test_lmots ops
          (mbedtls_lms_init_private, tt))
  /\ (length (@signed_leaves lms_h test_psa test_platform unit test_lmots ops
                (mbedtls_lms_init_private, tt)) <= 1024)%nat.
Proof.
  intros ops.
  exact (@signed_leaves_increasing lms_h test_psa test_platform unit
           test_lmots lms_h_rfc8554 ops tt).
Defined.

(** X12 on the key of the tests and a failed signature request. *)
Lemma public_key_stable_test_run :
  @mbedtls_lms_calculate_public_key lms_h test_psa unit test_lmots
    mbedtls_lms_init_public
    (fst (@run_ops lms_h test_psa test_platform unit test_lmots
            ([test_generate] ++ [test_sign_failing_rng]) tt))
    (test_tree 0)
  = @mbedtls_lms_calculate_public_key lms_h test_psa unit test_lmots
      mbedtls_lms_init_public
      (fst (@run_ops lms_h test_psa test_platform unit test_lmots
              [test_generate] tt))
      (test_tree 0).
Proof.
  destruct (@public_key_stable lms_h test_psa test_platform unit test_lmots
              lms_h_rfc8554 [test_generate] [test_sign_failing_rng] tt
              mbedtls_lms_init_public (test_tree 0))
    as (_ & _ & _ & Hpk); [vm_compute; reflexivity|exact Hpk].
Defined.

(** X13 on the stand-ins. *)
Lemma generate_private_key_success_test_key :
  let r := @mbedtls_lms_generate_private_key lms_h test_platform unit
             test_lmots mbedtls_lms_init_private MBEDTLS_LMS_SHA256_M32_H10
             MBEDTLS_LMOTS_SHA256_N32_W8 test_rng tt [] in
  have_private_key (snd (fst r)) = true
  /\ q_next_usable_key (snd (fst r)) = 0
  /\ length (ots_private_keys (snd (fst r))) = 1024%nat.
Proof.
  intros r.
  destruct (@generate_private_key_success lms_h test_platform unit test_lmots
              lms_h_rfc8554 mbedtls_lms_init_private
              MBEDTLS_LMS_SHA256_M32_H10 MBEDTLS_LMOTS_SHA256_N32_W8
              test_rng tt [])
    as (_ & _ & _ & Hhave & Hq & _ & _ & _ & _ & Hlen & _);
    [vm_compute; reflexivity|].
  split; [exact Hhave|split; [exact Hq|exact Hlen]].
Defined.

(** X14 on an allocator that refuses the second array. *)
Lemma generate_private_key_failure_second_alloc :
  let r := @mbedtls_lms_generate_private_key lms_h second_alloc_fails unit
             test_lmots mbedtls_lms_init_private MBEDTLS_LMS_SHA256_M32_H10
             MBEDTLS_LMOTS_SHA256_N32_W8 test_rng tt [] in
  fst (fst r) = MBEDTLS_ERR_LMS_ALLOC_FAILED
  /\ have_private_key (snd (fst r)) = false
  /\ ots_private_keys (snd (fst r)) = [].
Proof.
  intros r.
  destruct (@generate_private_key_failure lms_h second_alloc_fails unit
              test_lmots lms_h_rfc8554 mbedtls_lms_init_private
              MBEDTLS_LMS_SHA256_M32_H10 MBEDTLS_LMOTS_SHA256_N32_W8
              test_rng tt [] (or_introl eq_refl))
    as (Hhave & _ & _ & Hrel); [vm_compute; discriminate|].
  destruct (Hrel eq_refl eq_refl eq_refl) as (Hpriv & _ & _ & _ & Halloc & _).
  split; [exact (Halloc (or_intror eq_refl))|split; [exact Hhave|exact Hpriv]].
Defined.

(** X22 on the stand-ins: a first call fails in the key loop, at leaf 1,
    and leaves [ots_public_keys] dangling; a second call, whose
    allocations are refused, frees it again. *)
Lemma generate_private_key_frees_stale_array_retry :
  let first :=
    @mbedtls_lms_generate_private_key lms_h test_platform unit
      keygen_fault_lmots mbedtls_lms_init_private MBEDTLS_LMS_SHA256_M32_H10
      MBEDTLS_LMOTS_SHA256_N32_W8 test_rng tt [] in
  let second :=
    @mbedtls_lms_generate_private_key lms_h no_alloc unit keygen_fault_lmots
      (snd (fst first)) MBEDTLS_LMS_SHA256_M32_H10
      MBEDTLS_LMOTS_SHA256_N32_W8 test_rng tt [] in
  fst (fst first) <> 0
  /\ ots_public_keys_block (snd (fst first)) = block_freed
  /\ fst (fst second) = MBEDTLS_ERR_LMS_ALLOC_FAILED
  /\ ots_public_keys_block (snd (fst second)) = block_freed_twice.
Proof.
  intros first second.
  assert (H1 : fst (fst first) <> 0) by (vm_compute; discriminate).
  assert (H2 : have_private_key (snd (fst first)) = false)
    by (vm_compute; reflexivity).
  assert (H3 : ots_public_keys_block (snd (fst first)) = block_freed)
    by (vm_compute; reflexivity).
  destruct (@generate_private_key_frees_stale_array lms_h no_alloc unit
              keygen_fault_lmots (snd (fst first)) test_rng tt [] H2 H3
              eq_refl) as (Hret & _ & Hblock).
  split; [exact H1|split; [exact H3|split; [exact Hret|exact Hblock]]].
Defined.

(** X23 on a run of the tests. *)
Lemma run_ops_no_double_free_test_run :
  ots_public_keys_block
    (fst (@run_ops lms_h test_psa test_platform unit test_lmots
            [test_generate; test_sign_failing_rng; test_generate] tt))
  <> block_freed_twice.
Proof.
  exact (proj1 (proj2 (@run_ops_no_double_free lms_h test_psa test_platform
                         unit test_lmots lms_h_rfc8554
                         [test_generate; test_sign_failing_rng; test_generate]
                         tt))).
Defined.

(** X15 on the key of the tests, with the backend that fails the hash of
    the root. *)
Lemma calculate_public_key_failure_root_fault :
  let r := @mbedtls_lms_calculate_public_key lms_h root_fault_psa unit
             test_lmots mbedtls_lms_init_public test_private (test_tree 0) in
  have_public_key (snd r) = false
  /\ params (snd r) = priv_params test_private.
Proof.
  intros r.
  destruct (@calculate_public_key_failure lms_h root_fault_psa unit test_lmots
              mbedtls_lms_init_public test_private (test_tree 0))
    as (_ & Hhave & _ & Hpast); [vm_compute; discriminate|].
  split; [exact Hhave|].
  unfold r. rewrite Hpast; [reflexivity|vm_compute; reflexivity
                            |vm_compute; reflexivity|vm_compute; reflexivity].
Defined.

(** X16 on the key of the tests, with the backend that fails the hash of
    the root. *)
Lemma calculate_merkle_tree_frame_root_fault :
  row (snd (@calculate_merkle_tree lms_h root_fault_psa unit test_lmots
              test_private (test_tree 5))) 0
  = row (test_tree 5) 0.
Proof.
  destruct (@calculate_merkle_tree_frame lms_h root_fault_psa unit test_lmots
              test_private lms_h_rfc8554 root_fault_psa_contract)
    with (tree0 := test_tree 5) as (_ & Hrow);
    [vm_compute; reflexivity|apply tree_shape_test_tree|exact Hrow].
Defined.

(** X17 on the key of the tests. *)
Lemma calculate_merkle_tree_sound_test_key :
  row (snd (@calculate_merkle_tree lms_h test_psa unit test_lmots test_private
              (test_tree 0))) 1024
  = @leaf_hash test_psa (@key_id unit test_lmots test_private) 1024
      (@leaf_key unit test_lmots test_private 0).
Proof.
  destruct (@calculate_merkle_tree_sound lms_h test_psa unit test_lmots
              test_private lms_h_rfc8554 test_psa_contract)
    with (tree0 := test_tree 0) as (Hleaf & _);
    [vm_compute; reflexivity|vm_compute; reflexivity
    |apply tree_shape_test_tree|vm_compute; reflexivity|].
  exact (Hleaf 0 ltac:(lia)).
Defined.

(** X18 on the key of the tests and leaf 3. *)
Lemma merkle_path_authenticates_leaf_3 :
  let tree :=
    snd (@calculate_merkle_tree lms_h test_psa unit test_lmots test_private
           (test_tree 0)) in
  let gp :=
    @get_merkle_path lms_h test_psa unit test_lmots test_private (1024 + 3)
      (replicate 320 0) (test_tree 0) in
  @verify_climb lms_h test_psa 10
    (set_params mbedtls_lms_init_public (priv_params test_private))
    (replicate 1144 0 ++ snd gp) 0 (1024 + 3) (row tree (1024 + 3))
  = row tree 1.
Proof.
  intros tree gp.
  pose proof (@merkle_path_authenticates lms_h test_psa unit test_lmots
                test_private
                (set_params mbedtls_lms_init_public (priv_params test_private))
                3 (replicate 1144 0) (replicate 320 0) (test_tree 0)
                lms_h_rfc8554 test_psa_contract test_psa_never_fails)
    as Hthm.
  assert (H2 : type (priv_params test_private) = MBEDTLS_LMS_SHA256_M32_H10)
    by (vm_compute; reflexivity).
  assert (H3 : otstype (priv_params test_private)
               = MBEDTLS_LMOTS_SHA256_N32_W8) by (vm_compute; reflexivity).
  assert (H5 : 0 <= 3 < 1024) by lia.
  assert (H6 : length (replicate 1144 0) = 1144%nat)
    by apply length_replicate.
  assert (H7 : 320 <= Z.of_nat (length (replicate 320 0)))
    by (vm_compute; discriminate).
  specialize (Hthm H2 H3 eq_refl (tree_shape_test_tree 0) H5 H6 H7).
  cbv zeta in Hthm. destruct Hthm as (_ & Hclimb). exact Hclimb.
Defined.

(** X19 on the key of the tests and a buffer of 1470 bytes. *)
Lemma sign_buffer_tail_long_buffer :
  drop 1464
    (sign_sig (@mbedtls_lms_sign lms_h test_psa unit test_lmots test_private
                 test_rng tt [] (replicate 1470 9) (test_tree 0)))
  = drop 1464 (replicate 1470 9).
Proof.
  apply (@sign_buffer_tail lms_h test_psa unit test_lmots test_private
           test_rng tt [] (replicate 1470 9) (test_tree 0)
           lms_h_rfc8554 test_psa_contract test_lmots_sign_length).
  - vm_compute. discriminate.
  - apply tree_shape_test_tree.
  - vm_compute. reflexivity.
Defined.
